(** * README generator: technology detection, document synthesis, placeholder resolution

    A shallow embedding of the TypeScript sources of the repository: the
    types ([Repository], [RepoFile], [TechnologyStack]), the service
    [GitHubApiService] ([parseGitHubUrl], manifest fetch and
    [detectTechnologies]), the class [ReadmeGenerator] (the section builders
    and [generateReadme]), the two [replace] calls of [App.handleAnalyze] and
    the form of [RepoAnalyzer] ([validateGitHubUrl], [handleSubmit],
    [handleUrlChange]).

    Conventions of the embedding.
    - A JavaScript string is a [string] of bytes (its UTF-8 encoding).  Every
      token the program searches for or replaces is ASCII, and an ASCII byte
      never occurs inside the encoding of another character, so searching and
      replacing read the same on bytes as on UTF-16 code units.  White
      space is the ASCII one; a character is put in upper case only where
      the pattern [\w] matched it, which makes it an ASCII one.
    - A mutable array is passed as state: a function that changes an array
      returns its new contents.
    - What the program takes from its runtime and not from its own text
      ([fetch], [atob], [JSON.parse], [toLowerCase] on names and paths of any
      script, [localeCompare], the date and percentage formatters, [trim] on
      what the user types) is a [Variable] of the section that uses it, so
      that every theorem holds for every runtime.
    - A number that counts (a size, a byte count) is an integer; a number of
      a JSON document is a double. *)

From Stdlib Require Import String Ascii List ZArith Bool Lia.
From Stdlib Require Import Permutation Sorting.Sorted OrderedTypeEx.
From Stdlib Require Import Numbers.DecimalString.
From Stdlib Require Import Floats.PrimFloat.
Import ListNotations.
Local Open Scope string_scope.
Local Open Scope list_scope.

Set Warnings "-register-all".

(* ================================================================== *)
(** * The runtime's string and array operations *)
(* ================================================================== *)

Module Js.

(** The line feed and the double quote, which a literal cannot hold. *)
Definition lf : string := String (ascii_of_nat 10) EmptyString.
Definition dq : string := String (ascii_of_nat 34) EmptyString.

(** [s.includes(sub)]: [sub] starts at some position of [s]. *)
Fixpoint includes (s sub : string) : bool :=
  if String.prefix sub s then true
  else match s with
       | EmptyString => false
       | String _ s' => includes s' sub
       end.

(** [s.endsWith(suf)]: some suffix of [s] is [suf]. *)
Fixpoint endsWith (s suf : string) : bool :=
  if String.eqb s suf then true
  else match s with
       | EmptyString => false
       | String _ s' => endsWith s' suf
       end.

(** Membership of a character in a string. *)
Fixpoint mem (c : ascii) (s : string) : bool :=
  match s with
  | EmptyString => false
  | String d s' => Ascii.eqb c d || mem c s'
  end.

Definition isUpper (c : ascii) : bool :=
  let n := nat_of_ascii c in (65 <=? n)%nat && (n <=? 90)%nat.
Definition isLower (c : ascii) : bool :=
  let n := nat_of_ascii c in (97 <=? n)%nat && (n <=? 122)%nat.
Definition isDigit (c : ascii) : bool :=
  let n := nat_of_ascii c in (48 <=? n)%nat && (n <=? 57)%nat.

(** A letter from A to Z in lower case, a letter from a to z in upper
    case; every other character as it is. *)
Definition lowerChar (c : ascii) : ascii :=
  if isUpper c then ascii_of_nat (nat_of_ascii c + 32) else c.
Definition upperChar (c : ascii) : ascii :=
  if isLower c then ascii_of_nat (nat_of_ascii c - 32) else c.

Fixpoint mapChars (f : ascii -> ascii) (s : string) : string :=
  match s with
  | EmptyString => EmptyString
  | String c s' => String (f c) (mapChars f s')
  end.


(** The class [\w] of a regular expression without the unicode flag. *)
Definition isWordChar (c : ascii) : bool :=
  isUpper c || isLower c || isDigit c || Ascii.eqb c "_"%char.

(** White space: TAB, LF, VT, FF, CR and the space. *)
Definition isSpace (c : ascii) : bool :=
  let n := nat_of_ascii c in ((9 <=? n)%nat && (n <=? 13)%nat) || (n =? 32)%nat.

Fixpoint trimStart (s : string) : string :=
  match s with
  | EmptyString => EmptyString
  | String c s' => if isSpace c then trimStart s' else s
  end.

Fixpoint trimEnd (s : string) : string :=
  match s with
  | EmptyString => EmptyString
  | String c s' =>
      match trimEnd s' with
      | EmptyString => if isSpace c then EmptyString else String c EmptyString
      | t => String c t
      end
  end.

(** [s.trim()]. *)
Definition trim (s : string) : string := trimEnd (trimStart s).

(** A string as a condition: the empty string is the only falsy one. *)
Definition truthy (s : string) : bool :=
  match s with EmptyString => false | String _ _ => true end.

(** [a || b] on strings. *)
Definition orElse (a b : string) : string := if truthy a then a else b.

(** [arr.join(sep)]. *)
Fixpoint join (sep : string) (l : list string) : string :=
  match l with
  | [] => EmptyString
  | [x] => x
  | x :: rest => x ++ sep ++ join sep rest
  end.

(** [arr.includes(x)] on an array of strings. *)
Definition arrIncludes (l : list string) (x : string) : bool :=
  existsb (String.eqb x) l.

Fixpoint dropChars (n : nat) (s : string) : string :=
  match n, s with
  | O, _ => s
  | S k, EmptyString => EmptyString
  | S k, String _ s' => dropChars k s'
  end.

(** GetSubstitution for a pattern without capture groups: in the replacement
    text, [$$] stands for a dollar, [$&] for the matched text, [$`] for the
    text before the match and [$'] for the text after it; a dollar before
    anything else (a digit included, there being no group) stands for
    itself. *)
Fixpoint getSubstitution (matched before after r : string) : string :=
  match r with
  | EmptyString => EmptyString
  | String c t =>
      if Ascii.eqb c "$"%char then
        match t with
        | EmptyString => String c EmptyString
        | String d u =>
            if Ascii.eqb d "$"%char then String "$"%char (getSubstitution matched before after u)
            else if Ascii.eqb d "&"%char then matched ++ getSubstitution matched before after u
            else if Ascii.eqb d "`"%char then before ++ getSubstitution matched before after u
            else if Ascii.eqb d "'"%char then after ++ getSubstitution matched before after u
            else String c (getSubstitution matched before after t)
        end
      else String c (getSubstitution matched before after t)
  end.

(** The scan of [s.replace(/pat/g, repl)] for a pattern [pat] of literal
    characters (not empty): [before] is what was read so far, [skip] counts
    the characters of the current match that are still to be passed.  A
    match is looked for at each position from left to right; after one, the
    scan goes on behind it. *)
Fixpoint replaceFrom (pat repl : string) (skip : nat) (before s : string) : string :=
  match s with
  | EmptyString => EmptyString
  | String c s' =>
      match skip with
      | S k => replaceFrom pat repl k (before ++ String c EmptyString) s'
      | O =>
          if String.prefix pat s then
            getSubstitution pat before (dropChars (String.length pat) s) repl
              ++ replaceFrom pat repl (String.length pat - 1) (before ++ String c EmptyString) s'
          else String c (replaceFrom pat repl 0 (before ++ String c EmptyString) s')
      end
  end.

(** [s.replace(/pat/g, repl)]. *)
Definition replaceAll (s pat repl : string) : string :=
  replaceFrom pat repl 0 EmptyString s.

(** [s.replace(/\b\w/g, l => l.toUpperCase())]: a word character that does
    not follow a word character is put in upper case. *)
Fixpoint capitalizeFrom (prevWord : bool) (s : string) : string :=
  match s with
  | EmptyString => EmptyString
  | String c s' =>
      String (if isWordChar c && negb prevWord then upperChar c else c)
             (capitalizeFrom (isWordChar c) s')
  end.

Definition capitalizeWords (s : string) : string := capitalizeFrom false s.

(** [s.split('/')[0]]: the text before the first [sep]. *)
Fixpoint beforeFirst (sep : ascii) (s : string) : string :=
  match s with
  | EmptyString => EmptyString
  | String c s' => if Ascii.eqb c sep then EmptyString else String c (beforeFirst sep s')
  end.

(** [[...new Set(xs)]]: the first occurrence of each value, in order. *)
Fixpoint dedupFrom (seen : list string) (xs : list string) : list string :=
  match xs with
  | [] => []
  | x :: rest =>
      if arrIncludes seen x then dedupFrom seen rest
      else x :: dedupFrom (x :: seen) rest
  end.

Definition dedup (xs : list string) : list string := dedupFrom [] xs.

End Js.

(* ================================================================== *)
(** * The regular expressions of the program *)
(* ================================================================== *)

(** A pattern is read as the matcher it denotes: a function from the input
    that is left to the result of the first way to match that the
    backtracking search finds, [None] if there is none.  The continuation
    [k] of a combinator is the rest of the pattern; a group gives the text
    it captured. *)
Module Regex.

(** The characters of a literal [p], then the rest of the pattern. *)
Definition literal {R : Type} (p : string) (k : string -> option R) (s : string) : option R :=
  if String.prefix p s then k (Js.dropChars (String.length p) s) else None.

(** [(p)?]: with the literal first; without it if the rest then fails. *)
Definition optional {R : Type} (p : string) (k : string -> option R) (s : string) : option R :=
  match literal p k s with
  | Some r => Some r
  | None => k s
  end.

(** [([^\/]+)]: one or more characters other than the slash, the longest
    run first and then the shorter ones, until the rest of the pattern
    matches; the run is what the group captures. *)
Fixpoint nonSlashRun {R : Type} (k : string -> option R) (s : string) : option (string * R) :=
  match s with
  | EmptyString => None
  | String c t =>
      if Ascii.eqb c "/"%char then None
      else match nonSlashRun k t with
           | Some (g, r) => Some (String c g, r)
           | None =>
               match k t with
               | Some r => Some (String c EmptyString, r)
               | None => None
               end
           end
  end.

(** [$] with no flag: the end of the input. *)
Definition atEnd (s : string) : option unit :=
  match s with
  | EmptyString => Some tt
  | String _ _ => None
  end.

(** A pattern that does not begin with [^] is tried at each position of
    the input from the left. *)
Fixpoint search {R : Type} (pattern : string -> option R) (s : string) : option R :=
  match pattern s with
  | Some r => Some r
  | None =>
      match s with
      | EmptyString => None
      | String _ t => search pattern t
      end
  end.

End Regex.

(* ================================================================== *)
(** * The types of the repository (types/index.ts) *)
(* ================================================================== *)

(** [RepoFile.type]: ['file' | 'dir']. *)
Inductive FileType : Type := file | dir.

Record License : Type := mkLicense {
  license_name : string;
  spdx_id : string
}.

(** [Repository].  A field of type [string | null] is an [option]; a number
    that counts (stars, forks, kilobytes) is an integer. *)
Module Repository.
Record t : Type := mk {
  name : string;
  full_name : string;
  description : option string;
  html_url : string;
  clone_url : string;
  language : option string;
  languages_url : string;
  topics : list string;
  license : option License;
  default_branch : string;
  created_at : string;
  updated_at : string;
  stargazers_count : Z;
  forks_count : Z;
  size : Z
}.
End Repository.

Module RepoFile.
Record t : Type := mk {
  name : string;
  path : string;
  type : FileType;
  size : option Z;
  download_url : option string
}.
End RepoFile.

(** [TechnologyStack].  [languages] is a [Record<string, number>]: the keys
    in insertion order with their byte counts (a language name is not the
    text of an array index, which an object would list first). *)
Module TechnologyStack.
Record t : Type := mk {
  languages : list (string * Z);
  frameworks : list string;
  tools : list string;
  databases : list string;
  deployment : list string
}.
End TechnologyStack.

(* ================================================================== *)
(** * JSON values, as [JSON.parse] and [response.json()] give them *)
(* ================================================================== *)

Module Json.

(** A number is an IEEE 754 double, as the kernel's floats are. *)
Inductive t : Type :=
| JNull
| JBool (b : bool)
| JNumber (x : float)
| JString (s : string)
| JArray (items : list t)
| JObject (props : list (string * t)).

(** The value of a property read or of an absent one ([None]: undefined),
    as a condition. *)
Definition truthy (v : option t) : bool :=
  match v with
  | None => false
  | Some JNull => false
  | Some (JBool b) => b
  | Some (JNumber x) => negb (PrimFloat.eqb x 0%float) && PrimFloat.eqb x x
  | Some (JString s) => Js.truthy s
  | Some (JArray _) => true
  | Some (JObject _) => true
  end.

(** The binding of [k] in a property list; a later binding of a key
    overrides an earlier one, in a parsed object as in a spread. *)
Fixpoint lookupLast (k : string) (props : list (string * t)) : option t :=
  match props with
  | [] => None
  | (k', v) :: rest =>
      match lookupLast k rest with
      | Some w => Some w
      | None => if String.eqb k k' then Some v else None
      end
  end.

Definition indexKey (i : nat) : string := NilZero.string_of_uint (Nat.to_uint i).

Fixpoint indexedFrom (i : nat) (items : list t) : list (string * t) :=
  match items with
  | [] => []
  | v :: rest => (indexKey i, v) :: indexedFrom (S i) rest
  end.

Fixpoint charsFrom (i : nat) (s : string) : list (string * t) :=
  match s with
  | EmptyString => []
  | String c s' => (indexKey i, JString (String c EmptyString)) :: charsFrom (S i) s'
  end.

(** The own enumerable properties a spread [{...v}] copies: those of an
    object, the indices of an array or of a string, none of undefined, null,
    a boolean or a number. *)
Definition ownProps (v : option t) : list (string * t) :=
  match v with
  | Some (JObject props) => props
  | Some (JArray items) => indexedFrom 0 items
  | Some (JString s) => charsFrom 0 s
  | _ => []
  end.

End Json.

(* ================================================================== *)
(** * Effects: thrown exceptions, the console, the detector's arrays *)
(* ================================================================== *)

(** What is thrown.  [Error msg] is [new Error(msg)]; the others are the
    runtime's own. *)
Inductive Exn : Type :=
| Error (msg : string)
| SyntaxError
| TypeError
| NetworkError
| InvalidCharacterError.

(** The store a call of [detectTechnologies] works on: its four arrays and
    the console ([console.warn], each entry the message and the exception
    logged with it). *)
Record Store : Type := mkStore {
  st_frameworks : list string;
  st_tools : list string;
  st_databases : list string;
  st_deployment : list string;
  st_console : list (string * Exn)
}.

(** A computation reads and changes the store and either throws or returns.
    What was written before a throw stays written. *)
Definition M (A : Type) : Type := Store -> Store * (Exn + A).

Definition ret {A : Type} (a : A) : M A := fun st => (st, inr a).

Definition bind {A B : Type} (m : M A) (k : A -> M B) : M B :=
  fun st =>
    match m st with
    | (st', inl e) => (st', inl e)
    | (st', inr a) => k a st'
    end.

Definition throw {A : Type} (e : Exn) : M A := fun st => (st, inl e).

(** [try { body } catch (error) { handler }]. *)
Definition tryCatch {A : Type} (body : M A) (handler : Exn -> M A) : M A :=
  fun st =>
    match body st with
    | (st', inl e) => handler e st'
    | (st', inr a) => (st', inr a)
    end.

(** A runtime call that may throw. *)
Definition lift {A : Type} (r : Exn + A) : M A := fun st => (st, r).

Declare Scope m_scope.
Delimit Scope m_scope with M.
Notation "x <- m ;; k" := (bind m (fun x => k))
  (at level 61, m at next level, right associativity) : m_scope.
Notation "m ;; k" := (bind m (fun _ => k))
  (at level 61, right associativity) : m_scope.

(** [if (c) body] with no else. *)
Definition when (c : bool) (body : M unit) : M unit :=
  if c then body else ret tt.

Definition warn (msg : string) (e : Exn) : M unit :=
  fun st => (mkStore (st_frameworks st) (st_tools st) (st_databases st) (st_deployment st)
                     (st_console st ++ [(msg, e)]), inr tt).

Definition pushFramework (x : string) : M unit :=
  fun st => (mkStore (st_frameworks st ++ [x]) (st_tools st) (st_databases st) (st_deployment st)
                     (st_console st), inr tt).
Definition pushTool (x : string) : M unit :=
  fun st => (mkStore (st_frameworks st) (st_tools st ++ [x]) (st_databases st) (st_deployment st)
                     (st_console st), inr tt).
Definition pushDatabase (x : string) : M unit :=
  fun st => (mkStore (st_frameworks st) (st_tools st) (st_databases st ++ [x]) (st_deployment st)
                     (st_console st), inr tt).
Definition pushDeployment (x : string) : M unit :=
  fun st => (mkStore (st_frameworks st) (st_tools st) (st_databases st) (st_deployment st ++ [x])
                     (st_console st), inr tt).

(** The four arrays as declared: empty. *)
Definition declareArrays : M unit :=
  fun st => (mkStore [] [] [] [] (st_console st), inr tt).

Definition getStore : M Store := fun st => (st, inr st).

(* ================================================================== *)
(** * services/githubApi.ts: [GitHubApiService] *)
(* ================================================================== *)

Module GitHubApiService.
Local Open Scope m_scope.

Definition GITHUB_API_BASE : string := "https://api.github.com".

(** What [fetch] resolves to: [response.ok], [response.statusText] and
    what [response.json()] gives or throws. *)
Record Response : Type := mkResponse {
  ok : bool;
  statusText : string;
  json : Exn + Json.t
}.

(** [v.k] for a key [k] that no prototype defines: reading a property of
    null throws, an object gives its binding, any other value has none. *)
Definition getProp (v : Json.t) (k : string) : M (option Json.t) :=
  match v with
  | Json.JNull => throw TypeError
  | Json.JObject props => ret (Json.lookupLast k props)
  | _ => ret None
  end.

(** [c.replace(/\n/g, '')] for a truthy property [c]: only a string has the
    method. *)
Definition stripLineFeeds (c : option Json.t) : M string :=
  match c with
  | Some (Json.JString s) => ret (Js.replaceAll s Js.lf EmptyString)
  | _ => throw TypeError
  end.

Section Service.

(** The runtime: the network, base64 decoding and the JSON parser, each
    returning a value or the exception it throws, and the lower-casing of
    a text. *)
Variable fetch : string -> Exn + Response.
Variable atob : string -> Exn + string.
Variable JSON_parse : string -> Exn + Json.t.

(** [s.toLowerCase()], which maps the letters of every script. *)
Variable toLowerCase : string -> string.

Definition fetchGitHub (url : string) : M Json.t :=
  response <- lift (fetch (GITHUB_API_BASE ++ url)) ;;
  if negb (ok response)
  then throw (Error ("GitHub API error: " ++ statusText response))
  else lift (json response).

Definition contentsUrl (owner repo path : string) : string :=
  "/repos/" ++ owner ++ "/" ++ repo ++ "/contents/" ++ path.

Definition getFileContent (owner repo path : string) : M string :=
  tryCatch
    (response <- fetchGitHub (contentsUrl owner repo path) ;;
     content <- getProp response "content" ;;
     if Json.truthy content
     then (stripped <- stripLineFeeds content ;; lift (atob stripped))
     else throw (Error "File content not available"))
    (fun error =>
       warn ("Could not fetch " ++ path ++ ":") error ;;
       ret EmptyString).

(** The rules on the merged dependencies of package.json, in the order of
    the source; [dep k] is the condition [allDeps.k]. *)
Definition packageRules (allDeps : list (string * Json.t)) : M unit :=
  let dep k := Json.truthy (Json.lookupLast k allDeps) in
  (* React ecosystem *)
  when (dep "react")
    (pushFramework "React" ;;
     when (dep "next" || dep "nextjs") (pushFramework "Next.js") ;;
     when (dep "gatsby") (pushFramework "Gatsby") ;;
     when (dep "react-native") (pushFramework "React Native")) ;;
  (* Vue ecosystem *)
  when (dep "vue")
    (pushFramework "Vue.js" ;;
     when (dep "nuxt") (pushFramework "Nuxt.js")) ;;
  (* Angular *)
  when (dep "angular" || dep "@angular/core") (pushFramework "Angular") ;;
  (* Other frameworks *)
  when (dep "svelte") (pushFramework "Svelte") ;;
  when (dep "express") (pushFramework "Express.js") ;;
  when (dep "fastify") (pushFramework "Fastify") ;;
  when (dep "@nestjs/core") (pushFramework "NestJS") ;;
  when (dep "koa") (pushFramework "Koa.js") ;;
  when (dep "hapi") (pushFramework "Hapi.js") ;;
  (* Build tools *)
  when (dep "webpack") (pushTool "Webpack") ;;
  when (dep "vite") (pushTool "Vite") ;;
  when (dep "parcel") (pushTool "Parcel") ;;
  when (dep "rollup") (pushTool "Rollup") ;;
  when (dep "esbuild") (pushTool "ESBuild") ;;
  (* CSS frameworks *)
  when (dep "tailwindcss") (pushTool "Tailwind CSS") ;;
  when (dep "bootstrap") (pushTool "Bootstrap") ;;
  when (dep "@mui/material") (pushTool "Material-UI") ;;
  when (dep "antd") (pushTool "Ant Design") ;;
  when (dep "styled-components") (pushTool "Styled Components") ;;
  (* Testing *)
  when (dep "jest") (pushTool "Jest") ;;
  when (dep "vitest") (pushTool "Vitest") ;;
  when (dep "mocha") (pushTool "Mocha") ;;
  when (dep "cypress") (pushTool "Cypress") ;;
  when (dep "playwright") (pushTool "Playwright") ;;
  (* Databases and ORMs *)
  when (dep "mongoose") (pushDatabase "MongoDB") ;;
  when (dep "prisma") (pushDatabase "Prisma") ;;
  when (dep "sequelize") (pushDatabase "Sequelize") ;;
  when (dep "typeorm") (pushDatabase "TypeORM") ;;
  when (dep "mysql2" || dep "mysql") (pushDatabase "MySQL") ;;
  when (dep "pg") (pushDatabase "PostgreSQL") ;;
  when (dep "sqlite3") (pushDatabase "SQLite") ;;
  when (dep "redis") (pushDatabase "Redis") ;;
  (* State management *)
  when (dep "redux") (pushTool "Redux") ;;
  when (dep "zustand") (pushTool "Zustand") ;;
  when (dep "mobx") (pushTool "MobX") ;;
  (* TypeScript *)
  when (dep "typescript") (pushTool "TypeScript").

(** The body of the [try] on package.json. *)
Definition packageBody (owner repo : string) : M unit :=
  packageContent <- getFileContent owner repo "package.json" ;;
  when (Js.truthy packageContent)
    (pkg <- lift (JSON_parse packageContent) ;;
     dependencies <- getProp pkg "dependencies" ;;
     devDependencies <- getProp pkg "devDependencies" ;;
     packageRules (Json.ownProps dependencies ++ Json.ownProps devDependencies)).

(** Analyze package.json for Node.js projects. *)
Definition packageBlock (owner repo : string) (fileNames : list string) : M unit :=
  when (Js.arrIncludes fileNames "package.json")
    (tryCatch (packageBody owner repo)
              (fun error => warn "Could not parse package.json:" error)).

Definition pythonRules (pythonDeps : string) : M unit :=
  when (Js.includes pythonDeps "django") (pushFramework "Django") ;;
  when (Js.includes pythonDeps "flask") (pushFramework "Flask") ;;
  when (Js.includes pythonDeps "fastapi") (pushFramework "FastAPI") ;;
  when (Js.includes pythonDeps "streamlit") (pushFramework "Streamlit") ;;
  when (Js.includes pythonDeps "pandas") (pushTool "Pandas") ;;
  when (Js.includes pythonDeps "numpy") (pushTool "NumPy") ;;
  when (Js.includes pythonDeps "tensorflow") (pushFramework "TensorFlow") ;;
  when (Js.includes pythonDeps "pytorch") (pushFramework "PyTorch").

(** Python projects. *)
Definition pythonBlock (owner repo : string) (fileNames : list string) : M unit :=
  when (Js.arrIncludes fileNames "requirements.txt"
        || Js.arrIncludes fileNames "pyproject.toml"
        || Js.arrIncludes fileNames "pipfile")
    (pushTool "pip" ;;
     tryCatch
       (pythonDeps <- (if Js.arrIncludes fileNames "requirements.txt"
                       then getFileContent owner repo "requirements.txt"
                       else ret EmptyString) ;;
        pythonRules pythonDeps)
       (fun error => warn "Could not analyze Python dependencies:" error)).

(** The rules that read the listing alone: Java, .NET, Go, Rust, Docker,
    CI/CD, configuration files, database files. *)
Definition markerRules (files : list RepoFile.t) (fileNames : list string) : M unit :=
  let has := Js.arrIncludes fileNames in
  when (has "pom.xml") (pushTool "Maven" ;; pushFramework "Java") ;;
  when (has "build.gradle") (pushTool "Gradle" ;; pushFramework "Java") ;;
  when (existsb (fun f => Js.endsWith (RepoFile.name f) ".csproj"
                          || Js.endsWith (RepoFile.name f) ".sln") files)
    (pushFramework ".NET") ;;
  when (has "go.mod") (pushFramework "Go") ;;
  when (has "cargo.toml") (pushFramework "Rust" ;; pushTool "Cargo") ;;
  when (has "dockerfile" || has "docker-compose.yml" || has "docker-compose.yaml")
    (pushDeployment "Docker") ;;
  when (existsb (fun f => Js.includes (RepoFile.path f) ".github/workflows") files)
    (pushDeployment "GitHub Actions") ;;
  when (has ".travis.yml") (pushDeployment "Travis CI") ;;
  when (has "jenkinsfile") (pushDeployment "Jenkins") ;;
  when (has ".gitlab-ci.yml") (pushDeployment "GitLab CI") ;;
  when (has "tsconfig.json") (pushTool "TypeScript") ;;
  when (has "tailwind.config.js" || has "tailwind.config.ts") (pushTool "Tailwind CSS") ;;
  when (has "next.config.js") (pushFramework "Next.js") ;;
  when (has "nuxt.config.js") (pushFramework "Nuxt.js") ;;
  when (has "vue.config.js") (pushFramework "Vue.js") ;;
  when (has "angular.json") (pushFramework "Angular") ;;
  when (existsb (fun f => Js.endsWith (RepoFile.name f) ".sql") files) (pushDatabase "SQL") ;;
  when (has "schema.prisma") (pushDatabase "Prisma").

(** The four arrays as the rules leave them, before duplicates go. *)
Definition collect (owner repo : string) (files : list RepoFile.t) : M Store :=
  let fileNames := map (fun f => toLowerCase (RepoFile.name f)) files in
  declareArrays ;;
  packageBlock owner repo fileNames ;;
  pythonBlock owner repo fileNames ;;
  markerRules files fileNames ;;
  getStore.

(** Remove duplicates and return. *)
Definition detectTechnologies (owner repo : string) (files : list RepoFile.t)
    (languages : list (string * Z)) : M TechnologyStack.t :=
  st <- collect owner repo files ;;
  ret (TechnologyStack.mk languages
         (Js.dedup (st_frameworks st))
         (Js.dedup (st_tools st))
         (Js.dedup (st_databases st))
         (Js.dedup (st_deployment st))).

End Service.

(** The store a call starts from: nothing logged. *)
Definition emptyStore : Store := mkStore [] [] [] [] [].


(** ** [parseGitHubUrl] *)

(** [{ owner: string; repo: string }]. *)
Module UrlParts.
Record t : Type := mk {
  owner : string;
  repo : string
}.
End UrlParts.

(** [/github\.com\/([^\/]+)\/([^\/]+)/] at one position of the URL: the two
    groups.  Nothing follows the second group, which so takes every
    character up to the next slash or the end. *)
Definition ownerAndRepo (s : string) : option (string * string) :=
  Regex.literal "github.com/"
    (fun rest =>
       match Regex.nonSlashRun
               (Regex.literal "/" (Regex.nonSlashRun (fun _ => Some tt))) rest with
       | Some (owner, (repo, _)) => Some (owner, repo)
       | None => None
       end) s.

(** [s.replace(/\.git$/, '')]: the one place the pattern can match is the
    end of [s]. *)
Fixpoint stripGitSuffix (s : string) : string :=
  if String.eqb s ".git" then EmptyString
  else match s with
       | EmptyString => EmptyString
       | String c t => String c (stripGitSuffix t)
       end.

(** [None] is the [null] of the source. *)
Definition parseGitHubUrl (url : string) : option UrlParts.t :=
  match Regex.search ownerAndRepo url with
  | None => None
  | Some (owner, repo) => Some (UrlParts.mk owner (stripGitSuffix repo))
  end.

End GitHubApiService.

(* ================================================================== *)
(** * Arrays: the stable sort of [Array.prototype.sort] *)
(* ================================================================== *)

Module JsArray.
Local Open Scope Z_scope.

Section Sort.
Context {A : Type}.
Variable compareFn : A -> A -> Z.

(** [x] goes before the first element it does not come after. *)
Fixpoint insertBy (x : A) (l : list A) : list A :=
  match l with
  | [] => [x]
  | y :: rest => if compareFn x y <=? 0 then x :: l else y :: insertBy x rest
  end.

(** [arr.sort(compareFn)]: the sort is stable, so for a consistent
    comparator its result is the one order that is sorted and keeps equal
    elements in their order, whatever the algorithm; it is computed here by
    insertion from the right. *)
Fixpoint sortBy (l : list A) : list A :=
  match l with
  | [] => []
  | x :: rest => insertBy x (sortBy rest)
  end.

End Sort.

(** [arr.forEach((x, index) => ...)] collecting one value per element. *)
Fixpoint mapIndexedFrom {A B : Type} (f : A -> Z -> B) (index : Z) (l : list A) : list B :=
  match l with
  | [] => []
  | x :: rest => f x index :: mapIndexedFrom f (index + 1) rest
  end.

Definition mapIndexed {A B : Type} (f : A -> Z -> B) (l : list A) : list B :=
  mapIndexedFrom f 0 l.

End JsArray.

(* ================================================================== *)
(** * services/readmeGenerator.ts: [ReadmeGenerator] *)
(* ================================================================== *)

Module ReadmeGenerator.
Local Open Scope Z_scope.

(** [o || d] for [o : string | null]. *)
Definition optOr (o : option string) (d : string) : string :=
  match o with
  | Some s => Js.orElse s d
  | None => d
  end.

Section Names.

(** The runtime: [s.toLowerCase()], which maps the letters of every
    script. *)
Variable toLowerCase : string -> string.

(** [files.map(f => f.name.toLowerCase())]. *)
Definition lowerNames (files : list RepoFile.t) : list string :=
  map (fun f => toLowerCase (RepoFile.name f)) files.

Definition generateHeader (repository : Repository.t) : string :=
  let title :=
    Js.capitalizeWords
      (Js.replaceAll (Js.replaceAll (Repository.name repository) "-" " ") "_" " ") in
  ("# "
      ++ title
      ++ "

"
      ++ (optOr (Repository.description repository) "A modern application built with the latest technologies."))%string.

(** [colors[language] || '000000'], for a language that is no property of
    [Object.prototype]. *)
Definition getLanguageColor (language : string) : string :=
  let colors :=
    [("JavaScript", "F7DF1E"); ("TypeScript", "3178C6"); ("Python", "3776AB");
     ("Java", "ED8B00"); ("Go", "00ADD8"); ("Rust", "000000"); ("C++", "00599C");
     ("C#", "239120"); ("PHP", "777BB4"); ("Ruby", "CC342D"); ("Swift", "FA7343");
     ("Kotlin", "0095D5")] in
  match find (fun kv => String.eqb language (fst kv)) colors with
  | Some (_, color) => Js.orElse color "000000"
  | None => "000000"
  end.

(** [badges[framework] || null], for a label that is no property of
    [Object.prototype]. *)
Definition getFrameworkBadge (framework : string) : option string :=
  let badges :=
    [("React", "[![React](https://img.shields.io/badge/React-20232A?style=for-the-badge&logo=react&logoColor=61DAFB)]()");
     ("Next.js", "[![Next.js](https://img.shields.io/badge/Next.js-000000?style=for-the-badge&logo=next.js&logoColor=white)]()");
     ("Vue.js", "[![Vue.js](https://img.shields.io/badge/Vue.js-35495E?style=for-the-badge&logo=vue.js&logoColor=4FC08D)]()");
     ("Angular", "[![Angular](https://img.shields.io/badge/Angular-DD0031?style=for-the-badge&logo=angular&logoColor=white)]()");
     ("Express.js", "[![Express.js](https://img.shields.io/badge/Express.js-404D59?style=for-the-badge)]()");
     ("Django", "[![Django](https://img.shields.io/badge/Django-092E20?style=for-the-badge&logo=django&logoColor=white)]()");
     ("Flask", "[![Flask](https://img.shields.io/badge/Flask-000000?style=for-the-badge&logo=flask&logoColor=white)]()");
     ("FastAPI", "[![FastAPI](https://img.shields.io/badge/FastAPI-005571?style=for-the-badge&logo=fastapi)]()")] in
  match find (fun kv => String.eqb framework (fst kv)) badges with
  | Some (_, badge) => Some badge
  | None => None
  end.

(** The three GitHub badges every document starts with. *)
Definition starsBadge (repository : Repository.t) : string :=
  ("[![Stars](https://img.shields.io/github/stars/"
      ++ Repository.full_name repository
      ++ "?style=for-the-badge&logo=github)]("
      ++ Repository.html_url repository
      ++ "/stargazers)")%string.
Definition forksBadge (repository : Repository.t) : string :=
  ("[![Forks](https://img.shields.io/github/forks/"
      ++ Repository.full_name repository
      ++ "?style=for-the-badge&logo=github)]("
      ++ Repository.html_url repository
      ++ "/network/members)")%string.
Definition issuesBadge (repository : Repository.t) : string :=
  ("[![Issues](https://img.shields.io/github/issues/"
      ++ Repository.full_name repository
      ++ "?style=for-the-badge&logo=github)]("
      ++ Repository.html_url repository
      ++ "/issues)")%string.

(** The array [badges] of [generateBadges] before it is joined. *)
Definition badgeList (repository : Repository.t) (techStack : TechnologyStack.t) : list string :=
  [starsBadge repository; forksBadge repository; issuesBadge repository]
  ++ match Repository.language repository with
     | Some language =>
         if Js.truthy language then
           let color := getLanguageColor language in
           [("[!["
      ++ language
      ++ "](https://img.shields.io/badge/"
      ++ language
      ++ "-"
      ++ color
      ++ "?style=for-the-badge&logo="
      ++ toLowerCase language
      ++ ")]()")%string]
         else []
     | None => []
     end
  ++ flat_map (fun framework =>
                 match getFrameworkBadge framework with
                 | Some badge => if Js.truthy badge then [badge] else []
                 | None => []
                 end)
              (TechnologyStack.frameworks techStack)
  ++ match Repository.license repository with
     | Some l => [("[![License](https://img.shields.io/badge/License-"
      ++ spdx_id l
      ++ "-green?style=for-the-badge)](LICENSE)")%string]
     | None => []
     end.

Definition generateBadges (repository : Repository.t) (techStack : TechnologyStack.t) : string :=
  Js.join Js.lf (badgeList repository techStack).

Definition detectProjectType (techStack : TechnologyStack.t) (files : list RepoFile.t)
    : option string :=
  let fileNames := lowerNames files in
  let fw := Js.arrIncludes (TechnologyStack.frameworks techStack) in
  if fw "React" then
    if fw "Next.js" then Some "Next.js Web Application" else Some "React Web Application"
  else if fw "Vue.js" then
    if fw "Nuxt.js" then Some "Nuxt.js Web Application" else Some "Vue.js Web Application"
  else if fw "Angular" then Some "Angular Web Application"
  else if fw "Django" then Some "Django Web Application"
  else if fw "Flask" then Some "Flask Web Application"
  else if fw "Express.js" then Some "Node.js Backend API"
  else if fw "FastAPI" then Some "FastAPI Backend API"
  else if Js.arrIncludes fileNames "package.json" then Some "Node.js Application"
  else if Js.arrIncludes fileNames "requirements.txt" then Some "Python Application"
  else if Js.arrIncludes fileNames "pom.xml" then Some "Java Application"
  else if Js.arrIncludes fileNames "cargo.toml" then Some "Rust Application"
  else if Js.arrIncludes fileNames "go.mod" then Some "Go Application"
  else None.

(** ** [formatBytes]

    [bytes] is a whole number below 2^53, as [repository.size * 1024] is.
    The quotient [bytes / Math.pow(k, i)] is then exact (a division by a
    power of two), [toFixed(2)] rounds it to the nearest hundredth (the
    larger of two that are as near), and [parseFloat] of that text followed
    by the conversion back to text writes the same number without the zeros
    that end its fraction.  [Math.floor(Math.log(bytes) / Math.log(k))] is
    taken at its mathematical value, which is the one the doubles give for
    every size that has a unit in the table; far beyond it, just below a
    power of 1024, the quotient of two rounded logarithms can reach the
    next whole number. *)

Definition sizes : list string := ["Bytes"; "KB"; "MB"; "GB"].

Definition showNat (z : Z) : string := NilZero.string_of_uint (N.to_uint (Z.to_N z)).

(** [Math.floor(Math.log(bytes) / Math.log(1024))] for [bytes >= 1]. *)
Definition unitIndex (bytes : Z) : Z := Z.log2 bytes / 10.

(** The hundredths [n] of [(bytes / 1024^i).toFixed(2)]. *)
Definition toFixed2 (bytes i : Z) : Z := (200 * bytes + 1024 ^ i) / (2 * 1024 ^ i).

(** [parseFloat(text) + ''] for the text of [n] hundredths. *)
Definition showHundredths (n : Z) : string :=
  let whole := n / 100 in
  let frac := n mod 100 in
  showNat whole
  ++ (if frac =? 0 then EmptyString
      else if frac mod 10 =? 0 then "." ++ showNat (frac / 10)
      else "." ++ showNat (frac / 10) ++ showNat (frac mod 10)).

Definition formatBytes (bytes : Z) : string :=
  if bytes =? 0 then "0 Bytes"
  else if bytes <? 0 then "NaN undefined"
  else
    let i := unitIndex bytes in
    showHundredths (toFixed2 bytes i) ++ " " ++ nth (Z.to_nat i) sizes "undefined".

Definition shouldIncludeApiDocs (techStack : TechnologyStack.t) (files : list RepoFile.t) : bool :=
  let hasApi :=
    existsb (fun fw =>
               Js.includes fw "Express" || Js.includes fw "Fastify" || Js.includes fw "NestJS"
               || Js.includes fw "Django" || Js.includes fw "Flask" || Js.includes fw "FastAPI")
            (TechnologyStack.frameworks techStack) in
  let hasApiFiles :=
    existsb (fun f =>
               Js.includes (toLowerCase (RepoFile.name f)) "api"
               || Js.includes (toLowerCase (RepoFile.path f)) "routes"
               || Js.includes (toLowerCase (RepoFile.path f)) "controllers"
               || Js.includes (toLowerCase (RepoFile.path f)) "endpoints")
            files in
  hasApi || hasApiFiles.

Definition hasPackageJson (files : list RepoFile.t) : bool :=
  existsb (fun f => String.eqb (toLowerCase (RepoFile.name f)) "package.json") files.

Definition generateTableOfContents (techStack : TechnologyStack.t) (files : list RepoFile.t)
    : string :=
  let sections :=
    ["- [About](#-about)";
     "- [Features](#-features)";
     "- [Technology Stack](#-technology-stack)";
     "- [Installation](#-installation)";
     "- [Usage](#-usage)";
     "- [Project Structure](#-project-structure)"]
    ++ (if shouldIncludeApiDocs techStack files
        then ["- [API Documentation](#-api-documentation)"] else [])
    ++ (if hasPackageJson files
        then ["- [Available Scripts](#-available-scripts)"] else [])
    ++ ["- [Contributing](#-contributing)";
        "- [License](#-license)";
        "- [Contact](#-contact)"] in
  ("## 📚 Table of Contents

"
      ++ Js.join Js.lf sections)%string.

(** ** Features *)

(** Default features if none detected. *)
Definition defaultFeatures : list string :=
  ["✨ Modern and clean architecture";
   "⚡ Optimized for performance";
   "🔒 Secure coding practices";
   "📱 Responsive and user-friendly design"].

(** The array [features] as the rules on the technologies and on the files
    leave it, before the default is looked at. *)
Definition detectedFeatures (repository : Repository.t) (techStack : TechnologyStack.t)
    (files : list RepoFile.t) : list string :=
  let fileNames := lowerNames files in
  let fw := Js.arrIncludes (TechnologyStack.frameworks techStack) in
  let tool := Js.arrIncludes (TechnologyStack.tools techStack) in
  (if fw "React"
   then "⚛️ Built with React for dynamic user interfaces"
        :: (if tool "TypeScript" then ["📘 Full TypeScript support for type safety"] else [])
   else [])
  ++ (if fw "Next.js"
      then ["🚀 Server-side rendering with Next.js"; "📱 Optimized for performance and SEO"]
      else [])
  ++ (if tool "Tailwind CSS" then ["🎨 Responsive design with Tailwind CSS"] else [])
  ++ (if fw "Express.js" then ["🔧 RESTful API with Express.js"] else [])
  ++ (if (0 <? Z.of_nat (length (TechnologyStack.databases techStack)))
      then [("🗄️ Database integration with "
      ++ Js.join ", " (TechnologyStack.databases techStack))%string]
      else [])
  ++ (if Js.arrIncludes fileNames "dockerfile"
      then ["🐳 Docker containerization for easy deployment"] else [])
  ++ (if existsb (fun f => Js.includes (RepoFile.path f) ".github/workflows") files
      then ["🔄 Automated CI/CD with GitHub Actions"] else [])
  ++ (if existsb (fun name => Js.includes name "test" || Js.includes name "spec") fileNames
      then ["🧪 Comprehensive testing suite"] else [])
  ++ (if Js.arrIncludes fileNames ".env.example"
      then ["⚙️ Environment-based configuration"] else []).

(** The array [features] when the section is rendered. *)
Definition featureList (repository : Repository.t) (techStack : TechnologyStack.t)
    (files : list RepoFile.t) : list string :=
  let features := detectedFeatures repository techStack files in
  if (Z.of_nat (length features) =? 0) then features ++ defaultFeatures else features.

Definition generateFeatures (repository : Repository.t) (techStack : TechnologyStack.t)
    (files : list RepoFile.t) : string :=
  "## ✨ Features

" ++ Js.join Js.lf (map (fun feature => feature) (featureList repository techStack files)).

(** ** Installation *)

Definition getCloneUrl (placeholder : string) : string := placeholder.
Definition getRepoName (placeholder : string) : string := placeholder.

Definition packageManagerOf (fileNames : list string) : string :=
  if Js.arrIncludes fileNames "yarn.lock" then "yarn"
  else if Js.arrIncludes fileNames "pnpm-lock.yaml" then "pnpm"
  else "npm".

(** The four texts [installSteps] can be set to. *)
Definition nodeInstallSteps (packageManager : string) : string :=
  ("### Prerequisites
- Node.js (version 16 or higher)
- "
      ++ packageManager
      ++ " package manager

### Installation Steps

1. **Clone the repository**
   ```bash
   git clone "
      ++ getCloneUrl "REPO_URL"
      ++ "
   cd "
      ++ getRepoName "REPO_NAME"
      ++ "
   ```

2. **Install dependencies**
   ```bash
   "
      ++ packageManager
      ++ " install
   ```

3. **Set up environment variables**
   ```bash
   cp .env.example .env
   # Edit .env with your configuration
   ```

4. **Start the development server**
   ```bash
   "
      ++ packageManager
      ++ " run dev
   ```")%string.

Definition pythonInstallSteps : string :=
  ("### Prerequisites
- Python 3.8 or higher
- pip package manager

### Installation Steps

1. **Clone the repository**
   ```bash
   git clone "
      ++ getCloneUrl "REPO_URL"
      ++ "
   cd "
      ++ getRepoName "REPO_NAME"
      ++ "
   ```

2. **Create a virtual environment**
   ```bash
   python -m venv venv
   source venv/bin/activate  # On Windows: venv\Scripts\activate
   ```

3. **Install dependencies**
   ```bash
   pip install -r requirements.txt
   ```

4. **Run the application**
   ```bash
   python main.py
   ```")%string.

Definition javaInstallSteps : string :=
  ("### Prerequisites
- Java 11 or higher
- Maven

### Installation Steps

1. **Clone the repository**
   ```bash
   git clone "
      ++ getCloneUrl "REPO_URL"
      ++ "
   cd "
      ++ getRepoName "REPO_NAME"
      ++ "
   ```

2. **Build the project**
   ```bash
   mvn clean install
   ```

3. **Run the application**
   ```bash
   mvn spring-boot:run
   ```")%string.

Definition genericInstallSteps : string :=
  ("### Prerequisites
- Check the technology stack above for specific requirements

### Installation Steps

1. **Clone the repository**
   ```bash
   git clone "
      ++ getCloneUrl "REPO_URL"
      ++ "
   cd "
      ++ getRepoName "REPO_NAME"
      ++ "
   ```

2. **Follow the setup instructions for your specific technology stack**
   
3. **Configure environment variables if needed**
   
4. **Run the application according to your platform requirements**")%string.

Definition installStepsOf (files : list RepoFile.t) : string :=
  let fileNames := lowerNames files in
  if Js.arrIncludes fileNames "package.json" then
    nodeInstallSteps (packageManagerOf fileNames)
  else if Js.arrIncludes fileNames "requirements.txt" || Js.arrIncludes fileNames "pyproject.toml" then
    pythonInstallSteps
  else if Js.arrIncludes fileNames "pom.xml" then
    javaInstallSteps
  else
    genericInstallSteps.

Definition generateInstallation (techStack : TechnologyStack.t) (files : list RepoFile.t)
    : string :=
  let installSteps := installStepsOf files in
  ("## 🚀 Installation

"
      ++ installSteps)%string.

(** ** Usage *)

Definition generateUsage (repository : Repository.t) (techStack : TechnologyStack.t)
    (files : list RepoFile.t) : string :=
  let fileNames := lowerNames files in
  let usageContent :=
    if Js.arrIncludes fileNames "package.json" then
      let packageManager := packageManagerOf fileNames in
      ("### Development Mode
```bash
"
      ++ packageManager
      ++ " run dev
```

### Production Build
```bash
"
      ++ packageManager
      ++ " run build
"
      ++ packageManager
      ++ " start
```

### Running Tests
```bash
"
      ++ packageManager
      ++ " test
```

### Linting
```bash
"
      ++ packageManager
      ++ " run lint
```")%string
    else if Js.arrIncludes fileNames "requirements.txt" then
      ("### Running the Application
```bash
python main.py
```

### Running Tests
```bash
python -m pytest
```

### Development Mode
```bash
python manage.py runserver  # For Django projects
flask run  # For Flask projects
```")%string
    else
      ("### Basic Usage

After installation, you can start using the application by following these steps:

1. Launch the application using the appropriate command for your environment
2. Access the application through your web browser or terminal
3. Follow the on-screen instructions or refer to the documentation

### Configuration

You can customize the application behavior by modifying the configuration files or environment variables.")%string in
  ("## 📖 Usage

"
      ++ usageContent)%string.

(** ** API documentation, scripts, contributing, license, contact *)

Definition generateApiDocs (techStack : TechnologyStack.t) : string :=
  let port :=
    if Js.arrIncludes (TechnologyStack.frameworks techStack) "Django" then "8000" else "3000" in
  ("## 📡 API Documentation

### Base URL
```
http://localhost:"
      ++ port
      ++ "/api
```

### Authentication
Some endpoints may require authentication. Include the authorization header:
```bash
Authorization: Bearer <your-token>
```

### Common Endpoints

#### Health Check
```http
GET /api/health
```

**Response:**
```json
{
  "
      ++ Js.dq
      ++ "status"
      ++ Js.dq
      ++ ": "
      ++ Js.dq
      ++ "ok"
      ++ Js.dq
      ++ ",
  "
      ++ Js.dq
      ++ "timestamp"
      ++ Js.dq
      ++ ": "
      ++ Js.dq
      ++ "2024-01-01T00:00:00Z"
      ++ Js.dq
      ++ "
}
```

For detailed API documentation, please refer to the API documentation or check if Swagger/OpenAPI documentation is available at `/api/docs`.")%string.

Definition generateScripts : string :=
  ("## 📜 Available Scripts

| Script | Description |
|--------|-------------|
| `npm run dev` | Start development server |
| `npm run build` | Build for production |
| `npm run start` | Start production server |
| `npm run test` | Run test suite |
| `npm run lint` | Run linter |
| `npm run format` | Format code |

Run `npm run` to see all available scripts.")%string.

Definition generateContributing : string :=
  ("## 🤝 Contributing

We welcome contributions to this project! Here's how you can help:

### Getting Started
1. Fork the repository
2. Create a feature branch (`git checkout -b feature/amazing-feature`)
3. Make your changes
4. Commit your changes (`git commit -m 'Add amazing feature'`)
5. Push to the branch (`git push origin feature/amazing-feature`)
6. Open a Pull Request

### Development Guidelines
- Follow the existing code style and conventions
- Write clear, concise commit messages
- Add tests for new features
- Update documentation as needed
- Ensure all tests pass before submitting

### Code of Conduct
Please note that this project is released with a [Contributor Code of Conduct](CODE_OF_CONDUCT.md). By participating in this project you agree to abide by its terms.")%string.

Definition generateLicense (repository : Repository.t) : string :=
  let license :=
    match Repository.license repository with
    | Some l => Js.orElse (license_name l) "MIT License"
    | None => "MIT License"
    end in
  let spdxId :=
    match Repository.license repository with
    | Some l => Js.orElse (spdx_id l) "MIT"
    | None => "MIT"
    end in
  ("## 📄 License

This project is licensed under the "
      ++ license
      ++ " - see the [LICENSE](LICENSE) file for details.

[![License](https://img.shields.io/badge/License-"
      ++ spdxId
      ++ "-blue.svg)](LICENSE)")%string.

Definition generateContact (repository : Repository.t) : string :=
  let ownerName := Js.beforeFirst "/"%char (Repository.full_name repository) in
  ("## 📞 Contact

**Project Maintainer:** [@"
      ++ ownerName
      ++ "](https://github.com/"
      ++ ownerName
      ++ ")

**Project Link:** ["
      ++ Repository.html_url repository
      ++ "]("
      ++ Repository.html_url repository
      ++ ")

### Support
- 🐛 **Bug Reports:** [Issues]("
      ++ Repository.html_url repository
      ++ "/issues)
- 💡 **Feature Requests:** [Issues]("
      ++ Repository.html_url repository
      ++ "/issues)
- 📧 **Email:** [Contact via GitHub](https://github.com/"
      ++ ownerName
      ++ ")

### Show your support
Give a ⭐️ if this project helped you!

---

<div align="
      ++ Js.dq
      ++ "center"
      ++ Js.dq
      ++ ">
  Made with ❤️ by the development team
</div>")%string.

Section Runtime.

(** The runtime: the collation of [a.localeCompare(b)] (negative, zero or
    positive), the text of [new Date(s).toLocaleDateString()], and the text
    of [((bytes / total) * 100).toFixed(1)]. *)
Variable localeCompare : string -> string -> Z.
Variable toLocaleDateString : string -> string.
Variable percentOf : Z -> Z -> string.

Definition generateDescription (repository : Repository.t) (techStack : TechnologyStack.t)
    (files : list RepoFile.t) : string :=
  let description :=
    ("## 📋 About

"
      ++ (optOr (Repository.description repository) "This project showcases modern development practices and technologies.")
      ++ "

")%string in
  let description :=
    match detectProjectType techStack files with
    | Some projectType =>
        if Js.truthy projectType
        then (description ++ ("**Project Type:** "
      ++ projectType
      ++ "

")%string)%string
        else description
    | None => description
    end in
  let description := (description ++ ("**Created:** "
      ++ toLocaleDateString (Repository.created_at repository)
      ++ "
")%string)%string in
  let description := (description ++ ("**Last Updated:** "
      ++ toLocaleDateString (Repository.updated_at repository)
      ++ "
")%string)%string in
  let description := (description ++ ("**Repository Size:** "
      ++ formatBytes (Repository.size repository * 1024))%string)%string in
  description.

(** ** Technology stack *)

Definition bulletList (labels : list string) : string :=
  Js.join Js.lf (map (fun label => ("- **" ++ label ++ "**")%string) labels).

Definition generateTechStack (techStack : TechnologyStack.t) : string :=
  let languages := TechnologyStack.languages techStack in
  let sections :=
    (if (0 <? Z.of_nat (length languages)) then
       let total := fold_left (fun a b => a + b) (map snd languages) 0 in
       let languageList :=
         Js.join Js.lf
           (map (fun entry =>
                   let lang := fst entry in
                   let percentage := percentOf (snd entry) total in
                   ("- **"
      ++ lang
      ++ "** ("
      ++ percentage
      ++ "%)")%string)
                (JsArray.sortBy (fun x y => snd y - snd x) languages)) in
       [("### Programming Languages" ++ Js.lf ++ languageList)%string]
     else [])
    ++ (if (0 <? Z.of_nat (length (TechnologyStack.frameworks techStack)))
        then [("### Frameworks & Libraries" ++ Js.lf
               ++ bulletList (TechnologyStack.frameworks techStack))%string]
        else [])
    ++ (if (0 <? Z.of_nat (length (TechnologyStack.tools techStack)))
        then [("### Development Tools" ++ Js.lf
               ++ bulletList (TechnologyStack.tools techStack))%string]
        else [])
    ++ (if (0 <? Z.of_nat (length (TechnologyStack.databases techStack)))
        then [("### Databases & Storage" ++ Js.lf
               ++ bulletList (TechnologyStack.databases techStack))%string]
        else [])
    ++ (if (0 <? Z.of_nat (length (TechnologyStack.deployment techStack)))
        then [("### Deployment & DevOps" ++ Js.lf
               ++ bulletList (TechnologyStack.deployment techStack))%string]
        else []) in
  ("## 🛠 Technology Stack

"
      ++ Js.join (Js.lf ++ Js.lf) sections)%string.

(** ** Project structure *)

(** The comparator of [buildFileTree]: directories first, then files. *)
Definition compareFiles (a b : RepoFile.t) : Z :=
  match RepoFile.type a, RepoFile.type b with
  | dir, file => -1
  | file, dir => 1
  | _, _ => localeCompare (RepoFile.name a) (RepoFile.name b)
  end.

Definition treeLine (count : Z) (f : RepoFile.t) (index : Z) : string :=
  let isLast := index =? count - 1 in
  let prefix := if isLast then "└── " else "├── " in
  let icon := match RepoFile.type f with dir => "📁 " | file => "📄 " end in
  (prefix
      ++ icon
      ++ RepoFile.name f)%string.

(** [files.sort(...)] sorts the array it is called on and returns that same
    array: [buildFileTree] gives back, with the text of the tree, the
    contents the caller's array has after the call. *)
Definition buildFileTree (files : list RepoFile.t) : string * list RepoFile.t :=
  let sortedFiles := JsArray.sortBy compareFiles files in
  let tree := JsArray.mapIndexed (treeLine (Z.of_nat (length sortedFiles))) sortedFiles in
  (Js.join Js.lf tree, sortedFiles).

Definition generateProjectStructure (files : list RepoFile.t) : string * list RepoFile.t :=
  let '(structure, files') := buildFileTree files in
  (("## 📁 Project Structure

```
"
      ++ structure
      ++ "
```")%string, files').

(** ** The document *)

(** The array [sections] of [generateReadme] before the empty ones are
    dropped, with the contents of [files] after the call. *)
Definition allSections (repository : Repository.t) (techStack : TechnologyStack.t)
    (files : list RepoFile.t) : list string * list RepoFile.t :=
  let header := generateHeader repository in
  let badges := generateBadges repository techStack in
  let description := generateDescription repository techStack files in
  let contents := generateTableOfContents techStack files in
  let features := generateFeatures repository techStack files in
  let stack := generateTechStack techStack in
  let installation := generateInstallation techStack files in
  let usage := generateUsage repository techStack files in
  let '(structure, files') := generateProjectStructure files in
  ([header; badges; description; contents; features; stack; installation; usage; structure]
   ++ (if shouldIncludeApiDocs techStack files' then [generateApiDocs techStack] else [])
   ++ (if hasPackageJson files' then [generateScripts] else [])
   ++ [generateContributing; generateLicense repository; generateContact repository],
   files').

(** [sections.filter(section => section.trim())]. *)
Definition keptSections (sections : list string) : list string :=
  filter (fun section => Js.truthy (Js.trim section)) sections.

Definition generateReadme (repository : Repository.t) (techStack : TechnologyStack.t)
    (files : list RepoFile.t) : string * list RepoFile.t :=
  let '(sections, files') := allSections repository techStack files in
  (Js.join (Js.lf ++ Js.lf) (keptSections sections), files').

End Runtime.

End Names.

End ReadmeGenerator.

(* ================================================================== *)
(** * App.tsx: the placeholders of [handleAnalyze] *)
(* ================================================================== *)

Module App.

(** [readme.replace(/REPO_URL/g, repo.clone_url).replace(/REPO_NAME/g, repo.name)]. *)
Definition resolve (readme clone_url name : string) : string :=
  Js.replaceAll (Js.replaceAll readme "REPO_URL" clone_url) "REPO_NAME" name.

Section Runtime.
Variable toLowerCase : string -> string.
Variable localeCompare : string -> string -> Z.
Variable toLocaleDateString : string -> string.
Variable percentOf : Z -> Z -> string.

(** [finalReadme] of [handleAnalyze], from the analysis to the resolved
    document. *)
Definition finalReadme (repo : Repository.t) (detectedTech : TechnologyStack.t)
    (repoFiles : list RepoFile.t) : string :=
  let readme :=
    fst (ReadmeGenerator.generateReadme toLowerCase localeCompare toLocaleDateString
           percentOf repo detectedTech repoFiles) in
  resolve readme (Repository.clone_url repo) (Repository.name repo).

End Runtime.

End App.

(* ================================================================== *)
(** * components/RepoAnalyzer.tsx: the form that takes the URL *)
(* ================================================================== *)

Module RepoAnalyzer.

(** [/^https?:\/\/(www\.)?github\.com\/[^\/]+\/[^\/]+\/?$/.test(s)]. *)
Definition githubRegex (s : string) : bool :=
  match
    Regex.literal "http"
      (Regex.optional "s"
         (Regex.literal "://"
            (Regex.optional "www."
               (Regex.literal "github.com/"
                  (Regex.nonSlashRun
                     (Regex.literal "/"
                        (Regex.nonSlashRun (Regex.optional "/" Regex.atEnd)))))))) s
  with
  | Some _ => true
  | None => false
  end.

(** What a submission of the form does: nothing, the flag [isValidUrl] set
    to false, or the flag set to true and [onAnalyze] called. *)
Inductive Submission : Type :=
| Ignored
| Rejected
| Analyze (trimmedUrl : string).

Section Runtime.

(** The runtime: [s.trim()].  What the user types may hold any white space
    of Unicode, so the component is read for every trimming function. *)
Variable trim : string -> string.

Definition validateGitHubUrl (url : string) : bool := githubRegex (trim url).

Definition handleSubmit (url : string) : Submission :=
  let trimmedUrl := trim url in
  if negb (Js.truthy trimmedUrl) then Ignored
  else if negb (validateGitHubUrl trimmedUrl) then Rejected
  else Analyze trimmedUrl.

(** The value of [isValidUrl] after a change of the input. *)
Definition handleUrlChange (newUrl : string) : bool :=
  if Js.truthy newUrl && negb (validateGitHubUrl newUrl) then false else true.

End Runtime.

Definition exampleRepos : list string :=
  ["https://github.com/facebook/react";
   "https://github.com/microsoft/vscode";
   "https://github.com/vercel/next.js";
   "https://github.com/tailwindlabs/tailwindcss"].

End RepoAnalyzer.

(* ================================================================== *)
(** * The vocabulary of the statements *)
(* ================================================================== *)

Module Spec.
Local Open Scope Z_scope.

(** ** Placeholders *)

(** Two texts of which one begins the other: read from the same place,
    they agree as far as the shorter goes. *)
Definition compatible (a b : string) : bool := String.prefix a b || String.prefix b a.

(** No suffix of [b] (but the empty one) is compatible with [a]: nothing
    that begins inside [b] and runs to its end or beyond can be read as
    [a], nor as a beginning of [a]. *)
Fixpoint suffixesClear (a b : string) : bool :=
  match b with
  | EmptyString => true
  | String _ b' => negb (compatible a b) && suffixesClear a b'
  end.

(** A value that can stand for a token without the token being read
    across it: the value holds no dollar (which GetSubstitution reads as a
    pattern), no suffix of the value begins the token or is begun by it,
    and no suffix of the token begins the value or is begun by it.  In
    particular the value is not empty and does not hold the token. *)
Definition safeFor (token value : string) : bool :=
  Js.truthy token && negb (Js.mem "$"%char value)
  && suffixesClear token value && suffixesClear value token.

(** A text that holds neither placeholder. *)
Definition tokenFree (s : string) : bool :=
  negb (Js.includes s "REPO_URL") && negb (Js.includes s "REPO_NAME").

(** A character of neither placeholder: no occurrence of one runs across
    it. *)
Definition plainChar (c : ascii) : bool :=
  negb (Js.mem c "REPO_URL") && negb (Js.mem c "REPO_NAME").

(** A text that begins, or ends, with such a character. *)
Definition beginsPlain (s : string) : bool :=
  match s with
  | EmptyString => false
  | String c _ => plainChar c
  end.

Fixpoint endsPlain (s : string) : bool :=
  match s with
  | EmptyString => false
  | String c EmptyString => plainChar c
  | String _ s' => endsPlain s'
  end.

(** A text that the two replacements of [handleAnalyze], applied to it
    alone, turn into one that holds neither placeholder.  A text that
    holds none to begin with is such a text, whatever the values; one that
    quotes a placeholder is such a text unless the value put for it reads
    as a placeholder together with what stands around it. *)
Definition resolvesClean (clone_url name t : string) : bool :=
  tokenFree (App.resolve t clone_url name).

(** The texts that [generateReadme] copies into the document from the
    metadata, the profile, the listing and the runtime's formatters: the
    full name and the URL, the two dates, the description, the language
    (when it is not empty) and its lower case, the name and the identifier
    of the license, the names and the percentages of the languages, the
    labels of the four lists, and the names of the files. *)
Definition shownTexts (toLowerCase toLocaleDateString : string -> string)
    (percentOf : Z -> Z -> string) (repository : Repository.t)
    (techStack : TechnologyStack.t) (files : list RepoFile.t) : list string :=
  let languages := TechnologyStack.languages techStack in
  let total := fold_left (fun a b => a + b) (map snd languages) 0 in
  [Repository.full_name repository; Repository.html_url repository;
   toLocaleDateString (Repository.created_at repository);
   toLocaleDateString (Repository.updated_at repository)]
  ++ match Repository.description repository with
     | Some description => [description]
     | None => []
     end
  ++ match Repository.language repository with
     | Some language => if Js.truthy language then [language; toLowerCase language] else []
     | None => []
     end
  ++ match Repository.license repository with
     | Some l => [license_name l; spdx_id l]
     | None => []
     end
  ++ flat_map (fun entry => [fst entry; percentOf (snd entry) total]) languages
  ++ TechnologyStack.frameworks techStack
  ++ TechnologyStack.tools techStack
  ++ TechnologyStack.databases techStack
  ++ TechnologyStack.deployment techStack
  ++ map RepoFile.name files.

(** ** Detection *)

(** The names (in lower case) the detector knows as a manifest, a marker
    or a configuration file. *)
Definition recognizedNames : list string :=
  ["package.json";
   "requirements.txt"; "pyproject.toml"; "pipfile";
   "pom.xml"; "build.gradle";
   "go.mod";
   "cargo.toml";
   "dockerfile"; "docker-compose.yml"; "docker-compose.yaml";
   ".travis.yml"; "jenkinsfile"; ".gitlab-ci.yml";
   "tsconfig.json"; "tailwind.config.js"; "tailwind.config.ts";
   "next.config.js"; "nuxt.config.js"; "vue.config.js"; "angular.json";
   "schema.prisma"].

(** A listing holds a recognized manifest or marker: a name that the
    runtime's [toLowerCase] takes to a recognized one, a .NET project or
    solution, an SQL script, or a path under the workflows directory. *)
Definition hasMarker (toLowerCase : string -> string) (files : list RepoFile.t) : bool :=
  existsb (fun f => Js.arrIncludes recognizedNames (toLowerCase (RepoFile.name f))) files
  || existsb (fun f => Js.endsWith (RepoFile.name f) ".csproj"
                       || Js.endsWith (RepoFile.name f) ".sln"
                       || Js.endsWith (RepoFile.name f) ".sql") files
  || existsb (fun f => Js.includes (RepoFile.path f) ".github/workflows") files.


(** The store with one more warning on the console. *)
Definition logged (st : Store) (msg : string) (e : Exn) : Store :=
  mkStore (st_frameworks st) (st_tools st) (st_databases st) (st_deployment st)
          (st_console st ++ [(msg, e)]).

(** A computation returns from every store: it throws nothing. *)
Definition returns {A : Type} (m : M A) : Prop :=
  forall st, exists st' a, m st = (st', inr a).

(** [x] is seen in [l] before [y] is: the first [x] stands where no [y]
    stood yet. *)
Definition firstSeenBefore (x y : string) (l : list string) : Prop :=
  exists l1 l2, l = l1 ++ x :: l2 /\ ~ In x l1 /\ ~ In y l1 /\ x <> y.

(** ** Sections *)


(** Some rule of the Features section fires: a framework, tool or database
    it knows is in the profile, or a file it knows is in the listing. *)
Definition anySignal (toLowerCase : string -> string) (techStack : TechnologyStack.t)
    (files : list RepoFile.t) : bool :=
  let fileNames := ReadmeGenerator.lowerNames toLowerCase files in
  Js.arrIncludes (TechnologyStack.frameworks techStack) "React"
  || Js.arrIncludes (TechnologyStack.frameworks techStack) "Next.js"
  || Js.arrIncludes (TechnologyStack.tools techStack) "Tailwind CSS"
  || Js.arrIncludes (TechnologyStack.frameworks techStack) "Express.js"
  || negb (Nat.eqb (length (TechnologyStack.databases techStack)) 0)
  || Js.arrIncludes fileNames "dockerfile"
  || existsb (fun f => Js.includes (RepoFile.path f) ".github/workflows") files
  || existsb (fun name => Js.includes name "test" || Js.includes name "spec") fileNames
  || Js.arrIncludes fileNames ".env.example".

(** ** Project structure *)

(** A comparator a sort can rely on: exchanging the arguments exchanges
    the sign, and coming no later is transitive. *)
Definition consistent {A : Type} (compareFn : A -> A -> Z) : Prop :=
  (forall a b, Z.sgn (compareFn b a) = - Z.sgn (compareFn a b))
  /\ (forall a b c, compareFn a b <= 0 -> compareFn b c <= 0 -> compareFn a c <= 0).

(** Coming no later, for a comparator. *)
Definition noLater {A : Type} (compareFn : A -> A -> Z) (a b : A) : Prop :=
  compareFn a b <= 0.

(** Coming no later by name, in the order of a collation. *)
Definition byName (localeCompare : string -> string -> Z) (a b : RepoFile.t) : Prop :=
  localeCompare (RepoFile.name a) (RepoFile.name b) <= 0.

Definition isDir (f : RepoFile.t) : Prop := RepoFile.type f = dir.
Definition isFile (f : RepoFile.t) : Prop := RepoFile.type f = file.

Definition icon (f : RepoFile.t) : string :=
  match RepoFile.type f with dir => "📁 " | file => "📄 " end.

(** The line of an entry that is not the last, and the line of the last. *)
Definition branchLine (f : RepoFile.t) : string := "├── " ++ icon f ++ RepoFile.name f.
Definition lastLine (f : RepoFile.t) : string := "└── " ++ icon f ++ RepoFile.name f.

(** The lines of a tree: a branch for every entry but the last. *)
Fixpoint treeLines (l : list RepoFile.t) : list string :=
  match l with
  | [] => []
  | [f] => [lastLine f]
  | f :: rest => branchLine f :: treeLines rest
  end.


(** ** URLs *)

(** A segment of a path ends where [tail] begins: at the end of the text
    or before a slash. *)
Definition endsSegment (tail : string) : bool :=
  match tail with
  | EmptyString => true
  | String c _ => Ascii.eqb c "/"%char
  end.

(** A name that can stand between two slashes: not empty, no slash. *)
Definition segment (s : string) : bool := Js.truthy s && negb (Js.mem "/"%char s).

(** ** Stores *)

(** From a store in [P], the computation [m] leaves the store in [Q] if it
    returns and in [E] if it throws. *)
Definition hoare {A : Type} (P : Store -> Prop) (m : M A) (Q E : Store -> Prop) : Prop :=
  forall st, P st ->
    match m st with
    | (st', inr _) => Q st'
    | (st', inl _) => E st'
    end.

(** [I] holds after [m] when it held before, however [m] ends. *)
Definition invariant {A : Type} (I : Store -> Prop) (m : M A) : Prop := hoare I m I I.

(** ** Characters *)

(** The text in which each character [c] of [s] gives way to [f c]. *)
Fixpoint eachChar (f : ascii -> string) (s : string) : string :=
  match s with
  | EmptyString => EmptyString
  | String c s' => (f c ++ eachChar f s')%string
  end.

End Spec.

(* ================================================================== *)
(** * A runtime and inputs to evaluate the program on *)
(* ================================================================== *)

Module Sample.
Local Open Scope Z_scope.

Definition sign (c : comparison) : Z :=
  match c with Lt => -1 | Eq => 0 | Gt => 1 end.

(** A lower-casing: that of the letters A to Z, which is what
    [toLowerCase] does to a text of ASCII characters. *)
Definition lowerAscii : string -> string := Js.mapChars Js.lowerChar.

(** A lower-casing that also knows one letter beyond ASCII, as
    [toLowerCase] does: the Kelvin sign (U+212A, the bytes E2 84 AA) becomes
    the letter k. *)
Fixpoint lowerKelvin (s : string) : string :=
  match s with
  | EmptyString => EmptyString
  | String c s' =>
      match s' with
      | String d (String e rest) =>
          if Ascii.eqb c (ascii_of_nat 226) && Ascii.eqb d (ascii_of_nat 132)
             && Ascii.eqb e (ascii_of_nat 170)
          then String "k"%char (lowerKelvin rest)
          else String (Js.lowerChar c) (lowerKelvin s')
      | _ => String (Js.lowerChar c) (lowerKelvin s')
      end
  end.

(** The order [localeCompare] gives to names of ASCII letters and digits in
    the root collation: digits before letters, letters compared without
    their case, and of two names that differ in case only the one with the
    lower-case letter at the first difference comes first.  (Other
    characters are placed by their code here, which the collation does not
    promise.) *)
Definition collate (a b : string) : Z :=
  match String.compare (lowerAscii a) (lowerAscii b) with
  | Lt => -1
  | Gt => 1
  | Eq => sign (String.compare b a)
  end.

(** A date formatter: the day of an ISO timestamp. *)
Definition isoDay (s : string) : string := String.substring 0 10 s.

(** A percentage with one decimal, rounded from the exact quotient. *)
Definition percentOf (bytes total : Z) : string :=
  let tenths := (2000 * bytes + total) / (2 * total) in
  ReadmeGenerator.showNat (tenths / 10) ++ "." ++ ReadmeGenerator.showNat (tenths mod 10).

Definition plainFile (name : string) : RepoFile.t := RepoFile.mk name name file None None.

(** The Kelvin sign, in UTF-8. *)
Definition kelvinSign : string :=
  String (ascii_of_nat 226) (String (ascii_of_nat 132) (String (ascii_of_nat 170) EmptyString)).

(** The names Dockerfile and package.json written with the Kelvin sign
    for their k. *)
Definition kelvinDockerfile : string := "Doc" ++ kelvinSign ++ "erfile".
Definition kelvinPackageJson : string := "pac" ++ kelvinSign ++ "age.json".

Definition directory (name : string) : RepoFile.t := RepoFile.mk name name dir None None.

(** The listing of the specification's example: a file, then a directory. *)
Definition exampleListing : list RepoFile.t := [plainFile "b.txt"; directory "a"].

(** Two files whose names differ in case. *)
Definition mixedCaseListing : list RepoFile.t := [plainFile "B"; plainFile "a"].

(** A listing like this repository's own root. *)
Definition nodeListing : list RepoFile.t :=
  [directory "src"; plainFile "package.json"; plainFile "tsconfig.json";
   plainFile "tailwind.config.js"; plainFile "index.html"].

Definition plainListing : list RepoFile.t := [directory "docs"; plainFile "notes.txt"].

Definition metadata (owner name : string) (kilobytes : Z) : Repository.t :=
  Repository.mk name (owner ++ "/" ++ name) None
    ("https://github.com/" ++ owner ++ "/" ++ name)
    ("https://github.com/" ++ owner ++ "/" ++ name ++ ".git")
    (Some "TypeScript") EmptyString [] None "main"
    "2024-01-01T00:00:00Z" "2024-06-30T12:00:00Z" 3 1 kilobytes.

Definition thisRepository : Repository.t := metadata "akhmadfaizal10" "readme-generator" 1536.

(** A repository whose name begins as REPO_NAME ends, with a description
    that names a placeholder. *)
Definition express : Repository.t :=
  Repository.mk "Express" "expressjs/Express"
    (Some "Fast web framework. Clone it from REPO_URL.")
    "https://github.com/expressjs/Express" "https://github.com/expressjs/Express.git"
    (Some "JavaScript") EmptyString [] (Some (mkLicense "MIT License" "MIT")) "main"
    "2024-01-01T00:00:00Z" "2024-06-30T12:00:00Z" 3 1 1536.

(** The same repository with a description in which the name, put for
    the placeholder, reads as a placeholder with what stands before it. *)
Definition overlapping : Repository.t :=
  Repository.mk "Express" "expressjs/Express" (Some "REPO_NAMREPO_NAME")
    "https://github.com/expressjs/Express" "https://github.com/expressjs/Express.git"
    (Some "JavaScript") EmptyString [] (Some (mkLicense "MIT License" "MIT")) "main"
    "2024-01-01T00:00:00Z" "2024-06-30T12:00:00Z" 3 1 1536.

(** A repository that is named as the placeholder is. *)
Definition placeholderNamed : Repository.t := metadata "octocat" "REPO_NAME" 1536.

Definition noTechnology : TechnologyStack.t := TechnologyStack.mk [] [] [] [] [].

Definition reactStack : TechnologyStack.t :=
  TechnologyStack.mk [("TypeScript", 800); ("JavaScript", 200)]
    ["React"] ["Vite"; "Tailwind CSS"; "TypeScript"] [] [].

(** A network that answers nothing. *)
Definition offline (url : string) : Exn + GitHubApiService.Response := inl NetworkError.

(** A network that answers every request with the same encoded content. *)
Definition online (url : string) : Exn + GitHubApiService.Response :=
  inr (GitHubApiService.mkResponse true "OK"
         (inr (Json.JObject [("content", Json.JString "e30K")]))).

Definition decodeTo (text : string) (encoded : string) : Exn + string := inr text.

Definition packageObject : Json.t :=
  Json.JObject
    [("name", Json.JString "readme-generator");
     ("dependencies", Json.JObject [("react", Json.JString "^18.3.1")]);
     ("devDependencies",
      Json.JObject [("vite", Json.JString "^5.4.2");
                    ("tailwindcss", Json.JString "^3.4.1");
                    ("typescript", Json.JString "^5.5.3")])].

(** A parser that reads one text and rejects every other. *)
Definition parseOnly (text : string) (value : Json.t) (s : string) : Exn + Json.t :=
  if String.eqb s text then inr value else inl SyntaxError.


(** A network that answers as the contents API does: the encoded content
    in lines, each ended by a line feed. *)
Definition wrapped (url : string) : Exn + GitHubApiService.Response :=
  inr (GitHubApiService.mkResponse true "OK"
         (inr (Json.JObject [("content", Json.JString ("e30K" ++ Js.lf))]))).

(** A decoder that takes no line feed. *)
Definition strictDecodeTo (text : string) (encoded : string) : Exn + string :=
  if Js.includes encoded Js.lf then inl InvalidCharacterError else inr text.

(** A repository whose name is a pattern of [replace]: the matched text. *)
Definition dollarNamed : Repository.t :=
  Repository.mk "$&" "octocat/notes" None
    "https://github.com/octocat/notes" "https://github.com/octocat/notes.git"
    None EmptyString [] None "main"
    "2024-01-01T00:00:00Z" "2024-06-30T12:00:00Z" 0 0 1536.

End Sample.

(* ================================================================== *)
(** * Theorems *)
(* ================================================================== *)

Local Open Scope Z_scope.

(** ** Strings *)

Lemma prefix_cons (a b : ascii) (s t : string) :
  String.prefix (String a s) (String b t) = Ascii.eqb a b && String.prefix s t.
Proof.
  simpl. destruct (ascii_dec a b) as [->|n].
  - now rewrite Ascii.eqb_refl.
  - apply Ascii.eqb_neq in n. now rewrite n.
Qed.

Lemma prefix_append_left (p f t : string) :
  (String.length p <= String.length f)%nat ->
  String.prefix p (f ++ t) = String.prefix p f.
Proof.
  revert f. induction p as [|c p IH]; intros f H; [now destruct f, t|].
  destruct f as [|d f]; [simpl in H; lia|].
  cbn [append]. simpl. destruct (ascii_dec c d); [|reflexivity].
  apply IH. simpl in H. lia.
Qed.

Lemma append_inv_head (h a b : string) : (h ++ a)%string = (h ++ b)%string -> a = b.
Proof. induction h; simpl; intros H; [exact H|]. injection H. auto. Qed.

Lemma includes_cons (c : ascii) (s q : string) :
  Js.includes (String c s) q = String.prefix q (String c s) || Js.includes s q.
Proof. cbn [Js.includes]. now destruct (String.prefix q (String c s)). Qed.

Lemma includes_prefix (s q : string) :
  String.prefix q s = true -> Js.includes s q = true.
Proof. intros H. destruct s; cbn [Js.includes]; now rewrite H. Qed.

Lemma join_cons (sep x : string) (l : list string) :
  exists t, Js.join sep (x :: l) = (x ++ t)%string.
Proof.
  destruct l as [|y l].
  - exists EmptyString. simpl. clear. induction x; simpl; congruence.
  - eexists. reflexivity.
Qed.

Lemma trim_truthy (c : ascii) (s : string) :
  Js.isSpace c = false -> Js.truthy (Js.trim (String c s)) = true.
Proof.
  intros H. unfold Js.trim. cbn [Js.trimStart]. rewrite H. cbn [Js.trimEnd].
  destruct (Js.trimEnd s); [now rewrite H|reflexivity].
Qed.

(** ** Replacement *)

(** A replacement text without a dollar stands for itself. *)
Lemma getSubstitution_plain (matched before after r : string) :
  Js.mem "$"%char r = false -> Js.getSubstitution matched before after r = r.
Proof.
  induction r as [|c t IH]; [reflexivity|].
  cbn [Js.mem Js.getSubstitution]. intros H. apply orb_false_elim in H as [Hc Ht].
  rewrite Ascii.eqb_sym in Hc. rewrite Hc. now rewrite IH.
Qed.

Lemma prefix_empty (s : string) : String.prefix EmptyString s = true.
Proof. now destruct s. Qed.

Lemma compatible_sym (a b : string) : Spec.compatible a b = Spec.compatible b a.
Proof. unfold Spec.compatible. apply orb_comm. Qed.

(** A text that begins what starts with [u] is compatible with [u]. *)
Lemma prefix_append_compatible (q u x : string) :
  String.prefix q (u ++ x) = true -> Spec.compatible q u = true.
Proof.
  unfold Spec.compatible. revert q. induction u as [|c u IH]; intros q H.
  - rewrite prefix_empty. apply orb_true_r.
  - destruct q as [|d q]; [reflexivity|].
    cbn [append] in H. rewrite prefix_cons in H. apply andb_prop in H as [Hd H].
    rewrite !prefix_cons, Hd, (Ascii.eqb_sym c d), Hd. cbn [andb]. now apply IH.
Qed.

(** No occurrence of [q] starts inside a text whose suffixes are clear of
    it. *)
Lemma includes_append_clear (q u x : string) :
  Spec.suffixesClear q u = true ->
  Js.includes (u ++ x) q = Js.includes x q.
Proof.
  induction u as [|c u IH]; intros H; [reflexivity|].
  cbn [Spec.suffixesClear] in H. apply andb_prop in H as [Hc Hu].
  change (String c u ++ x)%string with (String c (u ++ x)). rewrite includes_cons.
  destruct (String.prefix q (String c (u ++ x))) eqn:P.
  - apply (prefix_append_compatible q (String c u) x) in P. rewrite P in Hc. discriminate Hc.
  - now apply IH.
Qed.

Section ReplaceFacts.

Variables pat repl : string.
Hypothesis repl_plain : Js.mem "$"%char repl = false.

(** What the scan writes where no replacement starts is what it reads: a
    text [q] none of whose suffixes is compatible with the replacement,
    read at the start of the result, stood at the start of the source. *)
Lemma prefix_replaceFrom (q : string) :
  Spec.suffixesClear repl q = true ->
  forall s before,
    String.prefix q (Js.replaceFrom pat repl 0 before s) = true ->
    String.prefix q s = true.
Proof.
  induction q as [|x q IH]; intros Hq s before H; [apply prefix_empty|].
  cbn [Spec.suffixesClear] in Hq. apply andb_prop in Hq as [Hx Hq].
  destruct s as [|c s]; [discriminate H|].
  cbn [Js.replaceFrom] in H.
  destruct (String.prefix pat (String c s)) eqn:Hp.
  - rewrite getSubstitution_plain in H by exact repl_plain.
    apply prefix_append_compatible in H. rewrite compatible_sym, H in Hx. discriminate Hx.
  - rewrite prefix_cons in H |- *. apply andb_prop in H as [-> H]. simpl.
    eapply IH; eauto.
Qed.

(** An occurrence of [q] in the result of the scan is an occurrence in the
    source, at a place where the pattern does not start. *)
Lemma includes_replaceFrom (q : string) :
  Js.truthy q = true ->
  Spec.suffixesClear repl q = true ->
  Spec.suffixesClear q repl = true ->
  forall s skip before,
    Js.includes (Js.replaceFrom pat repl skip before s) q = true ->
    Js.includes s q = true /\ pat <> q.
Proof.
  intros Hne Hq Hr. induction s as [|c s IH]; intros skip before H.
  - destruct q; discriminate.
  - cbn [Js.replaceFrom] in H. destruct skip as [|k].
    + destruct (String.prefix pat (String c s)) eqn:Hp.
      * rewrite getSubstitution_plain in H by exact repl_plain.
        rewrite includes_append_clear in H by exact Hr.
        apply IH in H as [H Hd]. split; [|exact Hd].
        rewrite includes_cons, H. apply orb_true_r.
      * rewrite includes_cons in H. apply orb_prop in H as [H|H].
        -- assert (E : Js.replaceFrom pat repl 0 before (String c s)
                       = String c (Js.replaceFrom pat repl 0 (before ++ String c EmptyString) s))
             by (cbn [Js.replaceFrom]; now rewrite Hp).
           rewrite <- E in H. apply prefix_replaceFrom in H; [|exact Hq].
           split; [now apply includes_prefix|].
           intros ->. rewrite H in Hp. discriminate Hp.
        -- apply IH in H as [H Hd]. split; [|exact Hd].
           rewrite includes_cons, H. apply orb_true_r.
    + apply IH in H as [H Hd]. split; [|exact Hd].
      rewrite includes_cons, H. apply orb_true_r.
Qed.

End ReplaceFacts.

Lemma safeFor_inv (token value : string) :
  Spec.safeFor token value = true ->
  Js.truthy token = true /\ Js.mem "$"%char value = false
  /\ Spec.suffixesClear token value = true /\ Spec.suffixesClear value token = true.
Proof.
  unfold Spec.safeFor. intros H.
  apply andb_prop in H as [H H4]. apply andb_prop in H as [H H3].
  apply andb_prop in H as [H1 H2]. apply negb_true_iff in H2. auto.
Qed.

(** Replacing a token by a value that is safe for it leaves no occurrence
    of the token. *)
Lemma replaceAll_removes (s token value : string) :
  Spec.safeFor token value = true -> Js.includes (Js.replaceAll s token value) token = false.
Proof.
  intros H. destruct (safeFor_inv _ _ H) as (Ht & Hd & Hv & Hq).
  destruct (Js.includes _ _) eqn:E; [|reflexivity].
  unfold Js.replaceAll in E.
  apply (includes_replaceFrom token value Hd token Ht Hq Hv) in E as [_ Hne]. now elim Hne.
Qed.

(** Replacing a token by a value that is safe for another token brings in
    no occurrence of that other one. *)
Lemma replaceAll_keeps_out (s token other value : string) :
  Spec.safeFor other value = true ->
  Js.includes s other = false ->
  Js.includes (Js.replaceAll s token value) other = false.
Proof.
  intros H Hs. destruct (safeFor_inv _ _ H) as (Ht & Hd & Hv & Hq).
  destruct (Js.includes (Js.replaceAll _ _ _) _) eqn:E; [|reflexivity].
  unfold Js.replaceAll in E.
  apply (includes_replaceFrom token value Hd other Ht Hq Hv) in E as [E _]. congruence.
Qed.

Lemma resolve_no_placeholder (readme clone_url name : string) :
  Spec.safeFor "REPO_URL" clone_url = true ->
  Spec.safeFor "REPO_URL" name = true ->
  Spec.safeFor "REPO_NAME" name = true ->
  Js.includes (App.resolve readme clone_url name) "REPO_URL" = false
  /\ Js.includes (App.resolve readme clone_url name) "REPO_NAME" = false.
Proof.
  intros Hu Hnu Hn. unfold App.resolve. split.
  - apply replaceAll_keeps_out; [exact Hnu|]. now apply replaceAll_removes.
  - now apply replaceAll_removes.
Qed.

(** Synthesis does write both placeholders: every text of the Installation
    section holds them. *)
Lemma generateInstallation_placeholders (toLowerCase : string -> string)
    (techStack : TechnologyStack.t)
    (files : list RepoFile.t) :
  Js.includes (ReadmeGenerator.generateInstallation toLowerCase techStack files) "REPO_URL" = true
  /\ Js.includes (ReadmeGenerator.generateInstallation toLowerCase techStack files)
      "REPO_NAME" = true.
Proof.
  unfold ReadmeGenerator.generateInstallation, ReadmeGenerator.installStepsOf,
    ReadmeGenerator.packageManagerOf.
  destruct (Js.arrIncludes _ "package.json").
  - destruct (Js.arrIncludes _ "yarn.lock"); [|destruct (Js.arrIncludes _ "pnpm-lock.yaml")];
      split; vm_compute; reflexivity.
  - destruct (Js.arrIncludes _ "requirements.txt" || Js.arrIncludes _ "pyproject.toml");
      [|destruct (Js.arrIncludes _ "pom.xml")]; split; vm_compute; reflexivity.
Qed.

Lemma prefix_app (q s t : string) :
  String.prefix q s = true -> String.prefix q (s ++ t) = true.
Proof.
  revert s. induction q as [|c q IH]; intros s H; [apply prefix_empty|].
  destruct s as [|d s]; [discriminate H|].
  cbn [append]. rewrite prefix_cons in H |- *. apply andb_prop in H as [-> H].
  now rewrite IH.
Qed.

Lemma includes_app_l (s t q : string) :
  Js.includes s q = true -> Js.includes (s ++ t) q = true.
Proof.
  induction s as [|c s IH]; intros H.
  - cbn [Js.includes] in H. destruct (String.prefix q EmptyString) eqn:P; [|discriminate H].
    apply includes_prefix. now apply (prefix_app q EmptyString t).
  - cbn [append]. rewrite includes_cons in H |- *. apply orb_prop in H as [H|H].
    + apply (prefix_app q (String c s) t) in H. cbn [append] in H. now rewrite H.
    + rewrite IH by exact H. apply orb_true_r.
Qed.

Lemma includes_app_r (s t q : string) :
  Js.includes t q = true -> Js.includes (s ++ t) q = true.
Proof.
  intros H. induction s as [|c s IH]; [exact H|].
  cbn [append]. rewrite includes_cons, IH. apply orb_true_r.
Qed.

(** What one of the joined texts holds, the whole holds. *)
Lemma join_includes (sep q x : string) (l : list string) :
  In x l -> Js.includes x q = true -> Js.includes (Js.join sep l) q = true.
Proof.
  intros Hin Hx. induction l as [|y l IH]; [destruct Hin|].
  destruct l as [|z l].
  - destruct Hin as [->|[]]. exact Hx.
  - change (Js.join sep (y :: z :: l)) with (y ++ sep ++ Js.join sep (z :: l))%string.
    destruct Hin as [->|Hin]; [now apply includes_app_l|].
    apply includes_app_r, includes_app_r. now apply IH.
Qed.

(** Before resolution the document holds both placeholders: the
    Installation section is always kept. *)
Lemma generateReadme_placeholders (toLowerCase : string -> string)
    (localeCompare : string -> string -> Z)
    (toLocaleDateString : string -> string) (percentOf : Z -> Z -> string)
    (repository : Repository.t) (techStack : TechnologyStack.t) (files : list RepoFile.t) :
  Js.includes
      (fst (ReadmeGenerator.generateReadme toLowerCase localeCompare toLocaleDateString percentOf
                      repository techStack files)) "REPO_URL" = true
  /\ Js.includes (fst (ReadmeGenerator.generateReadme toLowerCase localeCompare toLocaleDateString
                         percentOf repository techStack files)) "REPO_NAME" = true.
Proof.
  destruct (generateInstallation_placeholders toLowerCase techStack files) as [Hu Hn].
  assert (K : In (ReadmeGenerator.generateInstallation toLowerCase techStack files)
                 (ReadmeGenerator.keptSections
                    (fst (ReadmeGenerator.allSections toLowerCase localeCompare toLocaleDateString
                            percentOf repository techStack files)))).
  { unfold ReadmeGenerator.keptSections. apply filter_In. split.
    - unfold ReadmeGenerator.allSections.
      destruct (ReadmeGenerator.generateProjectStructure localeCompare files).
      cbn [fst app]. simpl. tauto.
    - unfold ReadmeGenerator.generateInstallation. cbn [append]. now apply trim_truthy. }
  unfold ReadmeGenerator.generateReadme.
  destruct (ReadmeGenerator.allSections toLowerCase localeCompare toLocaleDateString percentOf
              repository techStack files) as [sections files'].
  cbn [fst] in *. split; eapply join_includes; eauto.
Qed.

(** C1 as stated fails: for a repository named REPO_NAME the resolved
    document holds REPO_NAME (in [cd REPO_NAME], the name standing for the
    placeholder). *)
Lemma placeholder_named_repository_keeps_token :
  Js.includes (App.finalReadme Sample.lowerAscii Sample.collate Sample.isoDay Sample.percentOf
                 Sample.placeholderNamed Sample.noTechnology Sample.plainListing) "REPO_NAME"
  = true.
Proof. vm_compute. reflexivity. Qed.

(** Names and URLs as repositories have them are safe; a value that a
    token overlaps is not. *)
Example safeFor_samples :
  map (Spec.safeFor "REPO_NAME")
      ["readme-generator"; "React-app"; "My_Notes"; "REPO_NAME"; "NAME"; "xR"; "price$&"]
  = [true; true; true; false; false; false; false].
Proof. vm_compute. reflexivity. Qed.

(** Where a value and a token overlap, a text can be found that resolves
    to one holding the token: the name URL after REPO_ reads REPO_URL. *)
Example overlap_writes_a_token :
  App.resolve "see REPO_REPO_NAME" "https://github.com/octocat/URL.git" "URL"
  = "see REPO_URL".
Proof. vm_compute. reflexivity. Qed.

(** ** Arrays of strings *)

Lemma arrIncludes_In (l : list string) (x : string) :
  Js.arrIncludes l x = true <-> In x l.
Proof.
  unfold Js.arrIncludes. rewrite existsb_exists. split.
  - intros (y & Hy & E). apply String.eqb_eq in E. now subst.
  - intros H. exists x. split; [exact H|apply String.eqb_refl].
Qed.

Lemma arrIncludes_not_In (l : list string) (x : string) :
  Js.arrIncludes l x = false <-> ~ In x l.
Proof.
  rewrite <- arrIncludes_In. destruct (Js.arrIncludes l x); split; congruence.
Qed.

Lemma existsb_false_weaken {A : Type} (f g : A -> bool) (l : list A) :
  existsb f l = false -> (forall x, g x = true -> f x = true) -> existsb g l = false.
Proof.
  intros H Hfg. destruct (existsb g l) eqn:E; [|reflexivity].
  apply existsb_exists in E as (x & Hx & Hg).
  assert (existsb f l = true) by (apply existsb_exists; exists x; auto). congruence.
Qed.

(** ** Duplicates *)

Lemma dedupFrom_In (xs seen : list string) (x : string) :
  In x (Js.dedupFrom seen xs) <-> In x xs /\ ~ In x seen.
Proof.
  revert seen. induction xs as [|a xs IH]; intros seen; cbn [Js.dedupFrom].
  - simpl. tauto.
  - destruct (Js.arrIncludes seen a) eqn:E.
    + apply arrIncludes_In in E. rewrite IH. simpl. split.
      * intros [H1 H2]. auto.
      * intros [[->|H1] H2]; [contradiction|auto].
    + apply arrIncludes_not_In in E. simpl. rewrite IH. simpl. split.
      * intros [->|[H1 H2]]; [auto|]. split; [auto|]. intros H. apply H2. now right.
      * intros [[->|H1] H2]; [now left|].
        destruct (string_dec a x) as [->|n]; [now left|right].
        split; [exact H1|]. intros [H|H]; [contradiction|contradiction].
Qed.

Lemma dedupFrom_NoDup (xs seen : list string) : NoDup (Js.dedupFrom seen xs).
Proof.
  revert seen. induction xs as [|a xs IH]; intros seen; cbn [Js.dedupFrom].
  - constructor.
  - destruct (Js.arrIncludes seen a); [apply IH|].
    constructor; [|apply IH]. rewrite dedupFrom_In. intros [_ H]. apply H. now left.
Qed.

(** Only the values seen matter, not how often or in which order. *)
Lemma dedupFrom_ext (xs seen seen' : list string) :
  (forall x, In x seen <-> In x seen') -> Js.dedupFrom seen xs = Js.dedupFrom seen' xs.
Proof.
  revert seen seen'. induction xs as [|a xs IH]; intros seen seen' H; cbn [Js.dedupFrom];
    [reflexivity|].
  assert (E : Js.arrIncludes seen a = Js.arrIncludes seen' a).
  { destruct (Js.arrIncludes seen' a) eqn:E'.
    - apply arrIncludes_In. apply H. now apply arrIncludes_In.
    - apply arrIncludes_not_In. rewrite H. now apply arrIncludes_not_In. }
  rewrite E. destruct (Js.arrIncludes seen' a).
  - now apply IH.
  - f_equal. apply IH. intros x. simpl. now rewrite H.
Qed.

Lemma dedupFrom_app (l1 l2 seen : list string) :
  Js.dedupFrom seen (l1 ++ l2)
  = Js.dedupFrom seen l1 ++ Js.dedupFrom (rev l1 ++ seen) l2.
Proof.
  revert seen. induction l1 as [|a l1 IH]; intros seen; [reflexivity|].
  cbn [app Js.dedupFrom]. destruct (Js.arrIncludes seen a) eqn:E.
  - rewrite IH. f_equal. apply dedupFrom_ext. intros x.
    apply arrIncludes_In in E. cbn [rev]. rewrite !in_app_iff. simpl.
    intuition (subst; auto).
  - cbn [app]. rewrite IH. do 2 f_equal. apply dedupFrom_ext. intros x.
    cbn [rev]. rewrite !in_app_iff. simpl. tauto.
Qed.

Lemma dedupFrom_fixed (l seen : list string) :
  NoDup l -> (forall x, In x l -> ~ In x seen) -> Js.dedupFrom seen l = l.
Proof.
  revert seen. induction l as [|a l IH]; intros seen Hnd Hs; [reflexivity|].
  cbn [Js.dedupFrom]. inversion Hnd as [|? ? Ha Hl]; subst.
  assert (E : Js.arrIncludes seen a = false).
  { apply arrIncludes_not_In. apply Hs. now left. }
  rewrite E. f_equal. apply IH; [exact Hl|].
  intros x Hx [<-|H]; [contradiction|]. apply (Hs x); [now right|exact H].
Qed.

Lemma dedup_NoDup (l : list string) : NoDup (Js.dedup l).
Proof. apply dedupFrom_NoDup. Qed.

Lemma dedup_In (l : list string) (x : string) : In x (Js.dedup l) <-> In x l.
Proof. unfold Js.dedup. rewrite dedupFrom_In. simpl. tauto. Qed.

Lemma dedup_idempotent (l : list string) : Js.dedup (Js.dedup l) = Js.dedup l.
Proof. apply dedupFrom_fixed; [apply dedup_NoDup|]. intros x _ []. Qed.

Lemma dedup_firstSeenBefore (l : list string) (x y : string) :
  Spec.firstSeenBefore x y l -> Spec.firstSeenBefore x y (Js.dedup l).
Proof.
  intros (l1 & l2 & -> & Hx & Hy & Hne). unfold Js.dedup.
  rewrite dedupFrom_app. cbn [Js.dedupFrom].
  assert (E : Js.arrIncludes (rev l1 ++ []) x = false).
  { apply arrIncludes_not_In. rewrite app_nil_r, <- in_rev. exact Hx. }
  rewrite E. eexists _, _. split; [reflexivity|].
  rewrite !dedupFrom_In. tauto.
Qed.

Example dedup_keeps_first :
  Js.dedup ["Vite"; "Tailwind CSS"; "TypeScript"; "TypeScript"; "Tailwind CSS"]
  = ["Vite"; "Tailwind CSS"; "TypeScript"].
Proof. reflexivity. Qed.

(** ** Computations that throw nothing *)

Lemma returns_ret {A : Type} (a : A) : Spec.returns (ret a).
Proof. intros st. now exists st, a. Qed.

Lemma returns_bind {A B : Type} (m : M A) (k : A -> M B) :
  Spec.returns m -> (forall a, Spec.returns (k a)) -> Spec.returns (bind m k).
Proof.
  intros Hm Hk st. destruct (Hm st) as (st1 & a & E).
  destruct (Hk a st1) as (st2 & b & E2).
  exists st2, b. unfold bind. now rewrite E.
Qed.

Lemma returns_when (c : bool) (m : M unit) : Spec.returns m -> Spec.returns (when c m).
Proof. intros H. destruct c; [exact H|apply returns_ret]. Qed.

(** A [try] whose handler throws nothing throws nothing, whatever its body
    does. *)
Lemma returns_tryCatch {A : Type} (body : M A) (handler : Exn -> M A) :
  (forall e, Spec.returns (handler e)) -> Spec.returns (tryCatch body handler).
Proof.
  intros H st. unfold tryCatch. destruct (body st) as [st1 [e|a]].
  - apply H.
  - now exists st1, a.
Qed.

Lemma returns_warn (msg : string) (e : Exn) : Spec.returns (warn msg e).
Proof. intros st. eexists _, tt. reflexivity. Qed.

Lemma returns_pushFramework (x : string) : Spec.returns (pushFramework x).
Proof. intros st. eexists _, tt. reflexivity. Qed.

Lemma returns_pushTool (x : string) : Spec.returns (pushTool x).
Proof. intros st. eexists _, tt. reflexivity. Qed.

Lemma returns_pushDatabase (x : string) : Spec.returns (pushDatabase x).
Proof. intros st. eexists _, tt. reflexivity. Qed.

Lemma returns_pushDeployment (x : string) : Spec.returns (pushDeployment x).
Proof. intros st. eexists _, tt. reflexivity. Qed.

Lemma returns_declareArrays : Spec.returns declareArrays.
Proof. intros st. eexists _, tt. reflexivity. Qed.

Lemma returns_getStore : Spec.returns getStore.
Proof. intros st. now exists st, st. Qed.

Create HintDb returns.
#[local] Hint Resolve returns_ret returns_warn returns_pushFramework returns_pushTool
  returns_pushDatabase returns_pushDeployment returns_declareArrays returns_getStore : returns.

Ltac returns_step :=
  first [ apply returns_bind; [|intros ?]
        | apply returns_when
        | apply returns_tryCatch; intros ?
        | solve [auto with returns] ].

(** ** Detection *)

Lemma lowerNames_no_marker (toLowerCase : string -> string) (files : list RepoFile.t) (k : string) :
  existsb (fun f => Js.arrIncludes Spec.recognizedNames (toLowerCase (RepoFile.name f))) files
  = false ->
  Js.arrIncludes Spec.recognizedNames k = true ->
  Js.arrIncludes (map (fun f => toLowerCase (RepoFile.name f)) files) k = false.
Proof.
  intros H Hk. apply arrIncludes_not_In. intros Hin.
  apply in_map_iff in Hin as (f & <- & Hf).
  assert (E : existsb (fun f => Js.arrIncludes Spec.recognizedNames
                                  (toLowerCase (RepoFile.name f))) files = true)
    by (apply existsb_exists; exists f; auto).
  congruence.
Qed.

Section Detection.
Import GitHubApiService.

Variable fetch : string -> Exn + Response.
Variable atob : string -> Exn + string.
Variable JSON_parse : string -> Exn + Json.t.
Variable toLowerCase : string -> string.

(** [getFileContent] either returns what was decoded and logs nothing, or
    logs one warning and returns the empty string. *)
Lemma getFileContent_cases (owner repo path : string) (st : Store) :
  (exists s, getFileContent fetch atob owner repo path st = (st, inr s))
  \/ (exists e, getFileContent fetch atob owner repo path st
                = (Spec.logged st ("Could not fetch " ++ path ++ ":") e, inr EmptyString)).
Proof.
  unfold getFileContent, tryCatch, bind, fetchGitHub, lift, bind.
  destruct (fetch _) as [e|response]; [right; now exists e|].
  destruct (ok response); cbn [negb]; [|right; eexists; reflexivity].
  destruct (json response) as [e|v]; [right; now exists e|].
  unfold getProp.
  destruct v as [| | | | |props]; try (right; eexists; reflexivity).
  cbn [ret]. destruct (Json.truthy (Json.lookupLast "content" props));
    [|right; eexists; reflexivity].
  unfold stripLineFeeds.
  destruct (Json.lookupLast "content" props) as [[| | |s| |]|];
    try (right; eexists; reflexivity).
  cbn [ret]. destruct (atob _) as [e|s']; [right; now exists e|left; now exists s'].
Qed.

Lemma getFileContent_returns (owner repo path : string) :
  Spec.returns (getFileContent fetch atob owner repo path).
Proof.
  intros st. destruct (getFileContent_cases owner repo path st) as [[s E]|[e E]];
    rewrite E; eauto.
Qed.



Lemma getFileContent_refused (owner repo path : string) (st : Store) (response : Response) :
  fetch (GITHUB_API_BASE ++ contentsUrl owner repo path) = inr response ->
  ok response = false ->
  getFileContent fetch atob owner repo path st
  = (Spec.logged st ("Could not fetch " ++ path ++ ":")
       (Error ("GitHub API error: " ++ statusText response)), inr EmptyString).
Proof.
  intros H Hok. unfold getFileContent, tryCatch, bind, fetchGitHub, lift, bind.
  now rewrite H, Hok.
Qed.




(** The text [null] parses, and reading a property of what it gives
    throws: the same [catch] takes it. *)
Lemma packageBlock_null (owner repo : string) (fileNames : list string)
    (st st' : Store) (content : string) :
  Js.arrIncludes fileNames "package.json" = true ->
  getFileContent fetch atob owner repo "package.json" st = (st', inr content) ->
  Js.truthy content = true ->
  JSON_parse content = inr Json.JNull ->
  packageBlock fetch atob JSON_parse owner repo fileNames st
  = (Spec.logged st' "Could not parse package.json:" TypeError, inr tt).
Proof.
  intros Hin Hc Ht Hp. unfold packageBlock. rewrite Hin. cbn [when].
  unfold tryCatch, packageBody, bind. rewrite Hc, Ht. cbn [when]. unfold bind, lift.
  now rewrite Hp.
Qed.

Lemma packageRules_returns (allDeps : list (string * Json.t)) :
  Spec.returns (packageRules allDeps).
Proof. unfold packageRules. repeat returns_step. Qed.

Lemma pythonRules_returns (pythonDeps : string) : Spec.returns (pythonRules pythonDeps).
Proof. unfold pythonRules. repeat returns_step. Qed.

Lemma markerRules_returns (files : list RepoFile.t) (fileNames : list string) :
  Spec.returns (markerRules files fileNames).
Proof. unfold markerRules. repeat returns_step. Qed.

Lemma packageBlock_returns (owner repo : string) (fileNames : list string) :
  Spec.returns (packageBlock fetch atob JSON_parse owner repo fileNames).
Proof. unfold packageBlock. repeat returns_step. Qed.

Lemma pythonBlock_returns (owner repo : string) (fileNames : list string) :
  Spec.returns (pythonBlock fetch atob owner repo fileNames).
Proof. unfold pythonBlock. repeat returns_step. Qed.

Lemma collect_returns (owner repo : string) (files : list RepoFile.t) :
  Spec.returns (collect fetch atob JSON_parse toLowerCase owner repo files).
Proof.
  unfold collect.
  repeat first [ apply packageBlock_returns | apply pythonBlock_returns
               | apply markerRules_returns | returns_step ].
Qed.


(** What [detectTechnologies] returns is made of the arrays the rules left
    in the store. *)
Lemma detectTechnologies_dedup (owner repo : string) (files : list RepoFile.t)
    (languages : list (string * Z)) (st : Store) :
  exists st',
    detectTechnologies fetch atob JSON_parse toLowerCase owner repo files languages st
    = (st', inr (TechnologyStack.mk languages
                   (Js.dedup (st_frameworks st')) (Js.dedup (st_tools st'))
                   (Js.dedup (st_databases st')) (Js.dedup (st_deployment st')))).
Proof.
  destruct (collect_returns owner repo files st) as (st' & raw & E).
  assert (raw = st').
  { unfold collect in E.
    repeat match type of E with
    | bind ?m ?k _ = _ =>
        unfold bind at 1 in E; destruct (m _) as [? [?|?]]; try discriminate E
    end.
    unfold getStore in E. now inversion E. }
  subst raw. exists st'. unfold detectTechnologies, bind. now rewrite E.
Qed.

End Detection.


(** With no network, the listing alone decides: the fetch of package.json
    is logged and detection goes on to the configuration files. *)
Example detect_offline :
  GitHubApiService.detectTechnologies Sample.offline (Sample.decodeTo "{}")
    (Sample.parseOnly "{}" (Json.JObject [])) Sample.lowerAscii "akhmadfaizal10" "readme-generator"
    Sample.nodeListing [("TypeScript", 800)] GitHubApiService.emptyStore
  = (mkStore [] ["TypeScript"; "Tailwind CSS"] [] []
       [("Could not fetch package.json:", NetworkError)],
     inr (TechnologyStack.mk [("TypeScript", 800)] [] ["TypeScript"; "Tailwind CSS"] [] [])).
Proof. vm_compute. reflexivity. Qed.

(** A package.json that does not parse is logged, and detection goes on. *)
Example detect_malformed :
  GitHubApiService.detectTechnologies Sample.online (Sample.decodeTo "{ oops")
    (Sample.parseOnly "{}" (Json.JObject [])) Sample.lowerAscii "akhmadfaizal10" "readme-generator"
    Sample.nodeListing [] GitHubApiService.emptyStore
  = (mkStore [] ["TypeScript"; "Tailwind CSS"] [] []
       [("Could not parse package.json:", SyntaxError)],
     inr (TechnologyStack.mk [] [] ["TypeScript"; "Tailwind CSS"] [] [])).
Proof. vm_compute. reflexivity. Qed.

(** A package.json that parses: the rules on its dependencies push first,
    the configuration files push the same tools again, and the profile
    keeps each once, where it was first. *)
Example detect_node :
  GitHubApiService.detectTechnologies Sample.online (Sample.decodeTo "<package.json>")
    (Sample.parseOnly "<package.json>" Sample.packageObject) Sample.lowerAscii
    "akhmadfaizal10" "readme-generator" Sample.nodeListing [] GitHubApiService.emptyStore
  = (mkStore ["React"] ["Vite"; "Tailwind CSS"; "TypeScript"; "TypeScript"; "Tailwind CSS"]
       [] [] [],
     inr (TechnologyStack.mk [] ["React"] ["Vite"; "Tailwind CSS"; "TypeScript"] [] [])).
Proof. vm_compute. reflexivity. Qed.

(** C3: for every listing that holds no recognized manifest or marker (no
    name that the runtime's [toLowerCase], whichever letters it maps, takes
    to a recognized one), [detectTechnologies] fetches nothing, logs nothing
    and returns the profile whose frameworks, tools, databases and
    deployment are empty and whose languages are the ones it was given. *)
Theorem no_marker_gives_empty_profile
    (fetch : string -> Exn + GitHubApiService.Response)
    (atob : string -> Exn + string) (JSON_parse : string -> Exn + Json.t)
    (toLowerCase : string -> string)
    (owner repo : string) (files : list RepoFile.t) (languages : list (string * Z))
    (st : Store) :
  Spec.hasMarker toLowerCase files = false ->
  GitHubApiService.detectTechnologies fetch atob JSON_parse toLowerCase owner repo files
      languages st
  = (mkStore [] [] [] [] (st_console st), inr (TechnologyStack.mk languages [] [] [] [])).
Proof.
  unfold Spec.hasMarker. intros H.
  apply orb_false_elim in H as [H Hpath]. apply orb_false_elim in H as [Hname Hext].
  pose proof (lowerNames_no_marker toLowerCase files) as Hno. specialize (fun k => Hno k Hname).
  assert (Hnet : existsb (fun f => Js.endsWith (RepoFile.name f) ".csproj"
                                   || Js.endsWith (RepoFile.name f) ".sln") files = false).
  { apply (existsb_false_weaken _ _ _ Hext). intros x Hx. now rewrite Hx. }
  assert (Hsql : existsb (fun f => Js.endsWith (RepoFile.name f) ".sql") files = false).
  { apply (existsb_false_weaken _ _ _ Hext). intros x Hx. rewrite Hx. apply orb_true_r. }
  unfold GitHubApiService.detectTechnologies, GitHubApiService.collect,
    GitHubApiService.packageBlock, GitHubApiService.pythonBlock, GitHubApiService.markerRules.
  rewrite !Hno by reflexivity. rewrite Hnet, Hsql, Hpath. reflexivity.
Qed.

(** C3, a witness: a listing of a directory and a text file. *)
Lemma no_marker_gives_empty_profile_witness :
  GitHubApiService.detectTechnologies Sample.online (Sample.decodeTo "{}")
    (Sample.parseOnly "{}" (Json.JObject [])) Sample.lowerAscii "octocat" "notes"
        Sample.plainListing
    [("Markdown", 120)] GitHubApiService.emptyStore
  = (mkStore [] [] [] [] (st_console GitHubApiService.emptyStore),
     inr (TechnologyStack.mk [("Markdown", 120)] [] [] [] [])).
Proof.
  apply (no_marker_gives_empty_profile Sample.online (Sample.decodeTo "{}")
           (Sample.parseOnly "{}" (Json.JObject [])) Sample.lowerAscii "octocat" "notes"
               Sample.plainListing
           [("Markdown", 120)] GitHubApiService.emptyStore).
  reflexivity.
Defined.

(** A letter beyond ASCII counts: where the runtime takes the Kelvin sign
    to k, a file named Dockerfile with that sign is the marker of Docker,
    as it is in the program; a lower-casing of A to Z alone would miss
    it. *)
Example kelvin_dockerfile_is_a_marker :
  Sample.lowerKelvin Sample.kelvinDockerfile = "dockerfile"
  /\ String.eqb (Sample.lowerAscii Sample.kelvinDockerfile) "dockerfile" = false
  /\ Spec.hasMarker Sample.lowerKelvin
       [Sample.plainFile Sample.kelvinDockerfile; Sample.plainFile "notes.txt"] = true
  /\ snd (GitHubApiService.detectTechnologies Sample.online (Sample.decodeTo "{}")
            (Sample.parseOnly "{}" (Json.JObject [])) Sample.lowerKelvin "octocat" "notes"
            [Sample.plainFile Sample.kelvinDockerfile; Sample.plainFile "notes.txt"] []
            GitHubApiService.emptyStore)
     = inr (TechnologyStack.mk [] [] [] [] ["Docker"]).
Proof. repeat split; vm_compute; reflexivity. Qed.

(** So is package.json with that sign: the manifest is fetched and its
    dependencies are reported, and the Installation section gives the steps
    of a package manifest although the listing holds pyproject.toml. *)
Example kelvin_package_json_is_a_manifest :
  Sample.lowerKelvin Sample.kelvinPackageJson = "package.json"
  /\ snd (GitHubApiService.detectTechnologies Sample.online (Sample.decodeTo "react")
            (Sample.parseOnly "react" Sample.packageObject) Sample.lowerKelvin "octocat"
            "notes" [Sample.plainFile Sample.kelvinPackageJson] []
            GitHubApiService.emptyStore)
     = inr (TechnologyStack.mk [] ["React"] ["Vite"; "Tailwind CSS"; "TypeScript"] [] [])
  /\ ReadmeGenerator.generateInstallation Sample.lowerKelvin Sample.noTechnology
       [Sample.plainFile "pyproject.toml"; Sample.plainFile Sample.kelvinPackageJson]
     = ("## 🚀 Installation" ++ Js.lf ++ Js.lf ++ ReadmeGenerator.nodeInstallSteps "npm")%string.
Proof. repeat split; vm_compute; reflexivity. Qed.

(** C8: for every profile [detectTechnologies] returns, each of the four
    lists is without duplicates, holds the labels the rules pushed, keeps
    them in the order in which they were first pushed, and is left as it is
    by the step that removes duplicates. *)
Theorem detected_lists_have_no_duplicates
    (fetch : string -> Exn + GitHubApiService.Response)
    (atob : string -> Exn + string) (JSON_parse : string -> Exn + Json.t)
    (toLowerCase : string -> string)
    (owner repo : string) (files : list RepoFile.t) (languages : list (string * Z))
    (st : Store) :
  exists st' profile,
    GitHubApiService.detectTechnologies fetch atob JSON_parse toLowerCase owner repo files
        languages st
    = (st', inr profile)
    /\ (NoDup (TechnologyStack.frameworks profile)
        /\ NoDup (TechnologyStack.tools profile)
        /\ NoDup (TechnologyStack.databases profile)
        /\ NoDup (TechnologyStack.deployment profile))
    /\ (forall x,
           (In x (TechnologyStack.frameworks profile) <-> In x (st_frameworks st'))
           /\ (In x (TechnologyStack.tools profile) <-> In x (st_tools st'))
           /\ (In x (TechnologyStack.databases profile) <-> In x (st_databases st'))
           /\ (In x (TechnologyStack.deployment profile) <-> In x (st_deployment st')))
    /\ (forall x y,
           (Spec.firstSeenBefore x y (st_frameworks st') ->
            Spec.firstSeenBefore x y (TechnologyStack.frameworks profile))
           /\ (Spec.firstSeenBefore x y (st_tools st') ->
               Spec.firstSeenBefore x y (TechnologyStack.tools profile))
           /\ (Spec.firstSeenBefore x y (st_databases st') ->
               Spec.firstSeenBefore x y (TechnologyStack.databases profile))
           /\ (Spec.firstSeenBefore x y (st_deployment st') ->
               Spec.firstSeenBefore x y (TechnologyStack.deployment profile)))
    /\ (Js.dedup (TechnologyStack.frameworks profile) = TechnologyStack.frameworks profile
        /\ Js.dedup (TechnologyStack.tools profile) = TechnologyStack.tools profile
        /\ Js.dedup (TechnologyStack.databases profile) = TechnologyStack.databases profile
        /\ Js.dedup (TechnologyStack.deployment profile) = TechnologyStack.deployment profile).
Proof.
  destruct (detectTechnologies_dedup fetch atob JSON_parse toLowerCase owner repo files
      languages st)
    as (st' & E).
  eexists st', _. split; [exact E|]. cbn [TechnologyStack.frameworks TechnologyStack.tools
    TechnologyStack.databases TechnologyStack.deployment].
  split; [repeat split; apply dedup_NoDup|].
  split; [intros x; repeat split; apply dedup_In|].
  split; [intros x y; repeat split; apply dedup_firstSeenBefore|].
  repeat split; apply dedup_idempotent.
Qed.

(** ** Installation *)


(** A listing with a Java build file and no package or Python manifest. *)
Example installation_java :
  ReadmeGenerator.generateInstallation Sample.lowerAscii Sample.noTechnology
    [Sample.plainFile "pom.xml"; Sample.directory "src"]
  = ("## 🚀 Installation" ++ Js.lf ++ Js.lf ++ ReadmeGenerator.javaInstallSteps)%string.
Proof. vm_compute. reflexivity. Qed.

(** A package manifest comes before a Python one. *)
Example installation_priority :
  ReadmeGenerator.generateInstallation Sample.lowerAscii Sample.noTechnology
    [Sample.plainFile "requirements.txt"; Sample.plainFile "package.json";
     Sample.plainFile "yarn.lock"]
  = ("## 🚀 Installation" ++ Js.lf ++ Js.lf ++ ReadmeGenerator.nodeInstallSteps "yarn")%string.
Proof. vm_compute. reflexivity. Qed.

(** ** Features *)

Lemma detectedFeatures_quiet (toLowerCase : string -> string) (repository : Repository.t)
    (techStack : TechnologyStack.t)
    (files : list RepoFile.t) :
  Spec.anySignal toLowerCase techStack files = false ->
  ReadmeGenerator.detectedFeatures toLowerCase repository techStack files = [].
Proof.
  unfold Spec.anySignal, ReadmeGenerator.detectedFeatures. intros H.
  repeat (apply orb_false_elim in H as [H ?]).
  destruct (TechnologyStack.databases techStack); [|discriminate].
  repeat match goal with E : _ = false |- _ => rewrite E; clear E end.
  reflexivity.
Qed.

Ltac rule_fired :=
  eexists _, _; cbn [app]; split; [reflexivity|split; [reflexivity|simpl; lia]].

(** When a rule fires, the array starts with a bullet of a rule, and no
    such bullet starts as the first default bullet does. *)
Lemma detectedFeatures_head (toLowerCase : string -> string) (repository : Repository.t)
    (techStack : TechnologyStack.t)
    (files : list RepoFile.t) :
  Spec.anySignal toLowerCase techStack files = true ->
  exists f rest,
    ReadmeGenerator.detectedFeatures toLowerCase repository techStack files = f :: rest
    /\ String.prefix "✨" f = false /\ (3 <= String.length f)%nat.
Proof.
  unfold Spec.anySignal, ReadmeGenerator.detectedFeatures. intros H.
  destruct (Js.arrIncludes (TechnologyStack.frameworks techStack) "React"); [rule_fired|].
  destruct (Js.arrIncludes (TechnologyStack.frameworks techStack) "Next.js"); [rule_fired|].
  destruct (Js.arrIncludes (TechnologyStack.tools techStack) "Tailwind CSS"); [rule_fired|].
  destruct (Js.arrIncludes (TechnologyStack.frameworks techStack) "Express.js"); [rule_fired|].
  destruct (TechnologyStack.databases techStack) as [|d ds]; [|rule_fired].
  destruct (Js.arrIncludes (ReadmeGenerator.lowerNames toLowerCase files) "dockerfile");
      [rule_fired|].
  destruct (existsb (fun f => Js.includes (RepoFile.path f) ".github/workflows") files);
    [rule_fired|].
  destruct (existsb (fun name => Js.includes name "test" || Js.includes name "spec")
                    (ReadmeGenerator.lowerNames toLowerCase files)); [rule_fired|].
  destruct (Js.arrIncludes (ReadmeGenerator.lowerNames toLowerCase files) ".env.example");
      [rule_fired|].
  discriminate H.
Qed.

(** A bullet of a rule is no default bullet. *)
Lemma detectedFeatures_not_default (toLowerCase : string -> string) (repository : Repository.t)
    (techStack : TechnologyStack.t)
    (files : list RepoFile.t) (x : string) :
  In x (ReadmeGenerator.detectedFeatures toLowerCase repository techStack files) ->
  Js.arrIncludes ReadmeGenerator.defaultFeatures x = false.
Proof.
  unfold ReadmeGenerator.detectedFeatures. rewrite !in_app_iff.
  intros H.
  repeat match goal with
  | H : _ \/ _ |- _ => destruct H as [H|H]
  | H : In _ (if ?c then _ else _) |- _ => destruct c
  | H : In _ (_ :: _) |- _ => destruct H as [<-|H]
  | H : In _ [] |- _ => destruct H
  end; reflexivity.
Qed.

(** C5: for every repository, profile, listing and runtime, the Features
    section is its heading followed by its bullets, one to a line, and
    there is a first bullet, which is not empty: the section never shows an
    empty list.  The bullets are the four default ones if and only if no
    rule fires, and then the text is the heading and those four lines; when
    a rule fires the bullets are those of the rules alone, none of them a
    default bullet. *)
Theorem features_default_iff_no_signal (toLowerCase : string -> string)
    (repository : Repository.t) (techStack : TechnologyStack.t) (files : list RepoFile.t) :
  let features := ReadmeGenerator.featureList toLowerCase repository techStack files in
  let text := ReadmeGenerator.generateFeatures toLowerCase repository techStack files in
  let heading := "## ✨ Features

" in
  let defaultText := (heading ++ Js.join Js.lf ReadmeGenerator.defaultFeatures)%string in
  text = (heading ++ Js.join Js.lf features)%string
  /\ (exists first rest more,
        features = first :: rest
        /\ Js.truthy first = true
        /\ text = (heading ++ first ++ more)%string)
  /\ ReadmeGenerator.defaultFeatures
     = ["✨ Modern and clean architecture";
        "⚡ Optimized for performance";
        "🔒 Secure coding practices";
        "📱 Responsive and user-friendly design"]
  /\ (features = ReadmeGenerator.defaultFeatures
      <-> Spec.anySignal toLowerCase techStack files = false)
  /\ (text = defaultText <-> Spec.anySignal toLowerCase techStack files = false)
  /\ (exists first rest, features = first :: rest)
  /\ (Spec.anySignal toLowerCase techStack files = true ->
      features = ReadmeGenerator.detectedFeatures toLowerCase repository techStack files
      /\ forall x, In x features -> ~ In x ReadmeGenerator.defaultFeatures).
Proof.
  cbv zeta.
  assert (T : ReadmeGenerator.generateFeatures toLowerCase repository techStack files
              = ("## ✨ Features

" ++ Js.join Js.lf (ReadmeGenerator.featureList toLowerCase repository techStack files))%string)
    by (unfold ReadmeGenerator.generateFeatures; now rewrite map_id).
  split; [exact T|]. rewrite T. clear T. unfold ReadmeGenerator.featureList.
  destruct (Spec.anySignal toLowerCase techStack files) eqn:Hs.
  - destruct (detectedFeatures_head toLowerCase repository techStack files Hs)
      as (f & rest & E & Hp & Hl).
    pose proof (detectedFeatures_not_default toLowerCase repository techStack files) as Hnd.
    rewrite E in *. cbn [length].
    replace (Z.of_nat (S (length rest)) =? 0) with false by (symmetry; apply Z.eqb_neq; lia).
    destruct (join_cons Js.lf f rest) as (t & Et).
    split.
    { exists f, rest, t. split; [reflexivity|]. split; [|now rewrite Et].
      destruct f; [cbn in Hl; lia|reflexivity]. }
    split; [reflexivity|].
    repeat split; try discriminate.
    + intros H. unfold ReadmeGenerator.defaultFeatures in H. injection H as Hf _. subst f.
      discriminate Hp.
    + intros H. apply append_inv_head in H. rewrite Et in H.
      assert (P : String.prefix "✨" (f ++ t) = true) by (rewrite H; reflexivity).
      rewrite prefix_append_left in P by exact Hl. congruence.
    + eauto.
    + intros x Hx Hd. apply arrIncludes_In in Hd. rewrite Hnd in Hd by exact Hx. discriminate.
  - rewrite (detectedFeatures_quiet toLowerCase repository techStack files Hs).
    cbn [length Z.of_nat Z.eqb app].
    split.
    { eexists _, _, _. split; [reflexivity|]. split; [reflexivity|]. reflexivity. }
    split; [reflexivity|].
    repeat split; try discriminate; try reflexivity.
    eexists _, _. reflexivity.
Qed.

Example features_default :
  ReadmeGenerator.featureList Sample.lowerAscii Sample.thisRepository Sample.noTechnology
      Sample.plainListing
  = ReadmeGenerator.defaultFeatures.
Proof. vm_compute. reflexivity. Qed.

Example features_detected :
  ReadmeGenerator.featureList Sample.lowerAscii Sample.thisRepository Sample.reactStack
      Sample.nodeListing
  = ["⚛️ Built with React for dynamic user interfaces";
     "📘 Full TypeScript support for type safety";
     "🎨 Responsive design with Tailwind CSS"].
Proof. vm_compute. reflexivity. Qed.

(** ** Badges and the document *)

Lemma generateBadges_truthy (toLowerCase : string -> string) (repository : Repository.t)
    (techStack : TechnologyStack.t) :
  Js.truthy (Js.trim (ReadmeGenerator.generateBadges toLowerCase repository techStack)) = true.
Proof.
  unfold ReadmeGenerator.generateBadges, ReadmeGenerator.badgeList. cbn [app].
  match goal with
  | |- context [Js.join ?sep (?x :: ?l)] => destruct (join_cons sep x l) as (t & E)
  end.
  rewrite E. unfold ReadmeGenerator.starsBadge. cbn [append]. now apply trim_truthy.
Qed.

Lemma generateHeader_truthy (repository : Repository.t) :
  Js.truthy (Js.trim (ReadmeGenerator.generateHeader repository)) = true.
Proof. unfold ReadmeGenerator.generateHeader. cbn [append]. now apply trim_truthy. Qed.

Lemma generateDescription_truthy (toLowerCase : string -> string)
    (toLocaleDateString : string -> string)
    (repository : Repository.t) (techStack : TechnologyStack.t) (files : list RepoFile.t) :
  Js.truthy (Js.trim (ReadmeGenerator.generateDescription toLowerCase toLocaleDateString
                        repository techStack files)) = true.
Proof.
  unfold ReadmeGenerator.generateDescription. cbv zeta.
  destruct (ReadmeGenerator.detectProjectType toLowerCase techStack files) as [p|];
    [destruct (Js.truthy p)|]; cbn [append]; now apply trim_truthy.
Qed.

(** C10: for every repository metadata, technology profile and runtime,
    the Badges section is its badges, one to a line, and the first three
    lines are the stars, forks and issues badges of the repository,
    whatever else follows; the section, trimmed, is not empty, so the
    filter of [generateReadme] keeps it: it is the second of the sections
    kept, and the document is the header, a blank line, the badges, a blank
    line and the rest. *)
Theorem badges_section_is_never_empty (toLowerCase : string -> string)
    (localeCompare : string -> string -> Z)
    (toLocaleDateString : string -> string) (percentOf : Z -> Z -> string)
    (repository : Repository.t) (techStack : TechnologyStack.t) (files : list RepoFile.t) :
  let badges := ReadmeGenerator.generateBadges toLowerCase repository techStack in
  let stars :=
    ("[![Stars](https://img.shields.io/github/stars/" ++ Repository.full_name repository
     ++ "?style=for-the-badge&logo=github)](" ++ Repository.html_url repository
     ++ "/stargazers)")%string in
  let forks :=
    ("[![Forks](https://img.shields.io/github/forks/" ++ Repository.full_name repository
     ++ "?style=for-the-badge&logo=github)](" ++ Repository.html_url repository
     ++ "/network/members)")%string in
  let issues :=
    ("[![Issues](https://img.shields.io/github/issues/" ++ Repository.full_name repository
     ++ "?style=for-the-badge&logo=github)](" ++ Repository.html_url repository
     ++ "/issues)")%string in
  badges = Js.join Js.lf (ReadmeGenerator.badgeList toLowerCase repository techStack)
  /\ (exists more,
        ReadmeGenerator.badgeList toLowerCase repository techStack
        = stars :: forks :: issues :: more
        /\ badges = Js.join Js.lf (stars :: forks :: issues :: more))
  /\ (exists rest, badges = (stars ++ Js.lf ++ forks ++ Js.lf ++ issues ++ rest)%string)
  /\ (exists more,
        ReadmeGenerator.badgeList toLowerCase repository techStack
        = ReadmeGenerator.starsBadge repository :: ReadmeGenerator.forksBadge repository
          :: ReadmeGenerator.issuesBadge repository :: more)
  /\ Js.truthy (Js.trim badges) = true
  /\ (exists more,
        ReadmeGenerator.keptSections
          (fst (ReadmeGenerator.allSections toLowerCase localeCompare toLocaleDateString
                  percentOf repository techStack files))
        = ReadmeGenerator.generateHeader repository :: badges :: more)
  /\ (exists rest,
        fst (ReadmeGenerator.generateReadme toLowerCase localeCompare toLocaleDateString
               percentOf repository techStack files)
        = (ReadmeGenerator.generateHeader repository ++ (Js.lf ++ Js.lf)
           ++ badges ++ (Js.lf ++ Js.lf) ++ rest)%string).
Proof.
  cbv zeta.
  split; [reflexivity|].
  split; [eexists; split; reflexivity|].
  split.
  { unfold ReadmeGenerator.generateBadges, ReadmeGenerator.badgeList. cbn [app].
    match goal with
    | |- context [Js.join ?sep (?a :: ?b :: ?c :: ?l)] =>
        change (Js.join sep (a :: b :: c :: l))
          with (a ++ sep ++ b ++ sep ++ Js.join sep (c :: l))%string;
        destruct (join_cons sep c l) as (t & E)
    end.
    rewrite E. exists t. reflexivity. }
  split; [eexists; reflexivity|].
  split; [apply generateBadges_truthy|].
  unfold ReadmeGenerator.generateReadme, ReadmeGenerator.allSections.
  destruct (ReadmeGenerator.generateProjectStructure localeCompare files)
    as [structure files'].
  cbn [fst ReadmeGenerator.keptSections filter app].
  rewrite generateHeader_truthy, generateBadges_truthy, generateDescription_truthy.
  split; [eexists; reflexivity|].
  eexists. cbn [Js.join]. reflexivity.
Qed.

(** ** The listing after synthesis *)

(** C9 fails on the program: [buildFileTree] sorts the array it is given,
    which is the caller's.  For the listing of a file b.txt followed by a
    directory a, the listing after [generateReadme] is the directory
    followed by the file, whatever the repository, the profile and the
    runtime. *)
Theorem generateReadme_reorders_the_listing (toLowerCase : string -> string)
    (localeCompare : string -> string -> Z)
    (toLocaleDateString : string -> string) (percentOf : Z -> Z -> string)
    (repository : Repository.t) (techStack : TechnologyStack.t) :
  Sample.exampleListing = [Sample.plainFile "b.txt"; Sample.directory "a"]
  /\ snd (ReadmeGenerator.generateReadme toLowerCase localeCompare toLocaleDateString percentOf
            repository techStack Sample.exampleListing)
     = [Sample.directory "a"; Sample.plainFile "b.txt"].
Proof. split; reflexivity. Qed.

(** ** The stable sort *)

Section SortFacts.
Context {A : Type}.
Variable compareFn : A -> A -> Z.
Hypothesis compareFn_consistent : Spec.consistent compareFn.

Lemma consistent_total (a b : A) : 0 < compareFn a b -> compareFn b a <= 0.
Proof.
  intros H. destruct compareFn_consistent as [Hs _]. specialize (Hs a b).
  rewrite (Z.sgn_pos _ H) in Hs. apply Z.sgn_neg_iff in Hs. lia.
Qed.

Lemma insertBy_perm (x : A) (l : list A) :
  Permutation (JsArray.insertBy compareFn x l) (x :: l).
Proof.
  induction l as [|y l IH]; cbn [JsArray.insertBy]; [reflexivity|].
  destruct (compareFn x y <=? 0); [reflexivity|].
  rewrite IH. apply perm_swap.
Qed.

Lemma sortBy_perm (l : list A) : Permutation (JsArray.sortBy compareFn l) l.
Proof.
  induction l as [|x l IH]; cbn [JsArray.sortBy]; [reflexivity|].
  rewrite insertBy_perm. now constructor.
Qed.

Lemma insertBy_sorted (x : A) (l : list A) :
  StronglySorted (Spec.noLater compareFn) l ->
  StronglySorted (Spec.noLater compareFn) (JsArray.insertBy compareFn x l).
Proof.
  induction 1 as [|y l Hl IH Hy]; cbn [JsArray.insertBy].
  - repeat constructor.
  - destruct (Z.leb_spec (compareFn x y) 0) as [Hxy|Hxy].
    + constructor; [now constructor|].
      constructor; [exact Hxy|].
      eapply Forall_impl; [|exact Hy]. intros z Hz.
      destruct compareFn_consistent as [_ Ht]. now apply (Ht x y z).
    + constructor; [exact IH|].
      apply (Permutation_Forall (Permutation_sym (insertBy_perm x l))).
      constructor; [|exact Hy]. now apply consistent_total.
Qed.

Lemma sortBy_sorted (l : list A) :
  StronglySorted (Spec.noLater compareFn) (JsArray.sortBy compareFn l).
Proof.
  induction l as [|x l IH]; cbn [JsArray.sortBy]; [constructor|].
  now apply insertBy_sorted.
Qed.

(** The sort is stable: the elements the comparator does not tell apart
    from [x] stay in the order they had. *)
Lemma insertBy_stable (x y : A) (l : list A) :
  filter (fun z => compareFn x z =? 0) (JsArray.insertBy compareFn y l)
  = if compareFn x y =? 0
    then y :: filter (fun z => compareFn x z =? 0) l
    else filter (fun z => compareFn x z =? 0) l.
Proof.
  induction l as [|z l IH]; cbn [JsArray.insertBy]; [reflexivity|].
  destruct (Z.leb_spec (compareFn y z) 0) as [Hyz|Hyz]; [reflexivity|].
  cbn [filter]. rewrite IH.
  destruct (Z.eqb_spec (compareFn x y) 0) as [Hxy|Hxy]; [|reflexivity].
  destruct (Z.eqb_spec (compareFn x z) 0) as [Hxz|Hxz]; [|reflexivity].
  exfalso. destruct compareFn_consistent as [Hs Ht].
  assert (compareFn y x <= 0).
  { specialize (Hs y x). rewrite Hxy in Hs. cbn in Hs.
    destruct (compareFn y x); cbn in Hs; lia. }
  specialize (Ht y x z). lia.
Qed.

Lemma sortBy_stable (x : A) (l : list A) :
  filter (fun z => compareFn x z =? 0) (JsArray.sortBy compareFn l)
  = filter (fun z => compareFn x z =? 0) l.
Proof.
  induction l as [|y l IH]; [reflexivity|].
  cbn [JsArray.sortBy filter]. rewrite insertBy_stable, IH.
  now destruct (compareFn x y =? 0).
Qed.

End SortFacts.

(** ** The file tree *)

Section FileTree.
Variable localeCompare : string -> string -> Z.
Hypothesis localeCompare_consistent : Spec.consistent localeCompare.

Lemma compareFiles_consistent : Spec.consistent (ReadmeGenerator.compareFiles localeCompare).
Proof.
  destruct localeCompare_consistent as [Hs Ht]. unfold ReadmeGenerator.compareFiles. split.
  - intros a b. destruct (RepoFile.type a), (RepoFile.type b); try reflexivity; apply Hs.
  - intros a b c.
    destruct (RepoFile.type a), (RepoFile.type b), (RepoFile.type c);
      try lia; apply Ht.
Qed.

(** A list in the order of [compareFiles] is its directories, then its
    files, each group in the order of the names. *)
Lemma sorted_groups (l : list RepoFile.t) :
  StronglySorted (Spec.noLater (ReadmeGenerator.compareFiles localeCompare)) l ->
  exists dirs files,
    l = dirs ++ files
    /\ Forall Spec.isDir dirs /\ Forall Spec.isFile files
    /\ StronglySorted (Spec.byName localeCompare) dirs
    /\ StronglySorted (Spec.byName localeCompare) files.
Proof.
  unfold Spec.noLater. induction 1 as [|a l Hl IH Ha].
  - exists [], []. repeat split; constructor.
  - destruct IH as (ds & fs & -> & Hds & Hfs & Sds & Sfs).
    destruct (RepoFile.type a) eqn:Ta.
    + (* a file: nothing behind it is a directory *)
      destruct ds as [|d ds].
      * exists [], (a :: fs). repeat split; try constructor; auto.
        cbn [app] in Ha. apply Forall_forall. intros b Hb.
        rewrite Forall_forall in Ha, Hfs. specialize (Ha b Hb) as Hab. specialize (Hfs b Hb).
        unfold Spec.byName.
        unfold ReadmeGenerator.compareFiles in Hab. unfold Spec.isFile in Hfs.
        now rewrite Ta, Hfs in Hab.
      * exfalso. inversion Ha as [|? ? Hd _]; subst. inversion Hds as [|? ? Td _]; subst.
        unfold ReadmeGenerator.compareFiles, Spec.isDir in *. rewrite Ta, Td in Hd. lia.
    + exists (a :: ds), fs. repeat split; auto.
      constructor; [exact Sds|].
      apply Forall_app in Ha as [Ha _].
      apply Forall_forall. intros b Hb.
      rewrite Forall_forall in Ha, Hds. specialize (Ha b Hb) as Hab. specialize (Hds b Hb).
      unfold Spec.byName.
      unfold ReadmeGenerator.compareFiles in Hab. unfold Spec.isDir in Hds.
      now rewrite Ta, Hds in Hab.
Qed.

End FileTree.

(** The lines of [buildFileTree]: only the entry whose index is the last
    one gets the terminal glyph. *)
Lemma mapIndexedFrom_treeLines (l : list RepoFile.t) (index count : Z) :
  index + Z.of_nat (length l) = count ->
  JsArray.mapIndexedFrom (ReadmeGenerator.treeLine count) index l = Spec.treeLines l.
Proof.
  revert index. induction l as [|f l IH]; intros index H; [reflexivity|].
  cbn [JsArray.mapIndexedFrom]. rewrite IH by (cbn [length] in H; lia).
  unfold ReadmeGenerator.treeLine at 1. destruct l as [|g l].
  - cbn [length Z.of_nat] in H. replace (index =? count - 1) with true
      by (symmetry; apply Z.eqb_eq; lia).
    reflexivity.
  - replace (index =? count - 1) with false
      by (symmetry; apply Z.eqb_neq; cbn [length] in H; lia).
    reflexivity.
Qed.

Lemma buildFileTree_lines (localeCompare : string -> string -> Z) (files : list RepoFile.t) :
  ReadmeGenerator.buildFileTree localeCompare files
  = (Js.join Js.lf (Spec.treeLines
                      (JsArray.sortBy (ReadmeGenerator.compareFiles localeCompare) files)),
     JsArray.sortBy (ReadmeGenerator.compareFiles localeCompare) files).
Proof.
  unfold ReadmeGenerator.buildFileTree, JsArray.mapIndexed.
  now rewrite mapIndexedFrom_treeLines by lia.
Qed.

Lemma branchLine_glyph (f : RepoFile.t) :
  String.prefix "├── " (Spec.branchLine f) = true
  /\ String.prefix "└── " (Spec.branchLine f) = false.
Proof. unfold Spec.branchLine, Spec.icon. now destruct (RepoFile.type f). Qed.

Lemma lastLine_glyph (f : RepoFile.t) : String.prefix "└── " (Spec.lastLine f) = true.
Proof. unfold Spec.lastLine, Spec.icon. now destruct (RepoFile.type f). Qed.

(** Every line of a tree but the last starts with the branch glyph and not
    with the terminal one, and the last starts with the terminal glyph. *)
Lemma treeLines_glyphs (l : list RepoFile.t) :
  Forall (fun line => String.prefix "├── " line = true /\ String.prefix "└── " line = false)
         (removelast (Spec.treeLines l))
  /\ (l <> [] -> String.prefix "└── " (last (Spec.treeLines l) EmptyString) = true).
Proof.
  induction l as [|f l [IH1 IH2]]; [split; [constructor|congruence]|].
  destruct l as [|g l].
  { split; [constructor|]. intros _. apply lastLine_glyph. }
  change (Spec.treeLines (f :: g :: l))
    with (Spec.branchLine f :: Spec.treeLines (g :: l)).
  assert (N : Spec.treeLines (g :: l) <> []) by (destruct l; discriminate).
  split.
  - destruct (Spec.treeLines (g :: l)) eqn:E; [congruence|].
    cbn [removelast]. constructor; [apply branchLine_glyph|exact IH1].
  - intros _. destruct (Spec.treeLines (g :: l)) eqn:E; [congruence|].
    cbn [last]. apply IH2. discriminate.
Qed.

(** ** The sample collation *)

Lemma compare_trans (a b c : string) :
  String.compare a b = Lt -> String.compare b c = Lt -> String.compare a c = Lt.
Proof.
  intros H1 H2. apply String_as_OT.cmp_lt. apply String_as_OT.cmp_lt in H1, H2.
  eapply String_as_OT.lt_trans; eauto.
Qed.

Lemma compare_not_Gt_trans (a b c : string) :
  String.compare a b <> Gt -> String.compare b c <> Gt -> String.compare a c <> Gt.
Proof.
  intros H1 H2.
  destruct (String.compare a b) eqn:E1; [|clear H1|congruence].
  - apply String.compare_eq_iff in E1. now subst.
  - destruct (String.compare b c) eqn:E2; [|clear H2|congruence].
    + apply String.compare_eq_iff in E2. subst. now rewrite E1.
    + now rewrite (compare_trans a b c E1 E2).
Qed.

Lemma collate_consistent : Spec.consistent Sample.collate.
Proof.
  unfold Sample.collate. split.
  - intros a b. rewrite (String.compare_antisym (Sample.lowerAscii a) (Sample.lowerAscii b)).
    rewrite (String.compare_antisym a b).
    destruct (String.compare (Sample.lowerAscii b) (Sample.lowerAscii a)); cbn [CompOpp];
      try reflexivity.
    destruct (String.compare b a); reflexivity.
  - intros a b c.
    destruct (String.compare (Sample.lowerAscii a) (Sample.lowerAscii b)) eqn:E1; [| |cbn; lia].
    + apply String.compare_eq_iff in E1. rewrite E1.
      destruct (String.compare (Sample.lowerAscii b) (Sample.lowerAscii c)) eqn:E2;
        [| lia |cbn; lia].
      intros H1 H2.
      assert (G : String.compare c a <> Gt).
      { apply (compare_not_Gt_trans c b a).
        - destruct (String.compare c b); cbn in H2; (congruence || lia).
        - destruct (String.compare b a); cbn in H1; (congruence || lia). }
      destruct (String.compare c a); cbn; (congruence || lia).
    + destruct (String.compare (Sample.lowerAscii b) (Sample.lowerAscii c)) eqn:E2;
        [| |cbn; lia].
      * apply String.compare_eq_iff in E2. rewrite <- E2, E1. lia.
      * rewrite (compare_trans _ _ _ E1 E2). lia.
Qed.

(** C6, as amended: for every consistent collation [localeCompare] and
    every listing, the Project Structure section lists the entries of the
    listing with every directory before every file, each of the two groups
    in the order [localeCompare] gives to the names, entries it does not
    tell apart staying in the order of the listing; the lines are a branch
    line for every entry but the last and a terminal line for the last; and
    for the listing of the file b.txt followed by the directory a, the
    directory is rendered before the file. *)
Theorem project_structure_order
    (localeCompare : string -> string -> Z) (files : list RepoFile.t) :
  Spec.consistent localeCompare ->
  let sorted := snd (ReadmeGenerator.buildFileTree localeCompare files) in
  Permutation sorted files
  /\ (exists dirs rest,
        sorted = dirs ++ rest
        /\ Forall Spec.isDir dirs /\ Forall Spec.isFile rest
        /\ StronglySorted (Spec.byName localeCompare) dirs
        /\ StronglySorted (Spec.byName localeCompare) rest)
  /\ (forall f,
         filter (fun g => ReadmeGenerator.compareFiles localeCompare f g =? 0) sorted
         = filter (fun g => ReadmeGenerator.compareFiles localeCompare f g =? 0) files)
  /\ fst (ReadmeGenerator.generateProjectStructure localeCompare files)
     = ("## 📁 Project Structure

```
" ++ Js.join Js.lf (Spec.treeLines sorted) ++ "
```")%string
  /\ Forall (fun line => String.prefix "├── " line = true /\ String.prefix "└── " line = false)
            (removelast (Spec.treeLines sorted))
  /\ (files <> [] -> String.prefix "└── " (last (Spec.treeLines sorted) EmptyString) = true)
  /\ fst (ReadmeGenerator.buildFileTree localeCompare Sample.exampleListing)
     = ("├── 📁 a" ++ Js.lf ++ "└── 📄 b.txt")%string.
Proof.
  intros H. cbv zeta. unfold ReadmeGenerator.generateProjectStructure.
  rewrite buildFileTree_lines. cbn [fst snd].
  pose proof (sortBy_perm (ReadmeGenerator.compareFiles localeCompare) files) as P.
  split; [exact P|].
  split.
  { apply (sorted_groups localeCompare). apply sortBy_sorted.
    now apply compareFiles_consistent. }
  split; [intros f; apply sortBy_stable; now apply compareFiles_consistent|].
  split; [reflexivity|].
  split; [apply treeLines_glyphs|].
  split; [|reflexivity].
  intros Hne. apply treeLines_glyphs. intros E. rewrite E in P.
  apply Permutation_nil in P. contradiction.
Qed.

(** C6, a witness: the sample collation on a listing of this repository's
    kind. *)
Lemma project_structure_order_witness :
  Permutation (snd (ReadmeGenerator.buildFileTree Sample.collate Sample.nodeListing))
              Sample.nodeListing
  /\ (exists dirs rest,
        snd (ReadmeGenerator.buildFileTree Sample.collate Sample.nodeListing) = dirs ++ rest
        /\ Forall Spec.isDir dirs /\ Forall Spec.isFile rest
        /\ StronglySorted (Spec.byName Sample.collate) dirs
        /\ StronglySorted (Spec.byName Sample.collate) rest).
Proof.
  pose proof (project_structure_order Sample.collate Sample.nodeListing collate_consistent)
    as (P & G & _).
  split; [exact P|exact G].
Defined.

Example project_structure_node :
  fst (ReadmeGenerator.buildFileTree Sample.collate Sample.nodeListing)
  = ("├── 📁 src" ++ Js.lf ++ "├── 📄 index.html" ++ Js.lf ++ "├── 📄 package.json" ++ Js.lf
     ++ "├── 📄 tailwind.config.js" ++ Js.lf ++ "└── 📄 tsconfig.json")%string.
Proof. vm_compute. reflexivity. Qed.

(** C6 as stated fails: of the two files B and a, the comparison of the
    codes puts B first, and the file tree lists a first, in the order
    [localeCompare] gives them. *)
Lemma project_structure_is_not_ordinal :
  String.ltb "B" "a" = true
  /\ Sample.mixedCaseListing = [Sample.plainFile "B"; Sample.plainFile "a"]
  /\ ReadmeGenerator.buildFileTree Sample.collate Sample.mixedCaseListing
     = (("├── 📄 a" ++ Js.lf ++ "└── 📄 B")%string, [Sample.plainFile "a"; Sample.plainFile "B"]).
Proof. repeat split; vm_compute; reflexivity. Qed.

(** ** The size of the repository *)

Lemma pow_1024 (i : Z) : 0 <= i -> 1024 ^ i = 2 ^ (10 * i).
Proof. intros H. rewrite Z.pow_mul_r by lia. reflexivity. Qed.

(** The unit index is the whole part of the logarithm to the base 1024. *)
Lemma unitIndex_bounds (bytes : Z) :
  0 < bytes ->
  0 <= ReadmeGenerator.unitIndex bytes
  /\ 1024 ^ ReadmeGenerator.unitIndex bytes <= bytes
     < 1024 ^ (ReadmeGenerator.unitIndex bytes + 1).
Proof.
  intros H. unfold ReadmeGenerator.unitIndex.
  pose proof (Z.log2_spec bytes H) as [Hlo Hhi].
  pose proof (Z.log2_nonneg bytes) as Hl.
  set (l := Z.log2 bytes) in *.
  assert (Hi : 0 <= l / 10) by (apply Z.div_pos; lia).
  assert (Hd : 10 * (l / 10) <= l < 10 * (l / 10) + 10).
  { pose proof (Z.div_mod l 10 ltac:(lia)). pose proof (Z.mod_pos_bound l 10 ltac:(lia)). lia. }
  split; [exact Hi|]. rewrite !pow_1024 by lia. split.
  - apply Z.le_trans with (2 ^ l); [|exact Hlo]. apply Z.pow_le_mono_r; lia.
  - apply Z.lt_le_trans with (2 ^ Z.succ l); [exact Hhi|]. apply Z.pow_le_mono_r; lia.
Qed.

Lemma unitIndex_small (bytes : Z) :
  0 < bytes < 1024 ^ 4 -> ReadmeGenerator.unitIndex bytes < 4.
Proof.
  intros [H Hlt]. unfold ReadmeGenerator.unitIndex.
  assert (Z.log2 bytes < 40).
  { apply Z.log2_lt_pow2; [exact H|]. change (2 ^ 40) with (1024 ^ 4). exact Hlt. }
  apply Z.div_lt_upper_bound; lia.
Qed.

(** The hundredths are the nearest ones: twice the distance to the exact
    quotient is at most one hundredth. *)
Lemma toFixed2_nearest (bytes i : Z) :
  0 <= i ->
  Z.abs (200 * bytes - 2 * ReadmeGenerator.toFixed2 bytes i * 1024 ^ i) <= 1024 ^ i.
Proof.
  intros Hi. unfold ReadmeGenerator.toFixed2.
  assert (Hk : 0 < 1024 ^ i) by (apply Z.pow_pos_nonneg; lia).
  set (k := 1024 ^ i) in *.
  pose proof (Z.div_mod (200 * bytes + k) (2 * k) ltac:(lia)) as Hd.
  pose proof (Z.mod_pos_bound (200 * bytes + k) (2 * k) ltac:(lia)) as Hm.
  set (n := (200 * bytes + k) / (2 * k)) in *.
  nia.
Qed.

(** The description ends with the size so formatted. *)
Lemma generateDescription_size (toLowerCase : string -> string)
    (toLocaleDateString : string -> string)
    (repository : Repository.t) (techStack : TechnologyStack.t) (files : list RepoFile.t) :
  exists before,
    ReadmeGenerator.generateDescription toLowerCase toLocaleDateString repository techStack files
    = (before ++ "**Repository Size:** "
       ++ ReadmeGenerator.formatBytes (Repository.size repository * 1024))%string.
Proof. unfold ReadmeGenerator.generateDescription. cbv zeta. eexists. reflexivity. Qed.

(** C7, as amended: the size in the description is formatted from
    kilobytes times 1024 in 1024-based units, the unit being the one of
    index floor(log(bytes) / log(1024)) among Bytes, KB, MB, GB (for a size
    below 1024^4 bytes), the number being the quotient rounded to the
    nearest hundredth and written without the zeros that end its fraction;
    zero is written 0 Bytes; and for repository.size = 1536 the text is
    1.5 MB. *)
Theorem formatBytes_binary_units (bytes : Z) :
  0 < bytes < 1024 ^ 4 ->
  (exists i n unit,
      0 <= i < 4
      /\ 1024 ^ i <= bytes < 1024 ^ (i + 1)
      /\ nth_error ReadmeGenerator.sizes (Z.to_nat i) = Some unit
      /\ Z.abs (200 * bytes - 2 * n * 1024 ^ i) <= 1024 ^ i
      /\ ReadmeGenerator.formatBytes bytes
         = (ReadmeGenerator.showHundredths n ++ " " ++ unit)%string)
  /\ ReadmeGenerator.formatBytes 0 = "0 Bytes"
  /\ ReadmeGenerator.showHundredths 150 = "1.5"
  /\ ReadmeGenerator.formatBytes (1536 * 1024) = "1.5 MB"
  /\ (forall toLowerCase toLocaleDateString repository techStack files,
         exists before,
           ReadmeGenerator.generateDescription toLowerCase toLocaleDateString repository
             techStack files
           = (before ++ "**Repository Size:** "
              ++ ReadmeGenerator.formatBytes (Repository.size repository * 1024))%string).
Proof.
  intros H. split;
    [|split; [reflexivity|split; [reflexivity|split; [vm_compute; reflexivity|]]];
      intros; apply generateDescription_size].
  destruct (unitIndex_bounds bytes ltac:(lia)) as (Hi & Hb).
  pose proof (unitIndex_small bytes H) as Hs.
  exists (ReadmeGenerator.unitIndex bytes),
         (ReadmeGenerator.toFixed2 bytes (ReadmeGenerator.unitIndex bytes)),
         (nth (Z.to_nat (ReadmeGenerator.unitIndex bytes)) ReadmeGenerator.sizes "undefined").
  repeat split; try lia.
  - assert (C : ReadmeGenerator.unitIndex bytes = 0 \/ ReadmeGenerator.unitIndex bytes = 1
                \/ ReadmeGenerator.unitIndex bytes = 2 \/ ReadmeGenerator.unitIndex bytes = 3)
      by lia.
    destruct C as [-> | [-> | [-> | ->]]]; reflexivity.
  - now apply toFixed2_nearest.
  - unfold ReadmeGenerator.formatBytes.
    replace (bytes =? 0) with false by (symmetry; apply Z.eqb_neq; lia).
    replace (bytes <? 0) with false by (symmetry; apply Z.ltb_ge; lia).
    reflexivity.
Qed.

(** C7, a witness: the size of the specification's example, 1536 KB. *)
Lemma formatBytes_binary_units_witness :
  (exists i n unit,
      0 <= i < 4
      /\ 1024 ^ i <= 1536 * 1024 < 1024 ^ (i + 1)
      /\ nth_error ReadmeGenerator.sizes (Z.to_nat i) = Some unit
      /\ Z.abs (200 * (1536 * 1024) - 2 * n * 1024 ^ i) <= 1024 ^ i
      /\ ReadmeGenerator.formatBytes (1536 * 1024)
         = (ReadmeGenerator.showHundredths n ++ " " ++ unit)%string)
  /\ ReadmeGenerator.formatBytes 0 = "0 Bytes"
  /\ ReadmeGenerator.showHundredths 150 = "1.5"
  /\ ReadmeGenerator.formatBytes (1536 * 1024) = "1.5 MB"
  /\ (forall toLowerCase toLocaleDateString repository techStack files,
         exists before,
           ReadmeGenerator.generateDescription toLowerCase toLocaleDateString repository
             techStack files
           = (before ++ "**Repository Size:** "
              ++ ReadmeGenerator.formatBytes (Repository.size repository * 1024))%string).
Proof.
  apply (formatBytes_binary_units (1536 * 1024)). split; reflexivity.
Defined.

Example formatBytes_samples :
  map ReadmeGenerator.formatBytes [1; 1023; 1024; 1500; 1048575; 123456789]
  = ["1 Bytes"; "1023 Bytes"; "1 KB"; "1.46 KB"; "1024 KB"; "117.74 MB"].
Proof. vm_compute. reflexivity. Qed.

(** C7 as stated fails: for repository.size = 1536 the size is written
    1.5 MB, not 1.50 MB; the description of such a repository holds the
    one and not the other. *)
Lemma formatBytes_drops_trailing_zero :
  Repository.size Sample.thisRepository = 1536
  /\ ReadmeGenerator.formatBytes (Repository.size Sample.thisRepository * 1024) = "1.5 MB"
  /\ String.eqb (ReadmeGenerator.formatBytes (Repository.size Sample.thisRepository * 1024))
                "1.50 MB" = false
  /\ Js.includes
      (ReadmeGenerator.generateDescription Sample.lowerAscii Sample.isoDay Sample.thisRepository
                    Sample.reactStack Sample.nodeListing) "**Repository Size:** 1.5 MB" = true
  /\ Js.includes
      (ReadmeGenerator.generateDescription Sample.lowerAscii Sample.isoDay Sample.thisRepository
                    Sample.reactStack Sample.nodeListing) "1.50 MB" = false.
Proof. repeat split; vm_compute; reflexivity. Qed.

(* ================================================================== *)
(** * The URL, from the form to the service *)
(* ================================================================== *)

(** ** The matchers *)

Lemma prefix_split (p s : string) :
  String.prefix p s = true -> s = (p ++ Js.dropChars (String.length p) s)%string.
Proof.
  revert s. induction p as [|c p IH]; intros s H; [reflexivity|].
  destruct s as [|d s]; [discriminate H|].
  rewrite prefix_cons in H. apply andb_prop in H as [Hc H].
  apply Ascii.eqb_eq in Hc. subst d. cbn [String.length Js.dropChars append].
  f_equal. now apply IH.
Qed.

Lemma prefix_append_self (p t : string) : String.prefix p (p ++ t) = true.
Proof.
  induction p as [|c p IH]; [apply prefix_empty|].
  cbn [append]. rewrite prefix_cons, Ascii.eqb_refl. exact IH.
Qed.

Lemma dropChars_append (p t : string) : Js.dropChars (String.length p) (p ++ t) = t.
Proof. induction p as [|c p IH]; [now destruct t|exact IH]. Qed.

Lemma append_assoc (a b c : string) : ((a ++ b) ++ c = a ++ (b ++ c))%string.
Proof. induction a as [|x a IH]; [reflexivity|]. cbn [append]. now rewrite IH. Qed.

Lemma append_empty_r (a : string) : (a ++ EmptyString)%string = a.
Proof. induction a as [|x a IH]; [reflexivity|]. cbn [append]. now rewrite IH. Qed.

Lemma length_append (a b : string) :
  String.length (a ++ b) = (String.length a + String.length b)%nat.
Proof. induction a; simpl; congruence. Qed.

Lemma segment_inv (s : string) :
  Spec.segment s = true -> Js.truthy s = true /\ Js.mem "/"%char s = false.
Proof.
  unfold Spec.segment. intros H. apply andb_prop in H as [H1 H2].
  apply negb_true_iff in H2. auto.
Qed.

Lemma segment_intro (s : string) :
  Js.truthy s = true -> Js.mem "/"%char s = false -> Spec.segment s = true.
Proof. unfold Spec.segment. now intros -> ->. Qed.

Lemma literal_append {R : Type} (p : string) (k : string -> option R) (t : string) :
  Regex.literal p k (p ++ t) = k t.
Proof. unfold Regex.literal. now rewrite prefix_append_self, dropChars_append. Qed.

Lemma literal_inv {R : Type} (p : string) (k : string -> option R) (s : string) (r : R) :
  Regex.literal p k s = Some r -> exists t, s = (p ++ t)%string /\ k t = Some r.
Proof.
  unfold Regex.literal. destruct (String.prefix p s) eqn:P; [|discriminate].
  intros H. eexists. split; [now apply prefix_split|exact H].
Qed.

Lemma optional_inv {R : Type} (p : string) (k : string -> option R) (s : string) (r : R) :
  Regex.optional p k s = Some r ->
  (exists t, s = (p ++ t)%string /\ k t = Some r) \/ k s = Some r.
Proof.
  unfold Regex.optional. destruct (Regex.literal p k s) eqn:L.
  - intros H. injection H as ->. left. now apply literal_inv.
  - now right.
Qed.

(** What a run captures is not empty and holds no slash, and the rest of
    the pattern matched behind it. *)
Lemma nonSlashRun_inv {R : Type} (k : string -> option R) (s g : string) (r : R) :
  Regex.nonSlashRun k s = Some (g, r) ->
  exists t, s = (g ++ t)%string /\ Spec.segment g = true /\ k t = Some r.
Proof.
  revert g. induction s as [|c s IH]; intros g H; [discriminate H|].
  cbn [Regex.nonSlashRun] in H. destruct (Ascii.eqb c "/"%char) eqn:C; [discriminate H|].
  rewrite Ascii.eqb_sym in C.
  destruct (Regex.nonSlashRun k s) as [[g' r']|] eqn:E.
  - injection H as <- <-. destruct (IH g' eq_refl) as (t & -> & Hg & Hk).
    apply segment_inv in Hg as [Hg Hm].
    exists t. unfold Spec.segment. cbn [append Js.truthy Js.mem]. rewrite C, Hm. auto.
  - destruct (k s) as [r'|] eqn:K; [|discriminate H]. injection H as <- <-.
    exists s. unfold Spec.segment. cbn [append Js.truthy Js.mem]. rewrite C. auto.
Qed.

(** A run with nothing asked of what follows is the longest one: it ends
    with the input or before a slash. *)
Lemma nonSlashRun_greedy (s g : string) (u : unit) :
  Regex.nonSlashRun (fun _ => Some tt) s = Some (g, u) ->
  exists t, s = (g ++ t)%string /\ Spec.segment g = true /\ Spec.endsSegment t = true.
Proof.
  revert g. induction s as [|c s IH]; intros g H; [discriminate H|].
  cbn [Regex.nonSlashRun] in H. destruct (Ascii.eqb c "/"%char) eqn:C; [discriminate H|].
  rewrite Ascii.eqb_sym in C.
  destruct (Regex.nonSlashRun (fun _ => Some tt) s) as [[g' r']|] eqn:E.
  - injection H as <- <-. destruct (IH g' eq_refl) as (t & -> & Hg & Ht).
    apply segment_inv in Hg as [Hg Hm].
    exists t. unfold Spec.segment. cbn [append Js.truthy Js.mem]. rewrite C, Hm. auto.
  - injection H as <- <-. exists s. unfold Spec.segment.
    cbn [append Js.truthy Js.mem]. rewrite C. repeat split.
    destruct s as [|d s]; [reflexivity|]. cbn [Regex.nonSlashRun] in E.
    cbn [Spec.endsSegment]. destruct (Ascii.eqb d "/"%char); [reflexivity|].
    destruct (Regex.nonSlashRun (fun _ => Some tt) s) as [[? ?]|]; discriminate E.
Qed.

(** A run before a slash is captured whole when the rest matches behind
    the slash. *)
Lemma nonSlashRun_slash {R : Type} (k : string -> option R) (g rest : string) (r : R) :
  Spec.segment g = true ->
  k rest = Some r ->
  Regex.nonSlashRun (Regex.literal "/" k) (g ++ String "/"%char rest) = Some (g, r).
Proof.
  intros Hg Hk. apply segment_inv in Hg as [Hg Hm].
  induction g as [|c g IH]; [discriminate Hg|].
  cbn [Js.mem] in Hm. apply orb_false_elim in Hm as [Hc Hm].
  cbn [append Regex.nonSlashRun]. rewrite Ascii.eqb_sym, Hc.
  destruct g as [|d g].
  - cbn [append Regex.nonSlashRun]. rewrite Ascii.eqb_refl.
    change (String "/"%char rest) with ("/" ++ rest)%string. now rewrite literal_append, Hk.
  - now rewrite IH.
Qed.

(** A run that ends the input, or that a slash follows, is captured whole
    when the rest of the pattern matches what follows it. *)
Lemma nonSlashRun_last {R : Type} (k : string -> option R) (g tail : string) (r : R) :
  Spec.segment g = true ->
  Spec.endsSegment tail = true ->
  k tail = Some r ->
  Regex.nonSlashRun k (g ++ tail) = Some (g, r).
Proof.
  intros Hg Ht Hk. apply segment_inv in Hg as [Hg Hm].
  induction g as [|c g IH]; [discriminate Hg|].
  cbn [Js.mem] in Hm. apply orb_false_elim in Hm as [Hc Hm].
  cbn [append Regex.nonSlashRun]. rewrite Ascii.eqb_sym, Hc.
  destruct g as [|d g].
  - cbn [append]. rewrite Hk. destruct tail as [|e tail]; [reflexivity|].
    cbn [Spec.endsSegment] in Ht. cbn [Regex.nonSlashRun]. now rewrite Ht.
  - now rewrite IH.
Qed.

Lemma search_here {R : Type} (pattern : string -> option R) (s : string) (r : R) :
  pattern s = Some r -> Regex.search pattern s = Some r.
Proof. intros H. destruct s; cbn [Regex.search]; now rewrite H. Qed.

Lemma search_inv {R : Type} (pattern : string -> option R) (s : string) (r : R) :
  Regex.search pattern s = Some r ->
  exists pre t, s = (pre ++ t)%string /\ pattern t = Some r.
Proof.
  induction s as [|c s IH]; cbn [Regex.search].
  - destruct (pattern EmptyString) eqn:P; [|discriminate].
    intros H. injection H as ->. now exists EmptyString, EmptyString.
  - destruct (pattern (String c s)) eqn:P.
    + intros H. injection H as ->. now exists EmptyString, (String c s).
    + intros H. destruct (IH H) as (pre & t & -> & Ht). now exists (String c pre), t.
Qed.

Lemma search_none {R : Type} (pattern : string -> option R) (s lit : string) :
  (forall t, String.prefix lit t = false -> pattern t = None) ->
  Js.includes s lit = false -> Regex.search pattern s = None.
Proof.
  intros Hp. induction s as [|c s IH]; intros H.
  - cbn [Js.includes] in H. cbn [Regex.search].
    destruct (String.prefix lit EmptyString) eqn:P; [discriminate H|]. now rewrite Hp.
  - rewrite includes_cons in H. apply orb_false_elim in H as [P H].
    cbn [Regex.search]. rewrite (Hp _ P). now apply IH.
Qed.

(** ** [parseGitHubUrl] *)

Lemma ownerAndRepo_no_g (c : ascii) (s : string) :
  Ascii.eqb "g"%char c = false -> GitHubApiService.ownerAndRepo (String c s) = None.
Proof.
  intros H. unfold GitHubApiService.ownerAndRepo, Regex.literal.
  change "github.com/" with (String "g"%char "ithub.com/"). now rewrite prefix_cons, H.
Qed.

Lemma search_skip (pre s : string) :
  Js.mem "g"%char pre = false ->
  Regex.search GitHubApiService.ownerAndRepo (pre ++ s)
  = Regex.search GitHubApiService.ownerAndRepo s.
Proof.
  induction pre as [|c pre IH]; intros H; [reflexivity|].
  cbn [Js.mem] in H. apply orb_false_elim in H as [Hc H].
  cbn [append Regex.search]. rewrite (ownerAndRepo_no_g c _ Hc). now apply IH.
Qed.

Lemma ownerAndRepo_here (owner name tail : string) :
  Spec.segment owner = true -> Spec.segment name = true -> Spec.endsSegment tail = true ->
  GitHubApiService.ownerAndRepo ("github.com/" ++ owner ++ "/" ++ name ++ tail)
  = Some (owner, name).
Proof.
  intros Ho Hn Ht. unfold GitHubApiService.ownerAndRepo. rewrite literal_append.
  change ("/" ++ name ++ tail)%string with (String "/"%char (name ++ tail)).
  rewrite (nonSlashRun_slash _ owner (name ++ tail) (name, tt)); auto.
  now apply nonSlashRun_last.
Qed.

Lemma ownerAndRepo_inv (s owner name : string) :
  GitHubApiService.ownerAndRepo s = Some (owner, name) ->
  exists tail,
    s = ("github.com/" ++ owner ++ "/" ++ name ++ tail)%string
    /\ Spec.segment owner = true /\ Spec.segment name = true
    /\ Spec.endsSegment tail = true.
Proof.
  unfold GitHubApiService.ownerAndRepo. intros H.
  apply literal_inv in H as (rest & -> & H).
  destruct (Regex.nonSlashRun _ rest) as [[o [n u]]|] eqn:E; [|discriminate H].
  injection H as -> ->.
  apply nonSlashRun_inv in E as (t & -> & Ho & E).
  apply literal_inv in E as (t' & -> & E).
  apply nonSlashRun_greedy in E as (tail & -> & Hn & Ht).
  now exists tail.
Qed.

Lemma stripGitSuffix_append (r : string) : GitHubApiService.stripGitSuffix (r ++ ".git") = r.
Proof.
  induction r as [|c r IH]; [reflexivity|].
  cbn [append GitHubApiService.stripGitSuffix].
  destruct (String.eqb (String c (r ++ ".git")) ".git") eqn:E.
  - apply String.eqb_eq in E. apply (f_equal String.length) in E.
    cbn [String.length] in E. rewrite length_append in E. simpl in E. lia.
  - now rewrite IH.
Qed.

Lemma stripGitSuffix_other (r : string) :
  Js.endsWith r ".git" = false -> GitHubApiService.stripGitSuffix r = r.
Proof.
  induction r as [|c r IH]; [reflexivity|].
  cbn [Js.endsWith GitHubApiService.stripGitSuffix].
  destruct (String.eqb (String c r) ".git"); [discriminate|].
  intros H. now rewrite IH.
Qed.

Lemma mem_append (c : ascii) (a b : string) :
  Js.mem c (a ++ b) = Js.mem c a || Js.mem c b.
Proof.
  induction a as [|x a IH]; [reflexivity|].
  cbn [append Js.mem]. now rewrite IH, orb_assoc.
Qed.

Lemma segment_git (name : string) :
  Js.mem "/"%char name = false -> Spec.segment (name ++ ".git") = true.
Proof.
  intros H. unfold Spec.segment. rewrite mem_append, H.
  destruct name; reflexivity.
Qed.

Lemma parseGitHubUrl_parts (pre owner name tail : string) :
  Js.mem "g"%char pre = false ->
  Spec.segment owner = true ->
  Spec.segment name = true ->
  Spec.endsSegment tail = true ->
  GitHubApiService.parseGitHubUrl (pre ++ "github.com/" ++ owner ++ "/" ++ name ++ tail)
  = Some (GitHubApiService.UrlParts.mk owner (GitHubApiService.stripGitSuffix name)).
Proof.
  intros Hp Ho Hn Ht. unfold GitHubApiService.parseGitHubUrl.
  rewrite search_skip by exact Hp.
  now rewrite (search_here _ _ (owner, name)) by now apply ownerAndRepo_here.
Qed.

Lemma parseGitHubUrl_git_suffix (owner name : string) :
  Spec.segment owner = true ->
  Js.mem "/"%char name = false ->
  GitHubApiService.parseGitHubUrl ("https://github.com/" ++ owner ++ "/" ++ name ++ ".git")
  = Some (GitHubApiService.UrlParts.mk owner name).
Proof.
  intros Ho Hn.
  pose proof (parseGitHubUrl_parts "https://" owner (name ++ ".git")
                EmptyString eq_refl Ho (segment_git name Hn) eq_refl) as H.
  rewrite stripGitSuffix_append, append_empty_r in H. exact H.
Qed.

(** X1.  A URL that holds [github.com/OWNER/NAME], with nothing before it
    in which the pattern could begin and the name ending the URL or followed
    by a slash, parses to that owner and to the name without a [.git] that
    ends it: whatever the scheme, and whatever path follows the name. *)
Theorem parseGitHubUrl_reads_owner_and_name (pre owner name tail : string) :
  Js.mem "g"%char pre = false ->
  Spec.segment owner = true ->
  Spec.segment name = true ->
  Spec.endsSegment tail = true ->
  GitHubApiService.parseGitHubUrl (pre ++ "github.com/" ++ owner ++ "/" ++ name ++ tail)
  = Some (GitHubApiService.UrlParts.mk owner (GitHubApiService.stripGitSuffix name)).
Proof.
  intros Hp Ho Hn Ht. unfold GitHubApiService.parseGitHubUrl.
  rewrite search_skip by exact Hp.
  rewrite (search_here _ _ (owner, name)); [reflexivity|].
  now apply ownerAndRepo_here.
Qed.

Lemma parseGitHubUrl_reads_owner_and_name_witness :
  GitHubApiService.parseGitHubUrl "https://github.com/facebook/react/tree/main"
  = Some (GitHubApiService.UrlParts.mk "facebook" "react").
Proof.
  exact (parseGitHubUrl_reads_owner_and_name "https://" "facebook" "react" "/tree/main"
           eq_refl eq_refl eq_refl eq_refl).
Defined.

(** X2.  The clone URL of a repository parses back to its owner and its
    name: the [.git] that ends it is taken off, and only there. *)
Theorem parseGitHubUrl_of_clone_url (owner name : string) :
  Spec.segment owner = true ->
  Js.mem "/"%char name = false ->
  GitHubApiService.parseGitHubUrl ("https://github.com/" ++ owner ++ "/" ++ name ++ ".git")
  = Some (GitHubApiService.UrlParts.mk owner name).
Proof.
  intros Ho Hn.
  assert (E : GitHubApiService.parseGitHubUrl
                ("https://" ++ "github.com/" ++ owner ++ "/" ++ (name ++ ".git") ++ EmptyString)
              = Some (GitHubApiService.UrlParts.mk owner
                        (GitHubApiService.stripGitSuffix (name ++ ".git")))).
  { apply parseGitHubUrl_parts; [reflexivity|exact Ho|now apply segment_git|reflexivity]. }
  now rewrite stripGitSuffix_append, append_empty_r in E.
Qed.

Lemma parseGitHubUrl_of_clone_url_witness :
  GitHubApiService.parseGitHubUrl "https://github.com/vercel/next.js.git"
  = Some (GitHubApiService.UrlParts.mk "vercel" "next.js").
Proof.
  exact (parseGitHubUrl_of_clone_url "vercel" "next.js" eq_refl eq_refl).
Defined.

(** X3.  What [parseGitHubUrl] returns was read in the URL: the owner and
    the name are the two segments behind an occurrence of [github.com/],
    neither is empty nor holds a slash, the name runs to the next slash or
    to the end, and the repository returned is the name without a [.git]
    that ends it. *)
Theorem parseGitHubUrl_result_was_read (url : string) (parts : GitHubApiService.UrlParts.t) :
  GitHubApiService.parseGitHubUrl url = Some parts ->
  exists pre name tail,
    url = (pre ++ "github.com/" ++ GitHubApiService.UrlParts.owner parts
               ++ "/" ++ name ++ tail)%string
    /\ Spec.segment (GitHubApiService.UrlParts.owner parts) = true
    /\ Spec.segment name = true
    /\ Spec.endsSegment tail = true
    /\ GitHubApiService.UrlParts.repo parts = GitHubApiService.stripGitSuffix name.
Proof.
  unfold GitHubApiService.parseGitHubUrl.
  destruct (Regex.search _ url) as [[owner name]|] eqn:E; [|discriminate].
  intros H. injection H as <-. cbn [GitHubApiService.UrlParts.owner GitHubApiService.UrlParts.repo].
  apply search_inv in E as (pre & t & -> & E).
  apply ownerAndRepo_inv in E as (tail & -> & Ho & Hn & Ht).
  now exists pre, name, tail.
Qed.

Lemma parseGitHubUrl_result_was_read_witness :
  exists pre name tail,
    "git@github.com/o/r.git" = (pre ++ "github.com/" ++ "o" ++ "/" ++ name ++ tail)%string
    /\ Spec.segment "o" = true
    /\ Spec.segment name = true
    /\ Spec.endsSegment tail = true
    /\ "r" = GitHubApiService.stripGitSuffix name.
Proof.
  exact (parseGitHubUrl_result_was_read "git@github.com/o/r.git"
           (GitHubApiService.UrlParts.mk "o" "r") eq_refl).
Defined.

(** X4.  A text in which [github.com/] does not occur is no repository
    URL: [parseGitHubUrl] returns null. *)
Theorem parseGitHubUrl_needs_the_host (url : string) :
  Js.includes url "github.com/" = false ->
  GitHubApiService.parseGitHubUrl url = None.
Proof.
  intros H. unfold GitHubApiService.parseGitHubUrl.
  rewrite (search_none GitHubApiService.ownerAndRepo url "github.com/"); [reflexivity| |exact H].
  intros t P. unfold GitHubApiService.ownerAndRepo, Regex.literal. now rewrite P.
Qed.

Lemma parseGitHubUrl_needs_the_host_witness :
  GitHubApiService.parseGitHubUrl "https://gitlab.com/owner/name" = None.
Proof.
  exact (parseGitHubUrl_needs_the_host "https://gitlab.com/owner/name" eq_refl).
Defined.

(** ** The form: [validateGitHubUrl], [handleSubmit], [handleUrlChange] *)

Lemma trimStart_shape (s : string) :
  Js.trimStart s = EmptyString
  \/ exists c t, Js.trimStart s = String c t /\ Js.isSpace c = false.
Proof.
  induction s as [|c s IH]; [now left|].
  cbn [Js.trimStart]. destruct (Js.isSpace c) eqn:C; [exact IH|].
  right. now exists c, s.
Qed.

Lemma trimEnd_cons (c : ascii) (s : string) :
  Js.trimEnd (String c s)
  = match Js.trimEnd s with
    | EmptyString => if Js.isSpace c then EmptyString else String c EmptyString
    | t => String c t
    end.
Proof. reflexivity. Qed.

Lemma trimEnd_idempotent (s : string) : Js.trimEnd (Js.trimEnd s) = Js.trimEnd s.
Proof.
  induction s as [|c s IH]; [reflexivity|].
  rewrite trimEnd_cons. destruct (Js.trimEnd s) as [|d t] eqn:E.
  - destruct (Js.isSpace c) eqn:C; [reflexivity|]. cbn [Js.trimEnd]. now rewrite C.
  - rewrite trimEnd_cons, IH. reflexivity.
Qed.

Lemma trimEnd_head (c : ascii) (s : string) :
  Js.isSpace c = false -> exists t, Js.trimEnd (String c s) = String c t.
Proof.
  intros C. cbn [Js.trimEnd]. destruct (Js.trimEnd s); [rewrite C|]; eauto.
Qed.

(** Trimming twice is trimming once. *)
Lemma trim_idempotent (s : string) : Js.trim (Js.trim s) = Js.trim s.
Proof.
  unfold Js.trim. destruct (trimStart_shape s) as [E|(c & t & E & C)]; rewrite E.
  - reflexivity.
  - destruct (trimEnd_head c t C) as (u & Eu). rewrite Eu.
    cbn [Js.trimStart]. rewrite C, <- Eu. apply trimEnd_idempotent.
Qed.

(** The schemes and the endings the pattern of the form allows. *)
Lemma githubRegex_inv (s : string) :
  RepoAnalyzer.githubRegex s = true ->
  exists scheme owner name tail,
    s = (scheme ++ "github.com/" ++ owner ++ "/" ++ name ++ tail)%string
    /\ In scheme ["http://"; "https://"; "http://www."; "https://www."]
    /\ In tail [EmptyString; "/"]
    /\ Spec.segment owner = true /\ Spec.segment name = true.
Proof.
  unfold RepoAnalyzer.githubRegex.
  destruct (Regex.literal _ _ s) as [[owner [name u]]|] eqn:V; [|discriminate].
  intros _.
  apply literal_inv in V as (s1 & E1 & V).
  assert (Hs : exists sch s2,
             In sch ["http://"; "https://"]
             /\ s = (sch ++ s2)%string
             /\ Regex.optional "www."
                  (Regex.literal "github.com/"
                     (Regex.nonSlashRun
                        (Regex.literal "/"
                           (Regex.nonSlashRun (Regex.optional "/" Regex.atEnd))))) s2
                = Some (owner, (name, u))).
  { apply optional_inv in V as [(t & -> & V)|V];
      apply literal_inv in V as (s2 & E2 & V).
    - exists "https://", s2. subst. cbn. auto.
    - exists "http://", s2. subst. cbn. auto. }
  destruct Hs as (sch & s2 & Hsch & E2 & W).
  assert (Ht : exists scheme s3,
             In scheme ["http://"; "https://"; "http://www."; "https://www."]
             /\ s = (scheme ++ "github.com/" ++ s3)%string
             /\ Regex.nonSlashRun
                  (Regex.literal "/" (Regex.nonSlashRun (Regex.optional "/" Regex.atEnd))) s3
                = Some (owner, (name, u))).
  { apply optional_inv in W as [(t & -> & W)|W];
      apply literal_inv in W as (s3 & E3 & W); subst.
    - destruct Hsch as [<-|[<-|[]]]; [exists "http://www."|exists "https://www."];
        exists s3; rewrite E2; cbn; auto 10.
    - destruct Hsch as [<-|[<-|[]]]; [exists "http://"|exists "https://"];
        exists s3; rewrite E2; cbn; auto 10. }
  destruct Ht as (scheme & s3 & Hscheme & E3 & X).
  apply nonSlashRun_inv in X as (s4 & -> & Ho & X).
  apply literal_inv in X as (s5 & -> & X).
  apply nonSlashRun_inv in X as (s6 & -> & Hn & X).
  assert (Htail : In s6 [EmptyString; "/"]).
  { apply optional_inv in X as [(t & -> & X)|X].
    - destruct t; [right; left; reflexivity|discriminate X].
    - destruct s6; [left; reflexivity|discriminate X]. }
  exists scheme, owner, name, s6. rewrite E3. auto 10.
Qed.

Lemma githubRegex_complete (scheme owner name tail : string) :
  In scheme ["http://"; "https://"; "http://www."; "https://www."] ->
  In tail [EmptyString; "/"] ->
  Spec.segment owner = true -> Spec.segment name = true ->
  RepoAnalyzer.githubRegex (scheme ++ "github.com/" ++ owner ++ "/" ++ name ++ tail) = true.
Proof.
  intros Hs Ht Ho Hn.
  assert (K : Regex.nonSlashRun
                (Regex.literal "/" (Regex.nonSlashRun (Regex.optional "/" Regex.atEnd)))
                (owner ++ "/" ++ name ++ tail)
              = Some (owner, (name, tt))).
  { change ("/" ++ name ++ tail)%string with (String "/"%char (name ++ tail)).
    apply nonSlashRun_slash; [exact Ho|].
    apply nonSlashRun_last; [exact Hn| |];
      destruct Ht as [<-|[<-|[]]]; reflexivity. }
  assert (G : Regex.literal "github.com/"
                (Regex.nonSlashRun
                   (Regex.literal "/" (Regex.nonSlashRun (Regex.optional "/" Regex.atEnd))))
                ("github.com/" ++ owner ++ "/" ++ name ++ tail)
              = Some (owner, (name, tt))).
  { now rewrite literal_append. }
  unfold RepoAnalyzer.githubRegex.
  destruct Hs as [<-|[<-|[<-|[<-|[]]]]].
  - change ("http://" ++ "github.com/" ++ owner ++ "/" ++ name ++ tail)%string
      with ("http" ++ "://" ++ "github.com/" ++ owner ++ "/" ++ name ++ tail)%string.
    rewrite literal_append. unfold Regex.optional at 1.
    replace (Regex.literal "s" _ _) with (@None (string * (string * unit))) by reflexivity.
    rewrite literal_append. unfold Regex.optional at 1.
    replace (Regex.literal "www." _ _) with (@None (string * (string * unit))) by reflexivity.
    now rewrite G.
  - change ("https://" ++ "github.com/" ++ owner ++ "/" ++ name ++ tail)%string
      with ("http" ++ "s" ++ "://" ++ "github.com/" ++ owner ++ "/" ++ name ++ tail)%string.
    rewrite literal_append. unfold Regex.optional at 1. rewrite literal_append.
    rewrite literal_append. unfold Regex.optional at 1.
    replace (Regex.literal "www." _ _) with (@None (string * (string * unit))) by reflexivity.
    now rewrite G.
  - change ("http://www." ++ "github.com/" ++ owner ++ "/" ++ name ++ tail)%string
      with ("http" ++ "://" ++ "www." ++ "github.com/" ++ owner ++ "/" ++ name ++ tail)%string.
    rewrite literal_append. unfold Regex.optional at 1.
    replace (Regex.literal "s" _ _) with (@None (string * (string * unit))) by reflexivity.
    rewrite literal_append. unfold Regex.optional at 1. rewrite literal_append.
    now rewrite G.
  - change ("https://www." ++ "github.com/" ++ owner ++ "/" ++ name ++ tail)%string
      with ("http" ++ "s" ++ "://" ++ "www." ++ "github.com/" ++ owner ++ "/" ++ name ++ tail)%string.
    rewrite literal_append. unfold Regex.optional at 1. rewrite literal_append.
    rewrite literal_append. unfold Regex.optional at 1. rewrite literal_append.
    now rewrite G.
Qed.

Lemma githubRegex_truthy (s : string) : RepoAnalyzer.githubRegex s = true -> Js.truthy s = true.
Proof. destruct s; [discriminate|reflexivity]. Qed.

Lemma scheme_no_g (scheme : string) :
  In scheme ["http://"; "https://"; "http://www."; "https://www."] ->
  Js.mem "g"%char scheme = false.
Proof. intros [<-|[<-|[<-|[<-|[]]]]]; reflexivity. Qed.

Lemma tail_endsSegment (tail : string) :
  In tail [EmptyString; "/"] -> Spec.endsSegment tail = true.
Proof. intros [<-|[<-|[]]]; reflexivity. Qed.

(** X5.  The form accepts, once trimmed, exactly the texts
    [http(s)://(www.)github.com/OWNER/NAME] and the same with one slash
    at the end, where OWNER and NAME are not empty and hold no slash. *)
Theorem validateGitHubUrl_accepts_exactly (trim : string -> string) (url : string) :
  RepoAnalyzer.validateGitHubUrl trim url = true
  <-> exists scheme owner name tail,
        trim url = (scheme ++ "github.com/" ++ owner ++ "/" ++ name ++ tail)%string
        /\ In scheme ["http://"; "https://"; "http://www."; "https://www."]
        /\ In tail [EmptyString; "/"]
        /\ Spec.segment owner = true /\ Spec.segment name = true.
Proof.
  unfold RepoAnalyzer.validateGitHubUrl. split.
  - apply githubRegex_inv.
  - intros (scheme & owner & name & tail & -> & Hs & Ht & Ho & Hn).
    now apply githubRegex_complete.
Qed.

(** X6.  What the form passes on is the trimmed input, and the service
    parses it: a submission is analyzed only if its URL has the form's
    shape, and [parseGitHubUrl] then returns the owner and the name that
    stand in it (the name without a [.git] that ends it).  Trimming twice
    is taken to be trimming once. *)
Theorem handleSubmit_passes_a_url_that_parses (trim : string -> string)
    (url trimmedUrl : string) :
  (forall s, trim (trim s) = trim s) ->
  RepoAnalyzer.handleSubmit trim url = RepoAnalyzer.Analyze trimmedUrl ->
  trimmedUrl = trim url
  /\ exists scheme owner name tail,
       trimmedUrl = (scheme ++ "github.com/" ++ owner ++ "/" ++ name ++ tail)%string
       /\ Spec.segment owner = true /\ Spec.segment name = true
       /\ GitHubApiService.parseGitHubUrl trimmedUrl
          = Some (GitHubApiService.UrlParts.mk owner (GitHubApiService.stripGitSuffix name)).
Proof.
  intros Htrim. unfold RepoAnalyzer.handleSubmit, RepoAnalyzer.validateGitHubUrl.
  destruct (Js.truthy (trim url)); cbn [negb]; [|discriminate].
  rewrite Htrim. destruct (RepoAnalyzer.githubRegex (trim url)) eqn:V; cbn [negb]; [|discriminate].
  intros H. injection H as <-. split; [reflexivity|].
  apply githubRegex_inv in V as (scheme & owner & name & tail & E & Hs & Ht & Ho & Hn).
  exists scheme, owner, name, tail. rewrite E. repeat split; auto.
  apply parseGitHubUrl_parts; auto using scheme_no_g, tail_endsSegment.
Qed.

Lemma handleSubmit_passes_a_url_that_parses_witness :
  "https://github.com/facebook/react" = Js.trim "  https://github.com/facebook/react "
  /\ exists scheme owner name tail,
       "https://github.com/facebook/react"
       = (scheme ++ "github.com/" ++ owner ++ "/" ++ name ++ tail)%string
       /\ Spec.segment owner = true /\ Spec.segment name = true
       /\ GitHubApiService.parseGitHubUrl "https://github.com/facebook/react"
          = Some (GitHubApiService.UrlParts.mk owner (GitHubApiService.stripGitSuffix name)).
Proof.
  exact (handleSubmit_passes_a_url_that_parses Js.trim
           "  https://github.com/facebook/react " "https://github.com/facebook/react"
           trim_idempotent eq_refl).
Defined.

(** X7.  The form accepts a URL whose last segment is [.git] alone, and the
    service parses it to an empty repository name: the shape the form
    checks does not ensure a name. *)
Theorem handleSubmit_accepts_an_empty_name (trim : string -> string) (owner : string) :
  Spec.segment owner = true ->
  trim ("https://github.com/" ++ owner ++ "/.git")%string
  = ("https://github.com/" ++ owner ++ "/.git")%string ->
  RepoAnalyzer.handleSubmit trim ("https://github.com/" ++ owner ++ "/.git")
  = RepoAnalyzer.Analyze ("https://github.com/" ++ owner ++ "/.git")
  /\ GitHubApiService.parseGitHubUrl ("https://github.com/" ++ owner ++ "/.git")
     = Some (GitHubApiService.UrlParts.mk owner EmptyString).
Proof.
  intros Ho Ht. split.
  - unfold RepoAnalyzer.handleSubmit, RepoAnalyzer.validateGitHubUrl. rewrite !Ht.
    cbn [append Js.truthy negb].
    pose proof (githubRegex_complete "https://" owner ".git" EmptyString) as G.
    rewrite append_empty_r in G.
    change (String "h" (String "t" (String "t" (String "p" (String "s" (String ":" (String "/"
              (String "/" (String "g" (String "i" (String "t" (String "h" (String "u"
              (String "b" (String "." (String "c" (String "o" (String "m" (String "/"
              (owner ++ "/.git"))))))))))))))))))))
      with ("https://" ++ "github.com/" ++ owner ++ "/" ++ ".git")%string.
    rewrite G; cbn; auto.
  - exact (parseGitHubUrl_git_suffix owner EmptyString Ho eq_refl).
Qed.

Lemma handleSubmit_accepts_an_empty_name_witness :
  RepoAnalyzer.handleSubmit Js.trim "https://github.com/octocat/.git"
  = RepoAnalyzer.Analyze "https://github.com/octocat/.git"
  /\ GitHubApiService.parseGitHubUrl "https://github.com/octocat/.git"
     = Some (GitHubApiService.UrlParts.mk "octocat" EmptyString).
Proof.
  exact (handleSubmit_accepts_an_empty_name Js.trim "octocat" eq_refl eq_refl).
Defined.

(** X8.  The flag shown while typing and the submission agree: a text that
    is not empty is shown as valid exactly when submitting it starts the
    analysis, of the trimmed text.  Trimming twice is taken to be trimming
    once. *)
Theorem handleUrlChange_agrees_with_handleSubmit (trim : string -> string) (url : string) :
  (forall s, trim (trim s) = trim s) ->
  Js.truthy url = true ->
  RepoAnalyzer.handleUrlChange trim url = true
  <-> RepoAnalyzer.handleSubmit trim url = RepoAnalyzer.Analyze (trim url).
Proof.
  intros Htrim Hu.
  unfold RepoAnalyzer.handleUrlChange, RepoAnalyzer.handleSubmit, RepoAnalyzer.validateGitHubUrl.
  rewrite Hu, Htrim. cbn [andb].
  destruct (RepoAnalyzer.githubRegex (trim url)) eqn:V; cbn [negb].
  - rewrite (githubRegex_truthy _ V). cbn [negb]. now split.
  - split; [discriminate|]. now destruct (Js.truthy (trim url)).
Qed.

Lemma handleUrlChange_agrees_with_handleSubmit_witness :
  RepoAnalyzer.handleUrlChange Js.trim " https://github.com/vercel/next.js/" = true
  <-> RepoAnalyzer.handleSubmit Js.trim " https://github.com/vercel/next.js/"
      = RepoAnalyzer.Analyze (Js.trim " https://github.com/vercel/next.js/").
Proof.
  exact (handleUrlChange_agrees_with_handleSubmit Js.trim
           " https://github.com/vercel/next.js/" trim_idempotent eq_refl).
Defined.

(** The examples the form offers are accepted and parse. *)
Example exampleRepos_are_accepted :
  forallb (RepoAnalyzer.validateGitHubUrl Js.trim) RepoAnalyzer.exampleRepos = true
  /\ map GitHubApiService.parseGitHubUrl RepoAnalyzer.exampleRepos
     = [Some (GitHubApiService.UrlParts.mk "facebook" "react");
        Some (GitHubApiService.UrlParts.mk "microsoft" "vscode");
        Some (GitHubApiService.UrlParts.mk "vercel" "next.js");
        Some (GitHubApiService.UrlParts.mk "tailwindlabs" "tailwindcss")].
Proof. split; vm_compute; reflexivity. Qed.

(* ================================================================== *)
(** * What the detector writes, and when *)
(* ================================================================== *)

(** ** Rules for the store *)

Lemma hoare_ret {A : Type} (P Q E : Store -> Prop) (a : A) :
  (forall st, P st -> Q st) -> Spec.hoare P (ret a) Q E.
Proof. intros H st Hst. now apply H. Qed.

Lemma hoare_throw {A : Type} (P Q E : Store -> Prop) (e : Exn) :
  (forall st, P st -> E st) -> Spec.hoare P (@throw A e) Q E.
Proof. intros H st Hst. now apply H. Qed.

Lemma hoare_bind {A B : Type} (P R Q E : Store -> Prop) (m : M A) (k : A -> M B) :
  Spec.hoare P m R E -> (forall a, Spec.hoare R (k a) Q E) -> Spec.hoare P (bind m k) Q E.
Proof.
  intros Hm Hk st Hst. unfold bind. specialize (Hm st Hst).
  destruct (m st) as [st1 [e|a]]; [exact Hm|]. now apply Hk.
Qed.

Lemma hoare_tryCatch {A : Type} (P Q R E : Store -> Prop) (body : M A) (handler : Exn -> M A) :
  Spec.hoare P body Q R -> (forall e, Spec.hoare R (handler e) Q E) ->
  Spec.hoare P (tryCatch body handler) Q E.
Proof.
  intros Hb Hh st Hst. unfold tryCatch. specialize (Hb st Hst).
  destruct (body st) as [st1 [e|a]]; [now apply Hh|exact Hb].
Qed.

Lemma hoare_when (P Q E : Store -> Prop) (c : bool) (body : M unit) :
  (c = true -> Spec.hoare P body Q E) ->
  (c = false -> forall st, P st -> Q st) ->
  Spec.hoare P (when c body) Q E.
Proof.
  intros Hb Hs. destruct c; cbn [when]; [now apply Hb|].
  apply hoare_ret. now apply Hs.
Qed.

Lemma hoare_conseq {A : Type} (P P' Q Q' E E' : Store -> Prop) (m : M A) :
  Spec.hoare P' m Q' E' ->
  (forall st, P st -> P' st) -> (forall st, Q' st -> Q st) -> (forall st, E' st -> E st) ->
  Spec.hoare P m Q E.
Proof.
  intros H HP HQ HE st Hst. specialize (H st (HP st Hst)).
  destruct (m st) as [st1 [e|a]]; auto.
Qed.

(** A computation that throws nothing leaves no store behind a throw. *)
Lemma hoare_returns {A : Type} (P Q E E' : Store -> Prop) (m : M A) :
  Spec.returns m -> Spec.hoare P m Q E' -> Spec.hoare P m Q E.
Proof.
  intros Hr H st Hst. specialize (H st Hst).
  destruct (Hr st) as (st1 & a & Eq). rewrite Eq in *. exact H.
Qed.

Lemma hoare_fst {A : Type} (P Q : Store -> Prop) (m : M A) (st : Store) :
  Spec.hoare P m Q Q -> P st -> Q (fst (m st)).
Proof.
  intros H Hst. specialize (H st Hst). now destruct (m st) as [st1 [e|a]].
Qed.

(** The steps that write. *)
Lemma hoare_pushFramework (P Q E : Store -> Prop) (x : string) :
  (forall fw tl db dp cs, P (mkStore fw tl db dp cs) -> Q (mkStore (fw ++ [x]) tl db dp cs)) ->
  Spec.hoare P (pushFramework x) Q E.
Proof. intros H [fw tl db dp cs] Hst. now apply H. Qed.

Lemma hoare_pushTool (P Q E : Store -> Prop) (x : string) :
  (forall fw tl db dp cs, P (mkStore fw tl db dp cs) -> Q (mkStore fw (tl ++ [x]) db dp cs)) ->
  Spec.hoare P (pushTool x) Q E.
Proof. intros H [fw tl db dp cs] Hst. now apply H. Qed.

Lemma hoare_pushDatabase (P Q E : Store -> Prop) (x : string) :
  (forall fw tl db dp cs, P (mkStore fw tl db dp cs) -> Q (mkStore fw tl (db ++ [x]) dp cs)) ->
  Spec.hoare P (pushDatabase x) Q E.
Proof. intros H [fw tl db dp cs] Hst. now apply H. Qed.

Lemma hoare_pushDeployment (P Q E : Store -> Prop) (x : string) :
  (forall fw tl db dp cs, P (mkStore fw tl db dp cs) -> Q (mkStore fw tl db (dp ++ [x]) cs)) ->
  Spec.hoare P (pushDeployment x) Q E.
Proof. intros H [fw tl db dp cs] Hst. now apply H. Qed.

Lemma hoare_warn (P Q E : Store -> Prop) (msg : string) (e : Exn) :
  (forall fw tl db dp cs, P (mkStore fw tl db dp cs) -> Q (mkStore fw tl db dp (cs ++ [(msg, e)]))) ->
  Spec.hoare P (warn msg e) Q E.
Proof. intros H [fw tl db dp cs] Hst. now apply H. Qed.

Lemma hoare_declareArrays (P Q E : Store -> Prop) :
  (forall fw tl db dp cs, P (mkStore fw tl db dp cs) -> Q (mkStore [] [] [] [] cs)) ->
  Spec.hoare P declareArrays Q E.
Proof. intros H [fw tl db dp cs] Hst. exact (H _ _ _ _ _ Hst). Qed.

(** ** Invariants *)

Lemma invariant_ret {A : Type} (I : Store -> Prop) (a : A) : Spec.invariant I (ret a).
Proof. now apply hoare_ret. Qed.

Lemma invariant_throw {A : Type} (I : Store -> Prop) (e : Exn) : Spec.invariant I (@throw A e).
Proof. now apply hoare_throw. Qed.

Lemma invariant_lift {A : Type} (I : Store -> Prop) (r : Exn + A) : Spec.invariant I (lift r).
Proof. intros st Hst. unfold lift. now destruct r. Qed.

Lemma invariant_getStore (I : Store -> Prop) : Spec.invariant I getStore.
Proof. intros st Hst. exact Hst. Qed.

Lemma invariant_bind {A B : Type} (I : Store -> Prop) (m : M A) (k : A -> M B) :
  Spec.invariant I m -> (forall a, Spec.invariant I (k a)) -> Spec.invariant I (bind m k).
Proof. apply hoare_bind. Qed.

Lemma invariant_tryCatch {A : Type} (I : Store -> Prop) (body : M A) (handler : Exn -> M A) :
  Spec.invariant I body -> (forall e, Spec.invariant I (handler e)) ->
  Spec.invariant I (tryCatch body handler).
Proof. apply hoare_tryCatch. Qed.

Lemma invariant_when (I : Store -> Prop) (c : bool) (body : M unit) :
  (c = true -> Spec.invariant I body) -> Spec.invariant I (when c body).
Proof. intros H. apply hoare_when; auto. Qed.

Lemma invariant_if {A : Type} (I : Store -> Prop) (c : bool) (a b : M A) :
  Spec.invariant I a -> Spec.invariant I b -> Spec.invariant I (if c then a else b).
Proof. now destruct c. Qed.

Lemma invariant_getProp (I : Store -> Prop) (v : Json.t) (k : string) :
  Spec.invariant I (GitHubApiService.getProp v k).
Proof. destruct v; first [apply invariant_ret|apply invariant_throw]. Qed.

(** [getFileContent] writes to the console alone. *)
Lemma invariant_getFileContent (I : Store -> Prop)
    (fetch : string -> Exn + GitHubApiService.Response) (atob : string -> Exn + string)
    (owner repo path : string) :
  (forall entry fw tl db dp cs, I (mkStore fw tl db dp cs) -> I (mkStore fw tl db dp (cs ++ [entry]))) ->
  Spec.invariant I (GitHubApiService.getFileContent fetch atob owner repo path).
Proof.
  intros H st Hst.
  destruct (getFileContent_cases fetch atob owner repo path st) as [[s E]|[e E]]; rewrite E.
  - exact Hst.
  - destruct st as [fw tl db dp cs]. now apply H.
Qed.

(** One step of the proof that a computation keeps an invariant, by the
    shape of the computation; [side] proves that a write keeps it. *)
Ltac invariant_write side :=
  intros ? ? ? ? ? ?;
  cbn beta iota delta [st_frameworks st_tools st_databases st_deployment] in *;
  first [assumption | side].

Ltac invariant_step side :=
  try lazymatch goal with
      | |- Spec.hoare ?I ?m ?I ?I => change (Spec.invariant I m)
      end;
  lazymatch goal with
  | |- Spec.invariant _ (bind _ _) => apply invariant_bind; [|intros ?]
  | |- Spec.invariant _ (when _ _) => apply invariant_when; intros ?
  | |- Spec.invariant _ (tryCatch _ _) => apply invariant_tryCatch; [|intros ?]
  | |- Spec.invariant _ (if _ then _ else _) => apply invariant_if
  | |- Spec.invariant _ (ret _) => apply invariant_ret
  | |- Spec.invariant _ (throw _) => apply invariant_throw
  | |- Spec.invariant _ (lift _) => apply invariant_lift
  | |- Spec.invariant _ getStore => apply invariant_getStore
  | |- Spec.invariant _ (GitHubApiService.getProp _ _) => apply invariant_getProp
  | |- Spec.invariant _ (GitHubApiService.getFileContent _ _ _ _ _) =>
      apply invariant_getFileContent; intros ?; invariant_write side
  | |- Spec.invariant _ (pushFramework _) => apply hoare_pushFramework; invariant_write side
  | |- Spec.invariant _ (pushTool _) => apply hoare_pushTool; invariant_write side
  | |- Spec.invariant _ (pushDatabase _) => apply hoare_pushDatabase; invariant_write side
  | |- Spec.invariant _ (pushDeployment _) => apply hoare_pushDeployment; invariant_write side
  | |- Spec.invariant _ (warn _ _) => apply hoare_warn; invariant_write side
  end.

Lemma hoare_keep {A : Type} (I : Store -> Prop) (m : M A) :
  Spec.invariant I m -> Spec.hoare I m I (fun _ => True).
Proof. intros H. apply (hoare_conseq I I I I _ I m H); auto. Qed.

Lemma collect_store (fetch : string -> Exn + GitHubApiService.Response)
    (atob : string -> Exn + string) (JSON_parse : string -> Exn + Json.t)
    (toLowerCase : string -> string)
    (owner repo : string) (files : list RepoFile.t) (languages : list (string * Z))
    (st : Store) :
  exists raw,
    GitHubApiService.collect fetch atob JSON_parse toLowerCase owner repo files st = (raw, inr raw)
    /\ GitHubApiService.detectTechnologies fetch atob JSON_parse toLowerCase owner repo files
        languages st
       = (raw, inr (TechnologyStack.mk languages
                      (Js.dedup (st_frameworks raw)) (Js.dedup (st_tools raw))
                      (Js.dedup (st_databases raw)) (Js.dedup (st_deployment raw)))).
Proof.
  destruct (collect_returns fetch atob JSON_parse toLowerCase owner repo files st) as
      (st' & raw & E).
  assert (raw = st').
  { pose proof E as E'. unfold GitHubApiService.collect in E'.
    repeat match type of E' with
    | bind ?m ?k _ = _ =>
        unfold bind at 1 in E'; destruct (m _) as [? [?|?]]; try discriminate E'
    end.
    unfold getStore in E'. now inversion E'. }
  subst raw. exists st'. split; [exact E|].
  unfold GitHubApiService.detectTechnologies, bind. now rewrite E.
Qed.

Section Invariants.
Import GitHubApiService.

Variable fetch : string -> Exn + Response.
Variable atob : string -> Exn + string.
Variable JSON_parse : string -> Exn + Json.t.
Variable toLowerCase : string -> string.

(** ** The deployment array *)

(** The rules on the manifests leave the deployment array as it is. *)
Lemma packageBlock_keeps_deployment (L : list string) (owner repo : string)
    (fileNames : list string) :
  Spec.invariant (fun st => st_deployment st = L)
    (packageBlock fetch atob JSON_parse owner repo fileNames).
Proof.
  unfold packageBlock, packageBody, packageRules.
  repeat invariant_step fail.
Qed.

Lemma pythonBlock_keeps_deployment (L : list string) (owner repo : string)
    (fileNames : list string) :
  Spec.invariant (fun st => st_deployment st = L) (pythonBlock fetch atob owner repo fileNames).
Proof.
  unfold pythonBlock, pythonRules.
  repeat invariant_step fail.
Qed.

Lemma deployment_when_push (L : list string) (c : bool) (x : string) :
  Spec.hoare (fun st => st_deployment st = L) (when c (pushDeployment x))
    (fun st => st_deployment st = L ++ (if c then [x] else [])) (fun _ => True).
Proof.
  apply hoare_when.
  - intros ->. apply hoare_pushDeployment. intros fw tl db dp cs H. cbn in *. now subst.
  - intros -> st H. now rewrite app_nil_r.
Qed.

(** One step along the rules on the listing: a rule that writes the
    deployment array adds its label, any other leaves the array. *)
Ltac deployment_step :=
  lazymatch goal with
  | |- Spec.hoare _ (bind (when _ (pushDeployment _)) _) _ _ =>
      eapply hoare_bind; [apply deployment_when_push|intros _]
  | |- Spec.hoare _ (bind _ _) _ _ =>
      eapply hoare_bind; [apply hoare_keep; repeat invariant_step fail|intros _]
  end.

Lemma markerRules_deployment (files : list RepoFile.t) (fileNames : list string)
    (L : list string) :
  let has := Js.arrIncludes fileNames in
  Spec.hoare (fun st => st_deployment st = L) (markerRules files fileNames)
    (fun st =>
       st_deployment st
       = ((((L ++ (if has "dockerfile" || has "docker-compose.yml" || has "docker-compose.yaml"
                   then ["Docker"] else []))
              ++ (if existsb (fun f => Js.includes (RepoFile.path f) ".github/workflows") files
                  then ["GitHub Actions"] else []))
             ++ (if has ".travis.yml" then ["Travis CI"] else []))
            ++ (if has "jenkinsfile" then ["Jenkins"] else []))
         ++ (if has ".gitlab-ci.yml" then ["GitLab CI"] else []))
    (fun _ => True).
Proof.
  intros has. unfold markerRules. fold has.
  repeat deployment_step.
  apply hoare_keep. repeat invariant_step fail.
Qed.

Lemma collect_deployment (owner repo : string) (files : list RepoFile.t) (st : Store) :
  let has := Js.arrIncludes (map (fun f => toLowerCase (RepoFile.name f)) files) in
  st_deployment (fst (collect fetch atob JSON_parse toLowerCase owner repo files st))
  = (((([] ++ (if has "dockerfile" || has "docker-compose.yml" || has "docker-compose.yaml"
               then ["Docker"] else []))
         ++ (if existsb (fun f => Js.includes (RepoFile.path f) ".github/workflows") files
             then ["GitHub Actions"] else []))
        ++ (if has ".travis.yml" then ["Travis CI"] else []))
       ++ (if has "jenkinsfile" then ["Jenkins"] else []))
    ++ (if has ".gitlab-ci.yml" then ["GitLab CI"] else []).
Proof.
  intros has.
  apply (hoare_fst (fun _ => True)); [|exact I].
  apply hoare_returns with (E' := fun _ => True); [apply collect_returns|].
  unfold collect.
  eapply hoare_bind.
  { apply hoare_declareArrays with (Q := fun st => st_deployment st = []). reflexivity. }
  intros _. eapply hoare_bind; [apply hoare_keep, packageBlock_keeps_deployment|].
  intros _. eapply hoare_bind; [apply hoare_keep, pythonBlock_keeps_deployment|].
  intros _. eapply hoare_bind; [apply markerRules_deployment|].
  intros _. apply hoare_keep, invariant_getStore.
Qed.

End Invariants.

(** X9.  Deployment and CI labels are read from the listing alone: each is
    in the profile exactly when its marker is in the listing (names
    compared as the runtime's [toLowerCase] gives them, whichever letters
    it maps; the workflows directory by its path), whatever the network,
    the decoder and the parser answer, and the profile holds no other
    deployment label. *)
Theorem deployment_is_read_from_the_listing
    (fetch : string -> Exn + GitHubApiService.Response)
    (atob : string -> Exn + string) (JSON_parse : string -> Exn + Json.t)
    (toLowerCase : string -> string)
    (owner repo : string) (files : list RepoFile.t) (languages : list (string * Z))
    (st : Store) :
  exists st' profile,
    GitHubApiService.detectTechnologies fetch atob JSON_parse toLowerCase owner repo files
        languages st
    = (st', inr profile)
    /\ (let has := Js.arrIncludes (map (fun f => toLowerCase (RepoFile.name f)) files) in
        let reported := Js.arrIncludes (TechnologyStack.deployment profile) in
        reported "Docker"
        = (has "dockerfile" || has "docker-compose.yml" || has "docker-compose.yaml")
        /\ reported "GitHub Actions"
           = existsb (fun f => Js.includes (RepoFile.path f) ".github/workflows") files
        /\ reported "Travis CI" = has ".travis.yml"
        /\ reported "Jenkins" = has "jenkinsfile"
        /\ reported "GitLab CI" = has ".gitlab-ci.yml"
        /\ forallb (Js.arrIncludes ["Docker"; "GitHub Actions"; "Travis CI"; "Jenkins"; "GitLab CI"])
             (TechnologyStack.deployment profile) = true).
Proof.
  destruct (collect_store fetch atob JSON_parse toLowerCase owner repo files languages st)
    as (raw & Ec & Ed).
  eexists raw, _. split; [exact Ed|].
  cbn [TechnologyStack.deployment].
  pose proof (collect_deployment fetch atob JSON_parse toLowerCase owner repo files st) as H.
  rewrite Ec in H. cbn [fst] in H. cbv zeta in H. rewrite H. clear H.
  cbv zeta.
  set (has := Js.arrIncludes (map (fun f => toLowerCase (RepoFile.name f)) files)).
  destruct (has "dockerfile" || has "docker-compose.yml" || has "docker-compose.yaml");
    destruct (existsb _ files);
    destruct (has ".travis.yml"); destruct (has "jenkinsfile"); destruct (has ".gitlab-ci.yml");
    vm_compute; repeat split.
Qed.

(** ** Labels that depend on one another *)

Lemma in_snoc_other (x y : string) (l : list string) :
  String.eqb x y = false -> In x (l ++ [y]) -> In x l.
Proof.
  intros Hne H. apply in_app_or in H as [H|[H|[]]]; [exact H|].
  subst y. now rewrite String.eqb_refl in Hne.
Qed.

(** A write keeps a label that is in the array. *)
Ltac label_stays := apply in_or_app; left; assumption.

(** A write of another label does not bring a label in. *)
Ltac label_stays_out :=
  idtac;
  let H := fresh in
  intros H; apply in_snoc_other in H; [contradiction|reflexivity].

(** A write of a third label keeps that one label comes with another. *)
Ltac labels_stay_tied :=
  idtac;
  let H := fresh in
  intros [H|H]; apply in_snoc_other in H; [|reflexivity| |reflexivity];
  apply in_or_app; left; auto.

Section Labels.
Import GitHubApiService.

Variable fetch : string -> Exn + Response.
Variable atob : string -> Exn + string.
Variable JSON_parse : string -> Exn + Json.t.
Variable toLowerCase : string -> string.

Lemma packageBlock_keeps_tool (x : string) (owner repo : string) (fileNames : list string) :
  Spec.invariant (fun st => In x (st_tools st))
    (packageBlock fetch atob JSON_parse owner repo fileNames).
Proof.
  unfold packageBlock, packageBody, packageRules. repeat invariant_step label_stays.
Qed.

Lemma markerRules_keeps_tool (x : string) (files : list RepoFile.t) (fileNames : list string) :
  Spec.invariant (fun st => In x (st_tools st)) (markerRules files fileNames).
Proof. unfold markerRules. repeat invariant_step label_stays. Qed.

Lemma packageBlock_no_pip (owner repo : string) (fileNames : list string) :
  Spec.invariant (fun st => ~ In "pip" (st_tools st))
    (packageBlock fetch atob JSON_parse owner repo fileNames).
Proof.
  unfold packageBlock, packageBody, packageRules. repeat invariant_step label_stays_out.
Qed.

Lemma markerRules_no_pip (files : list RepoFile.t) (fileNames : list string) :
  Spec.invariant (fun st => ~ In "pip" (st_tools st)) (markerRules files fileNames).
Proof. unfold markerRules. repeat invariant_step label_stays_out. Qed.

Lemma collect_pip (owner repo : string) (files : list RepoFile.t) (st : Store) :
  let has := Js.arrIncludes (map (fun f => toLowerCase (RepoFile.name f)) files) in
  Js.arrIncludes (st_tools (fst (collect fetch atob JSON_parse toLowerCase owner repo files st)))
      "pip"
  = (has "requirements.txt" || has "pyproject.toml" || has "pipfile").
Proof.
  intros has.
  destruct (has "requirements.txt" || has "pyproject.toml" || has "pipfile") eqn:C.
  - apply arrIncludes_In.
    apply (hoare_fst (fun _ => True) (fun st => In "pip" (st_tools st))); [|exact I].
    unfold collect.
    eapply hoare_bind with (R := fun _ => True);
      [apply hoare_declareArrays; auto|intros _].
    eapply hoare_bind with (R := fun _ => True).
    { apply hoare_returns with (E' := fun _ => True); [apply packageBlock_returns|].
      intros s _. now destruct (packageBlock _ _ _ _ _ _ s) as [? [?|?]]. }
    intros _. eapply hoare_bind with (R := fun st => In "pip" (st_tools st)).
    { unfold pythonBlock. fold has. rewrite C. cbn [when].
      eapply hoare_bind with (R := fun st => In "pip" (st_tools st)).
      - apply hoare_pushTool. intros fw tl db dp cs _. cbn. apply in_or_app. right. now left.
      - intros _. unfold pythonRules. repeat invariant_step label_stays. }
    intros _. eapply hoare_bind with (R := fun st => In "pip" (st_tools st));
      [apply markerRules_keeps_tool|intros _; apply invariant_getStore].
  - apply arrIncludes_not_In.
    apply (hoare_fst (fun _ => True) (fun st => ~ In "pip" (st_tools st))); [|exact I].
    unfold collect.
    eapply hoare_bind with (R := fun st => ~ In "pip" (st_tools st)).
    { apply hoare_declareArrays. intros fw tl db dp cs _. cbn. tauto. }
    intros _. apply invariant_bind; [apply packageBlock_no_pip|intros _].
    apply invariant_bind.
    { unfold pythonBlock. fold has. rewrite C. cbn [when]. apply invariant_ret. }
    intros _. apply invariant_bind; [apply markerRules_no_pip|intros _; apply invariant_getStore].
Qed.

(** Gatsby and React Native come with React. *)
Lemma packageRules_react_first (allDeps : list (string * Json.t)) :
  Spec.invariant
    (fun st => In "Gatsby" (st_frameworks st) \/ In "React Native" (st_frameworks st) ->
               In "React" (st_frameworks st))
    (packageRules allDeps).
Proof.
  unfold packageRules. apply invariant_bind.
  - apply invariant_when. intros _.
    eapply hoare_bind with (R := fun st => In "React" (st_frameworks st)).
    + apply hoare_pushFramework. intros fw tl db dp cs _. cbn. apply in_or_app. right. now left.
    + intros _.
      apply hoare_conseq with (P' := fun st => In "React" (st_frameworks st))
                              (Q' := fun st => In "React" (st_frameworks st))
                              (E' := fun st => In "React" (st_frameworks st)); auto.
      repeat invariant_step label_stays.
  - intros _.
    repeat invariant_step
labels_stay_tied.
Qed.

Lemma collect_react_first (owner repo : string) (files : list RepoFile.t) (st : Store) :
  let fw := st_frameworks (fst (collect fetch atob JSON_parse toLowerCase owner repo files st)) in
  In "Gatsby" fw \/ In "React Native" fw -> In "React" fw.
Proof.
  apply (hoare_fst (fun _ => True)
           (fun st => In "Gatsby" (st_frameworks st) \/ In "React Native" (st_frameworks st) ->
                      In "React" (st_frameworks st))); [|exact I].
  unfold collect.
  eapply hoare_bind.
  { apply hoare_declareArrays
      with (Q := fun st => In "Gatsby" (st_frameworks st) \/ In "React Native" (st_frameworks st) ->
                           In "React" (st_frameworks st)).
    intros fw tl db dp cs _. cbn. tauto. }
  intros _. apply invariant_bind.
  { unfold packageBlock, packageBody.
    repeat first
      [ apply packageRules_react_first
      | invariant_step fail ]. }
  intros _. apply invariant_bind.
  { unfold pythonBlock, pythonRules.
    repeat invariant_step
labels_stay_tied. }
  intros _. apply invariant_bind; [|intros _; apply invariant_getStore].
  unfold markerRules.
  repeat invariant_step
labels_stay_tied.
Qed.

End Labels.

(** X10.  The tool [pip] is in the profile exactly when the listing holds
    requirements.txt, pyproject.toml or Pipfile (names compared in lower
    case): no answer of the network adds it or takes it away. *)
Theorem pip_is_reported_for_python_manifests
    (fetch : string -> Exn + GitHubApiService.Response)
    (atob : string -> Exn + string) (JSON_parse : string -> Exn + Json.t)
    (toLowerCase : string -> string)
    (owner repo : string) (files : list RepoFile.t) (languages : list (string * Z))
    (st : Store) :
  exists st' profile,
    GitHubApiService.detectTechnologies fetch atob JSON_parse toLowerCase owner repo files
        languages st
    = (st', inr profile)
    /\ (let has := Js.arrIncludes (map (fun f => toLowerCase (RepoFile.name f)) files) in
        Js.arrIncludes (TechnologyStack.tools profile) "pip"
        = (has "requirements.txt" || has "pyproject.toml" || has "pipfile")).
Proof.
  destruct (collect_store fetch atob JSON_parse toLowerCase owner repo files languages st)
    as (raw & Ec & Ed).
  eexists raw, _. split; [exact Ed|].
  cbn [TechnologyStack.tools]. cbv zeta.
  pose proof (collect_pip fetch atob JSON_parse toLowerCase owner repo files st) as H.
  rewrite Ec in H. cbn [fst] in H. cbv zeta in H. rewrite <- H.
  destruct (Js.arrIncludes (st_tools raw) "pip") eqn:E.
  - apply arrIncludes_In, dedup_In. now apply arrIncludes_In.
  - apply arrIncludes_not_In. rewrite dedup_In. now apply arrIncludes_not_In.
Qed.

(** X11.  Gatsby and React Native are reported only with React: a profile
    that names one of them names React. *)
Theorem gatsby_and_react_native_come_with_react
    (fetch : string -> Exn + GitHubApiService.Response)
    (atob : string -> Exn + string) (JSON_parse : string -> Exn + Json.t)
    (toLowerCase : string -> string)
    (owner repo : string) (files : list RepoFile.t) (languages : list (string * Z))
    (st : Store) :
  exists st' profile,
    GitHubApiService.detectTechnologies fetch atob JSON_parse toLowerCase owner repo files
        languages st
    = (st', inr profile)
    /\ (let reported := Js.arrIncludes (TechnologyStack.frameworks profile) in
        implb (reported "Gatsby" || reported "React Native") (reported "React") = true).
Proof.
  destruct (collect_store fetch atob JSON_parse toLowerCase owner repo files languages st)
    as (raw & Ec & Ed).
  eexists raw, _. split; [exact Ed|].
  cbn [TechnologyStack.frameworks]. cbv zeta.
  pose proof (collect_react_first fetch atob JSON_parse toLowerCase owner repo files st) as H.
  rewrite Ec in H. cbn [fst] in H. cbv zeta in H.
  destruct (Js.arrIncludes (Js.dedup (st_frameworks raw)) "Gatsby"
            || Js.arrIncludes (Js.dedup (st_frameworks raw)) "React Native") eqn:E;
    [|reflexivity].
  cbn [implb]. apply arrIncludes_In, dedup_In, H.
  apply orb_prop in E as [E|E]; apply arrIncludes_In in E;
    apply (proj1 (dedup_In _ _)) in E; [left|right]; exact E.
Qed.

(* ================================================================== *)
(** * The content of a file *)
(* ================================================================== *)

(** Replacing one character everywhere, by a text without a dollar, reads
    character by character. *)
Lemma replaceFrom_char (c : ascii) (r : string) :
  Js.mem "$"%char r = false ->
  forall s before,
    Js.replaceFrom (String c EmptyString) r 0 before s
    = Spec.eachChar (fun d => if Ascii.eqb c d then r else String d EmptyString) s.
Proof.
  intros Hr. induction s as [|d s IH]; intros before; [reflexivity|].
  cbn [Js.replaceFrom Spec.eachChar String.length Nat.sub].
  rewrite prefix_cons, prefix_empty, andb_true_r.
  destruct (Ascii.eqb c d).
  - now rewrite getSubstitution_plain, IH by exact Hr.
  - now rewrite IH.
Qed.

Lemma replaceAll_char (c : ascii) (r s : string) :
  Js.mem "$"%char r = false ->
  Js.replaceAll s (String c EmptyString) r
  = Spec.eachChar (fun d => if Ascii.eqb c d then r else String d EmptyString) s.
Proof. intros Hr. now apply replaceFrom_char. Qed.

Lemma includes_char (c : ascii) (s : string) :
  Js.includes s (String c EmptyString) = Js.mem c s.
Proof.
  induction s as [|d s IH]; [reflexivity|].
  rewrite includes_cons, prefix_cons, prefix_empty, andb_true_r, IH. reflexivity.
Qed.

Lemma stripped_has_no_line_feed (s : string) :
  Js.includes (Js.replaceAll s Js.lf EmptyString) Js.lf = false.
Proof.
  unfold Js.lf. rewrite replaceAll_char by reflexivity. rewrite includes_char.
  induction s as [|d s IH]; [reflexivity|].
  cbn [Spec.eachChar]. destruct (Ascii.eqb (ascii_of_nat 10) d) eqn:E.
  - exact IH.
  - cbn [append Js.mem]. now rewrite E, IH.
Qed.

(** X12.  The decoder is given no line feed: [getFileContent] does the same
    with two decoders that agree on every text without a line feed. *)
Theorem getFileContent_decodes_without_line_feeds
    (fetch : string -> Exn + GitHubApiService.Response)
    (atob atob' : string -> Exn + string) (owner repo path : string) (st : Store) :
  (forall s, Js.includes s Js.lf = false -> atob s = atob' s) ->
  GitHubApiService.getFileContent fetch atob owner repo path st
  = GitHubApiService.getFileContent fetch atob' owner repo path st.
Proof.
  intros H.
  unfold GitHubApiService.getFileContent, tryCatch, bind, GitHubApiService.fetchGitHub, lift, bind.
  destruct (fetch _) as [e|response]; [reflexivity|].
  destruct (GitHubApiService.ok response); cbn [negb]; [|reflexivity].
  destruct (GitHubApiService.json response) as [e|v]; [reflexivity|].
  destruct v as [| | | | |props]; try reflexivity.
  cbn [GitHubApiService.getProp ret].
  destruct (Json.truthy (Json.lookupLast "content" props)); [|reflexivity].
  destruct (Json.lookupLast "content" props) as [[| | |s| |]|]; try reflexivity.
  cbn [GitHubApiService.stripLineFeeds ret].
  now rewrite (H _ (stripped_has_no_line_feed s)).
Qed.

Lemma getFileContent_decodes_without_line_feeds_witness :
  GitHubApiService.getFileContent Sample.wrapped (Sample.decodeTo "{}")
    "octocat" "notes" "package.json" GitHubApiService.emptyStore
  = GitHubApiService.getFileContent Sample.wrapped (Sample.strictDecodeTo "{}")
      "octocat" "notes" "package.json" GitHubApiService.emptyStore.
Proof.
  apply (getFileContent_decodes_without_line_feeds Sample.wrapped
           (Sample.decodeTo "{}") (Sample.strictDecodeTo "{}")).
  intros s H. unfold Sample.strictDecodeTo, Sample.decodeTo. now rewrite H.
Defined.

(** X13.  A text that [getFileContent] returns and that is not empty is
    what the decoder made of the [content] string of the answer, its line
    feeds removed: the request was answered with [ok], the answer is an
    object, and nothing was written to the console. *)
Theorem getFileContent_answer_was_decoded
    (fetch : string -> Exn + GitHubApiService.Response)
    (atob : string -> Exn + string) (owner repo path : string) (st st' : Store)
    (text : string) :
  GitHubApiService.getFileContent fetch atob owner repo path st = (st', inr text) ->
  Js.truthy text = true ->
  st' = st
  /\ exists response props content,
       fetch ("https://api.github.com/repos/" ++ owner ++ "/" ++ repo ++ "/contents/" ++ path)%string
       = inr response
       /\ GitHubApiService.ok response = true
       /\ GitHubApiService.json response = inr (Json.JObject props)
       /\ Json.lookupLast "content" props = Some (Json.JString content)
       /\ atob (Js.replaceAll content Js.lf EmptyString) = inr text.
Proof.
  unfold GitHubApiService.getFileContent, tryCatch, bind, GitHubApiService.fetchGitHub, lift, bind.
  change (GitHubApiService.GITHUB_API_BASE ++ GitHubApiService.contentsUrl owner repo path)%string
    with ("https://api.github.com/repos/" ++ owner ++ "/" ++ repo ++ "/contents/" ++ path)%string.
  destruct (fetch _) as [e|response] eqn:F.
  { cbn. intros H. inversion H; subst. discriminate. }
  destruct (GitHubApiService.ok response) eqn:O; cbn [negb].
  2:{ cbn. intros H. inversion H; subst. discriminate. }
  destruct (GitHubApiService.json response) as [e|v] eqn:J.
  { cbn. intros H. inversion H; subst. discriminate. }
  destruct v as [| | | | |props];
    try (cbn; intros H; inversion H; subst; discriminate).
  cbn [GitHubApiService.getProp ret].
  destruct (Json.truthy (Json.lookupLast "content" props)) eqn:T.
  2:{ cbn. intros H. inversion H; subst. discriminate. }
  destruct (Json.lookupLast "content" props) as [[| | |s| |]|] eqn:L;
    try (cbn; intros H; inversion H; subst; discriminate).
  cbn [GitHubApiService.stripLineFeeds ret].
  destruct (atob _) as [e|decoded] eqn:D.
  { cbn. intros H. inversion H; subst. discriminate. }
  intros H Ht. inversion H; subst. split; [reflexivity|].
  now exists response, props, s.
Qed.

Lemma getFileContent_answer_was_decoded_witness :
  GitHubApiService.emptyStore = GitHubApiService.emptyStore
  /\ exists response props content,
       Sample.wrapped "https://api.github.com/repos/octocat/notes/contents/package.json"
       = inr response
       /\ GitHubApiService.ok response = true
       /\ GitHubApiService.json response = inr (Json.JObject props)
       /\ Json.lookupLast "content" props = Some (Json.JString content)
       /\ Sample.decodeTo "{}" (Js.replaceAll content Js.lf EmptyString) = inr "{}".
Proof.
  exact (getFileContent_answer_was_decoded Sample.wrapped (Sample.decodeTo "{}")
           "octocat" "notes" "package.json" GitHubApiService.emptyStore
           GitHubApiService.emptyStore "{}" eq_refl eq_refl).
Defined.

(* ================================================================== *)
(** * The document and its table of contents *)
(* ================================================================== *)

Lemma existsb_perm {A : Type} (f : A -> bool) (l l' : list A) :
  Permutation l l' -> existsb f l = existsb f l'.
Proof.
  induction 1 as [|x l l' _ IH|x y l|l l' l'' _ IH1 _ IH2]; cbn [existsb].
  - reflexivity.
  - now rewrite IH.
  - now rewrite !orb_assoc, (orb_comm (f y)).
  - congruence.
Qed.

Lemma trim_truthy_append (c : ascii) (s t : string) :
  Js.isSpace c = false -> Js.truthy (Js.trim (String c s ++ t)) = true.
Proof. intros H. cbn [append]. now apply trim_truthy. Qed.

Section Document.

Variable toLowerCase : string -> string.
Variable localeCompare : string -> string -> Z.
Variable toLocaleDateString : string -> string.
Variable percentOf : Z -> Z -> string.

(** The conditions on the listing read the same after the sort that
    [buildFileTree] does in place: the sections that come after the project
    structure are chosen as the table of contents, built before it, says. *)
Lemma allSections_conditions (repository : Repository.t) (techStack : TechnologyStack.t)
    (files : list RepoFile.t) :
  fst (ReadmeGenerator.allSections toLowerCase localeCompare toLocaleDateString percentOf
         repository techStack files)
  = [ReadmeGenerator.generateHeader repository;
     ReadmeGenerator.generateBadges toLowerCase repository techStack;
     ReadmeGenerator.generateDescription toLowerCase toLocaleDateString repository techStack files;
     ReadmeGenerator.generateTableOfContents toLowerCase techStack files;
     ReadmeGenerator.generateFeatures toLowerCase repository techStack files;
     ReadmeGenerator.generateTechStack percentOf techStack;
     ReadmeGenerator.generateInstallation toLowerCase techStack files;
     ReadmeGenerator.generateUsage toLowerCase repository techStack files;
     fst (ReadmeGenerator.generateProjectStructure localeCompare files)]
    ++ (if ReadmeGenerator.shouldIncludeApiDocs toLowerCase techStack files
        then [ReadmeGenerator.generateApiDocs techStack] else [])
    ++ (if ReadmeGenerator.hasPackageJson toLowerCase files then [ReadmeGenerator.generateScripts]
        else [])
    ++ [ReadmeGenerator.generateContributing; ReadmeGenerator.generateLicense repository;
        ReadmeGenerator.generateContact repository].
Proof.
  unfold ReadmeGenerator.allSections, ReadmeGenerator.generateProjectStructure,
    ReadmeGenerator.buildFileTree.
  cbn [fst snd].
  pose proof (sortBy_perm (ReadmeGenerator.compareFiles localeCompare) files) as P.
  unfold ReadmeGenerator.shouldIncludeApiDocs, ReadmeGenerator.hasPackageJson.
  now rewrite !(existsb_perm _ _ _ P).
Qed.

Lemma sections_truthy (repository : Repository.t) (techStack : TechnologyStack.t)
    (files : list RepoFile.t) :
  Forall (fun section => Js.truthy (Js.trim section) = true)
    (fst (ReadmeGenerator.allSections toLowerCase localeCompare toLocaleDateString percentOf
            repository techStack files)).
Proof.
  rewrite allSections_conditions.
  repeat first
    [ apply Forall_app; split
    | apply Forall_cons
    | apply Forall_nil
    | match goal with |- Forall _ (if ?c then _ else _) => destruct c end ];
    first
      [ apply generateHeader_truthy
      | apply generateBadges_truthy
      | apply generateDescription_truthy
      | unfold ReadmeGenerator.generateTableOfContents, ReadmeGenerator.generateFeatures,
          ReadmeGenerator.generateTechStack, ReadmeGenerator.generateInstallation,
          ReadmeGenerator.generateUsage, ReadmeGenerator.generateProjectStructure,
          ReadmeGenerator.buildFileTree, ReadmeGenerator.generateApiDocs,
          ReadmeGenerator.generateScripts, ReadmeGenerator.generateContributing,
          ReadmeGenerator.generateLicense, ReadmeGenerator.generateContact;
        cbv zeta; cbn [fst]; first [now apply trim_truthy_append | vm_compute; reflexivity] ].
Qed.

End Document.

(** X14.  No section is dropped: every section [generateReadme] builds has
    text, so the filter keeps all of them, and the document has twelve
    sections, one more with the API documentation and one more with the
    scripts. *)
Theorem generateReadme_keeps_every_section (toLowerCase : string -> string)
    (localeCompare : string -> string -> Z)
    (toLocaleDateString : string -> string) (percentOf : Z -> Z -> string)
    (repository : Repository.t) (techStack : TechnologyStack.t) (files : list RepoFile.t) :
  let sections :=
    fst (ReadmeGenerator.allSections toLowerCase localeCompare toLocaleDateString percentOf
           repository techStack files) in
  ReadmeGenerator.keptSections sections = sections
  /\ fst (ReadmeGenerator.generateReadme toLowerCase localeCompare toLocaleDateString percentOf
            repository techStack files)
     = Js.join (Js.lf ++ Js.lf) sections
  /\ length sections
     = (12 + (if ReadmeGenerator.shouldIncludeApiDocs toLowerCase techStack files then 1 else 0)
           + (if ReadmeGenerator.hasPackageJson toLowerCase files then 1 else 0))%nat.
Proof.
  cbv zeta.
  assert (K : ReadmeGenerator.keptSections
                (fst (ReadmeGenerator.allSections toLowerCase localeCompare toLocaleDateString
                    percentOf repository techStack files))
              = fst (ReadmeGenerator.allSections toLowerCase localeCompare toLocaleDateString
                  percentOf repository techStack files)).
  { unfold ReadmeGenerator.keptSections. apply forallb_filter_id, forallb_forall.
    apply Forall_forall, sections_truthy. }
  split; [exact K|]. split.
  - unfold ReadmeGenerator.generateReadme.
    destruct (ReadmeGenerator.allSections toLowerCase _ _ _ _ _ _) as [sections files'].
    cbn [fst] in *. now rewrite K.
  - rewrite allSections_conditions.
    destruct (ReadmeGenerator.shouldIncludeApiDocs toLowerCase techStack files);
      destruct (ReadmeGenerator.hasPackageJson toLowerCase files); reflexivity.
Qed.

(** X15.  The table of contents and the sections agree: each of its
    possible lines is in the table exactly when a section with the heading
    it names is in the document.  The line of the API documentation and the
    line of the scripts are decided on the listing as it comes, their
    sections on the listing as [buildFileTree] has sorted it in place: the
    answers are the same. *)
Theorem table_of_contents_matches_the_sections (toLowerCase : string -> string)
    (localeCompare : string -> string -> Z)
    (toLocaleDateString : string -> string) (percentOf : Z -> Z -> string)
    (repository : Repository.t) (techStack : TechnologyStack.t) (files : list RepoFile.t) :
  let sections :=
    fst (ReadmeGenerator.allSections toLowerCase localeCompare toLocaleDateString percentOf
           repository techStack files) in
  let contents := ReadmeGenerator.generateTableOfContents toLowerCase techStack files in
  Forall (fun entry : string * string =>
            Js.includes contents (fst entry) = existsb (String.prefix (snd entry)) sections)
    [("- [About](#-about)", "## 📋 About");
     ("- [Features](#-features)", "## ✨ Features");
     ("- [Technology Stack](#-technology-stack)", "## 🛠 Technology Stack");
     ("- [Installation](#-installation)", "## 🚀 Installation");
     ("- [Usage](#-usage)", "## 📖 Usage");
     ("- [Project Structure](#-project-structure)", "## 📁 Project Structure");
     ("- [API Documentation](#-api-documentation)", "## 📡 API Documentation");
     ("- [Available Scripts](#-available-scripts)", "## 📜 Available Scripts");
     ("- [Contributing](#-contributing)", "## 🤝 Contributing");
     ("- [License](#-license)", "## 📄 License");
     ("- [Contact](#-contact)", "## 📞 Contact")]
  /\ (Js.includes contents "- [API Documentation](#-api-documentation)"
      = ReadmeGenerator.shouldIncludeApiDocs toLowerCase techStack files)
  /\ (Js.includes contents "- [Available Scripts](#-available-scripts)"
      = ReadmeGenerator.hasPackageJson toLowerCase files).
Proof.
  cbv zeta. rewrite allSections_conditions.
  unfold ReadmeGenerator.generateTableOfContents.
  destruct (ReadmeGenerator.shouldIncludeApiDocs toLowerCase techStack files);
    destruct (ReadmeGenerator.hasPackageJson toLowerCase files);
    (split; [|split; vm_compute; reflexivity]);
    unfold ReadmeGenerator.generateDescription; cbv zeta;
    (destruct (ReadmeGenerator.detectProjectType toLowerCase techStack files) as [p|];
     [destruct (Js.truthy p)|]);
    repeat (apply Forall_cons; [lazy; reflexivity|]); apply Forall_nil.
Qed.

(* ================================================================== *)
(** * The sections one by one *)
(* ================================================================== *)

(** ** The title *)

Lemma replaceAll_char_by_char (c x : ascii) (s : string) :
  Ascii.eqb "$"%char x = false ->
  Js.replaceAll s (String c EmptyString) (String x EmptyString)
  = Js.mapChars (fun d => if Ascii.eqb c d then x else d) s.
Proof.
  intros Hx. rewrite replaceAll_char by (cbn [Js.mem]; now rewrite Hx).
  induction s as [|d s IH]; [reflexivity|].
  cbn [Spec.eachChar Js.mapChars]. rewrite IH. now destruct (Ascii.eqb c d).
Qed.

Lemma mapChars_mapChars (f g : ascii -> ascii) (s : string) :
  Js.mapChars g (Js.mapChars f s) = Js.mapChars (fun c => g (f c)) s.
Proof. induction s as [|c s IH]; [reflexivity|]. cbn [Js.mapChars]. now rewrite IH. Qed.



(** Putting a character in upper case makes no hyphen and no underscore
    of another character. *)
Lemma upperChar_keeps (c : ascii) :
  Ascii.eqb "-"%char (Js.upperChar c) = Ascii.eqb "-"%char c
  /\ Ascii.eqb "_"%char (Js.upperChar c) = Ascii.eqb "_"%char c.
Proof. destruct c as [[] [] [] [] [] [] [] []]; split; reflexivity. Qed.

Lemma capitalizeFrom_mem (x : ascii) (b : bool) (s : string) :
  x = "-"%char \/ x = "_"%char ->
  Js.mem x (Js.capitalizeFrom b s) = Js.mem x s.
Proof.
  intros Hx. revert b. induction s as [|c s IH]; intros b; [reflexivity|].
  cbn [Js.capitalizeFrom Js.mem]. rewrite IH.
  destruct (Js.isWordChar c && negb b); [|reflexivity].
  destruct (upperChar_keeps c) as [H1 H2]. destruct Hx as [-> | ->]; now rewrite ?H1, ?H2.
Qed.

Lemma mapChars_mem_out (x : ascii) (f : ascii -> ascii) (s : string) :
  (forall c, Ascii.eqb x (f c) = false) -> Js.mem x (Js.mapChars f s) = false.
Proof.
  intros H. induction s as [|c s IH]; [reflexivity|].
  cbn [Js.mapChars Js.mem]. now rewrite H, IH.
Qed.



(** ** The size beyond the last unit *)

Lemma endsWith_refl (s : string) : Js.endsWith s s = true.
Proof. destruct s; cbn [Js.endsWith]; now rewrite String.eqb_refl. Qed.

Lemma endsWith_append (a s : string) : Js.endsWith (a ++ s) s = true.
Proof.
  induction a as [|c a IH]; [apply endsWith_refl|].
  cbn [append Js.endsWith]. rewrite IH. now destruct (String.eqb _ _).
Qed.

(** X17.  From 1024^4 bytes on there is no unit left in the table: the
    size is written with the unit [undefined]. *)
Theorem formatBytes_has_no_unit_from_a_terabyte (bytes : Z) :
  1024 ^ 4 <= bytes < 2 ^ 53 ->
  exists n,
    ReadmeGenerator.formatBytes bytes
    = (ReadmeGenerator.showHundredths n ++ " undefined")%string
    /\ Js.endsWith (ReadmeGenerator.formatBytes bytes) " undefined" = true.
Proof.
  intros [Hlo Hhi].
  assert (Hi : 4 <= ReadmeGenerator.unitIndex bytes).
  { unfold ReadmeGenerator.unitIndex. apply Z.div_le_lower_bound; [lia|].
    change (10 * 4) with (Z.log2 (2 ^ 40)). apply Z.log2_le_mono.
    change (2 ^ 40) with (1024 ^ 4). exact Hlo. }
  assert (E : ReadmeGenerator.formatBytes bytes
              = (ReadmeGenerator.showHundredths
                   (ReadmeGenerator.toFixed2 bytes (ReadmeGenerator.unitIndex bytes))
                 ++ " undefined")%string).
  { unfold ReadmeGenerator.formatBytes.
    assert ((bytes =? 0) = false) as -> by (apply Z.eqb_neq; lia).
    assert ((bytes <? 0) = false) as -> by (apply Z.ltb_ge; lia).
    cbv zeta. rewrite nth_overflow; [reflexivity|].
    change (length ReadmeGenerator.sizes) with 4%nat. lia. }
  eexists. split; [exact E|]. rewrite E. apply endsWith_append.
Qed.

Lemma formatBytes_has_no_unit_from_a_terabyte_witness :
  exists n,
    ReadmeGenerator.formatBytes (3 * 1024 ^ 4)
    = (ReadmeGenerator.showHundredths n ++ " undefined")%string
    /\ Js.endsWith (ReadmeGenerator.formatBytes (3 * 1024 ^ 4)) " undefined" = true.
Proof.
  apply (formatBytes_has_no_unit_from_a_terabyte (3 * 1024 ^ 4)). split; [lia|reflexivity].
Defined.

(** ** The contact *)

Lemma beforeFirst_append (sep : ascii) (a b : string) :
  Js.mem sep a = false -> Js.beforeFirst sep (a ++ String sep b) = a.
Proof.
  induction a as [|c a IH]; intros H.
  - cbn [append Js.beforeFirst]. now rewrite Ascii.eqb_refl.
  - cbn [Js.mem] in H. apply orb_false_elim in H as [Hc H].
    cbn [append Js.beforeFirst]. rewrite Ascii.eqb_sym, Hc. now rewrite IH.
Qed.

Lemma prefix_append_cancel (p q r : string) :
  String.prefix (p ++ q) (p ++ r) = String.prefix q r.
Proof.
  induction p as [|c p IH]; [reflexivity|].
  cbn [append]. now rewrite prefix_cons, Ascii.eqb_refl, IH.
Qed.

(** X18.  The Contact section names the owner: for a repository whose
    full name is OWNER/NAME, the maintainer is OWNER, linked to the
    owner's page. *)
Theorem generateContact_names_the_owner (repository : Repository.t) (owner name : string) :
  Repository.full_name repository = (owner ++ "/" ++ name)%string ->
  Js.mem "/"%char owner = false ->
  Js.includes (ReadmeGenerator.generateContact repository)
    ("**Project Maintainer:** [@" ++ owner ++ "](https://github.com/" ++ owner ++ ")") = true.
Proof.
  intros E H. unfold ReadmeGenerator.generateContact. rewrite E.
  change (owner ++ "/" ++ name)%string with (owner ++ String "/"%char name)%string.
  rewrite beforeFirst_append by exact H. cbv zeta.
  change ("## 📞 Contact

**Project Maintainer:** [@") with ("## 📞 Contact

" ++ "**Project Maintainer:** [@")%string.
  rewrite append_assoc. apply includes_app_r, includes_prefix.
  rewrite !prefix_append_cancel. reflexivity.
Qed.

Lemma generateContact_names_the_owner_witness :
  Js.includes (ReadmeGenerator.generateContact Sample.thisRepository)
    ("**Project Maintainer:** [@" ++ "akhmadfaizal10" ++ "](https://github.com/"
     ++ "akhmadfaizal10" ++ ")") = true.
Proof.
  exact (generateContact_names_the_owner Sample.thisRepository "akhmadfaizal10"
           "readme-generator" eq_refl eq_refl).
Defined.

(** ** Installation and usage *)

(** X19.  A listing with pyproject.toml, but with neither package.json nor
    requirements.txt (names compared as the runtime's [toLowerCase] gives
    them, whichever letters it maps), gets the Python installation steps, which install from
    requirements.txt, and the usage text of no particular platform: the
    Installation section takes pyproject.toml for a Python project, the
    Usage section does not. *)
Theorem pyproject_alone_gets_python_steps_and_plain_usage (toLowerCase : string -> string)
    (repository : Repository.t) (techStack : TechnologyStack.t) (files : list RepoFile.t) :
  Js.arrIncludes (ReadmeGenerator.lowerNames toLowerCase files) "package.json" = false ->
  Js.arrIncludes (ReadmeGenerator.lowerNames toLowerCase files) "requirements.txt" = false ->
  Js.arrIncludes (ReadmeGenerator.lowerNames toLowerCase files) "pyproject.toml" = true ->
  ReadmeGenerator.installStepsOf toLowerCase files = ReadmeGenerator.pythonInstallSteps
  /\ Js.includes (ReadmeGenerator.generateInstallation toLowerCase techStack files)
       "pip install -r requirements.txt" = true
  /\ Js.includes (ReadmeGenerator.generateUsage toLowerCase repository techStack files)
       "### Basic Usage" = true
  /\ Js.includes (ReadmeGenerator.generateUsage toLowerCase repository techStack files)
      "python" = false.
Proof.
  intros Hn Hr Hp.
  unfold ReadmeGenerator.generateInstallation, ReadmeGenerator.installStepsOf,
    ReadmeGenerator.generateUsage.
  rewrite Hn, Hr, Hp. cbv zeta. cbn [orb].
  split; [reflexivity|]. split; [|split]; vm_compute; reflexivity.
Qed.

Lemma pyproject_alone_gets_python_steps_and_plain_usage_witness :
  ReadmeGenerator.installStepsOf Sample.lowerAscii [Sample.plainFile "pyproject.toml"]
  = ReadmeGenerator.pythonInstallSteps
  /\ Js.includes (ReadmeGenerator.generateInstallation Sample.lowerAscii Sample.noTechnology
                    [Sample.plainFile "pyproject.toml"])
       "pip install -r requirements.txt" = true
  /\ Js.includes
      (ReadmeGenerator.generateUsage Sample.lowerAscii Sample.thisRepository Sample.noTechnology
                    [Sample.plainFile "pyproject.toml"])
       "### Basic Usage" = true
  /\ Js.includes
      (ReadmeGenerator.generateUsage Sample.lowerAscii Sample.thisRepository Sample.noTechnology
                    [Sample.plainFile "pyproject.toml"]) "python" = false.
Proof.
  exact (pyproject_alone_gets_python_steps_and_plain_usage Sample.lowerAscii
           Sample.thisRepository
           Sample.noTechnology [Sample.plainFile "pyproject.toml"] eq_refl eq_refl eq_refl).
Defined.

(** ** The languages *)

Lemma bySize_consistent :
  Spec.consistent (fun x y : string * Z => snd y - snd x).
Proof.
  split.
  - intros a b. rewrite <- Z.sgn_opp. f_equal. lia.
  - intros a b c. lia.
Qed.

Lemma prefix_refl (s : string) : String.prefix s s = true.
Proof. induction s as [|c s IH]; [reflexivity|]. now rewrite prefix_cons, Ascii.eqb_refl. Qed.

(** X20.  The languages are listed from the largest byte count to the
    smallest, languages of the same size in the order of the profile, each
    with its share of the sum of all the counts. *)
Theorem languages_are_listed_largest_first
    (percentOf : Z -> Z -> string) (techStack : TechnologyStack.t) :
  (0 < length (TechnologyStack.languages techStack))%nat ->
  let languages := TechnologyStack.languages techStack in
  let total := fold_left Z.add (map snd languages) 0 in
  exists ordered,
    Permutation ordered languages
    /\ StronglySorted (fun a b : string * Z => snd b <= snd a) ordered
    /\ (forall size,
           filter (fun entry : string * Z => snd entry =? size) ordered
           = filter (fun entry : string * Z => snd entry =? size) languages)
    /\ Js.includes (ReadmeGenerator.generateTechStack percentOf techStack)
         ("### Programming Languages" ++ Js.lf
          ++ Js.join Js.lf
               (map (fun entry : string * Z =>
                       ("- **" ++ fst entry ++ "** (" ++ percentOf (snd entry) total ++ "%)")%string)
                  ordered)) = true.
Proof.
  intros Hlen. cbv zeta.
  exists (JsArray.sortBy (fun x y : string * Z => snd y - snd x)
            (TechnologyStack.languages techStack)).
  split; [apply sortBy_perm|]. split; [|split].
  - pose proof (sortBy_sorted _ bySize_consistent (TechnologyStack.languages techStack)) as H.
    eapply StronglySorted_ind with (P := StronglySorted (fun a b : string * Z => snd b <= snd a));
      [constructor| |exact H].
    intros a l _ IH Ha. constructor; [exact IH|].
    eapply Forall_impl; [|exact Ha]. intros b Hb. unfold Spec.noLater in Hb. lia.
  - intros size.
    pose proof (sortBy_stable _ bySize_consistent (EmptyString, size)
                  (TechnologyStack.languages techStack)) as H.
    cbn [snd] in H.
    assert (Hext : forall e : string * Z, (snd e =? size) = (snd e - size =? 0)).
    { intros e. destruct (Z.eqb_spec (snd e) size), (Z.eqb_spec (snd e - size) 0);
        try reflexivity; lia. }
    rewrite !(filter_ext _ _ Hext). exact H.
  - unfold ReadmeGenerator.generateTechStack. cbv zeta.
    assert ((0 <? Z.of_nat (length (TechnologyStack.languages techStack))) = true) as ->
        by (apply Z.ltb_lt; lia).
    apply includes_app_r. eapply join_includes; [apply in_or_app; left; left; reflexivity|].
    apply includes_prefix, prefix_refl.
Qed.

Lemma languages_are_listed_largest_first_witness :
  exists ordered,
    Permutation ordered [("TypeScript", 800); ("JavaScript", 200)]
    /\ StronglySorted (fun a b : string * Z => snd b <= snd a) ordered
    /\ (forall size,
           filter (fun entry : string * Z => snd entry =? size) ordered
           = filter (fun entry : string * Z => snd entry =? size)
               [("TypeScript", 800); ("JavaScript", 200)])
    /\ Js.includes (ReadmeGenerator.generateTechStack Sample.percentOf Sample.reactStack)
         ("### Programming Languages" ++ Js.lf
          ++ Js.join Js.lf
               (map (fun entry : string * Z =>
                       ("- **" ++ fst entry ++ "** ("
                        ++ Sample.percentOf (snd entry)
                             (fold_left Z.add (map snd [("TypeScript", 800); ("JavaScript", 200)]) 0)
                        ++ "%)")%string)
                  ordered)) = true.
Proof.
  apply (languages_are_listed_largest_first Sample.percentOf Sample.reactStack).
  cbn. lia.
Defined.

(* ================================================================== *)
(** * What the placeholders become *)
(* ================================================================== *)

(** ** Replacing, piece by piece *)

Section Replace.

Variable pat repl : string.
Hypothesis repl_plain : Js.mem "$"%char repl = false.

(** A replacement without a dollar does not read what stands before the
    match. *)
Lemma replaceFrom_before (s : string) :
  forall skip b1 b2,
    Js.replaceFrom pat repl skip b1 s = Js.replaceFrom pat repl skip b2 s.
Proof.
  induction s as [|c s IH]; intros skip b1 b2; [reflexivity|].
  cbn [Js.replaceFrom]. destruct skip as [|k]; [|apply IH].
  destruct (String.prefix pat (String c s)).
  - rewrite !getSubstitution_plain by exact repl_plain. f_equal. apply IH.
  - f_equal. apply IH.
Qed.

Lemma replaceFrom_skipped (s : string) :
  forall skip before,
    (String.length s <= skip)%nat -> Js.replaceFrom pat repl skip before s = EmptyString.
Proof.
  induction s as [|c s IH]; intros skip before H; [reflexivity|].
  cbn [String.length] in H. destruct skip as [|k]; [lia|].
  cbn [Js.replaceFrom]. apply IH. lia.
Qed.

Lemma prefix_length (p s : string) :
  String.prefix p s = true -> (String.length p <= String.length s)%nat.
Proof.
  revert s. induction p as [|c p IH]; intros s H; [cbn; lia|].
  destruct s as [|d s]; [discriminate H|].
  rewrite prefix_cons in H. apply andb_prop in H as [_ H].
  cbn [String.length]. apply IH in H. lia.
Qed.

(** A character that is not in the pattern ends every match before it. *)
Lemma prefix_before_other (x : ascii) (a b : string) :
  Js.mem x pat = false -> Js.truthy pat = true ->
  String.prefix pat (a ++ String x b) = String.prefix pat a.
Proof.
  intros Hx Hp. clear repl_plain. revert a Hx Hp.
  induction pat as [|p q IH]; intros a Hx Hp; [discriminate Hp|].
  cbn [Js.mem] in Hx. apply orb_false_elim in Hx as [Hxp Hxq].
  destruct a as [|c a].
  - cbn [append]. rewrite prefix_cons, Ascii.eqb_sym, Hxp. reflexivity.
  - cbn [append]. rewrite !prefix_cons. destruct (Ascii.eqb p c); [|reflexivity].
    cbn [andb]. destruct q as [|p' q'].
    + now rewrite !prefix_empty.
    + now apply IH.
Qed.

Lemma replaceFrom_split (x : ascii) (b : string) :
  Js.mem x pat = false -> Js.truthy pat = true ->
  forall a skip before,
    (skip <= String.length a)%nat ->
    Js.replaceFrom pat repl skip before (a ++ String x b)
    = (Js.replaceFrom pat repl skip before a
       ++ String x (Js.replaceFrom pat repl 0 EmptyString b))%string.
Proof.
  intros Hx Hp. induction a as [|c a IH]; intros skip before Hs.
  - cbn [String.length] in Hs. assert (skip = 0%nat) as -> by lia.
    assert (P : String.prefix pat (String x b) = false).
    { change (String x b) with (EmptyString ++ String x b)%string.
      rewrite (prefix_before_other x EmptyString b Hx Hp).
      destruct pat; [discriminate Hp|reflexivity]. }
    cbn [append Js.replaceFrom]. rewrite P. f_equal. apply replaceFrom_before.
  - cbn [append Js.replaceFrom String.length] in *. destruct skip as [|k].
    + change (String c (a ++ String x b)) with (String c a ++ String x b)%string.
      rewrite (prefix_before_other x (String c a) b Hx Hp).
      destruct (String.prefix pat (String c a)) eqn:P.
      * rewrite !getSubstitution_plain by exact repl_plain.
        rewrite IH; [now rewrite append_assoc|].
        apply prefix_length in P. cbn [String.length] in P. lia.
      * cbn [append]. f_equal. apply IH. lia.
    + apply IH. lia.
Qed.

(** The text before a character that is not in the pattern and the text
    after it are replaced each for itself. *)
Lemma replaceAll_split (x : ascii) (a b : string) :
  Js.mem x pat = false -> Js.truthy pat = true ->
  Js.replaceAll (a ++ String x b) pat repl
  = (Js.replaceAll a pat repl ++ String x (Js.replaceAll b pat repl))%string.
Proof. intros Hx Hp. unfold Js.replaceAll. apply replaceFrom_split; auto. lia. Qed.

(** A text in which the pattern does not occur stays as it is. *)
Lemma replaceAll_absent (s : string) :
  Js.includes s pat = false -> Js.replaceAll s pat repl = s.
Proof.
  unfold Js.replaceAll. generalize EmptyString as before.
  induction s as [|c s IH]; intros before H; [reflexivity|].
  rewrite includes_cons in H. apply orb_false_elim in H as [P H].
  cbn [Js.replaceFrom]. rewrite P. f_equal. now apply IH.
Qed.

End Replace.

(** The pattern alone becomes the replacement. *)
Lemma replaceAll_whole (pat repl : string) :
  Js.mem "$"%char repl = false -> Js.truthy pat = true -> Js.replaceAll pat pat repl = repl.
Proof.
  intros Hr Hp. unfold Js.replaceAll. destruct pat as [|p q]; [discriminate Hp|].
  cbn [Js.replaceFrom]. rewrite prefix_refl.
  rewrite getSubstitution_plain by exact Hr.
  rewrite replaceFrom_skipped; [apply append_empty_r|].
  cbn [String.length]. lia.
Qed.

Lemma includes_split (s q : string) :
  Js.includes s q = true -> exists u v, s = (u ++ q ++ v)%string.
Proof.
  induction s as [|c s IH]; intros H.
  - cbn [Js.includes] in H. destruct (String.prefix q EmptyString) eqn:P; [|discriminate H].
    exists EmptyString. eexists. cbn [append]. now apply prefix_split.
  - rewrite includes_cons in H. apply orb_prop in H as [P|H].
    + exists EmptyString. eexists. cbn [append]. now apply prefix_split.
    + destruct (IH H) as (u & v & ->). now exists (String c u), v.
Qed.

(** ** The command to clone *)

Lemma installSteps_command (toLowerCase : string -> string) (files : list RepoFile.t) :
  Js.includes (ReadmeGenerator.installStepsOf toLowerCase files)
    (" git clone REPO_URL" ++ Js.lf ++ "   cd REPO_NAME" ++ Js.lf) = true.
Proof.
  unfold ReadmeGenerator.installStepsOf, ReadmeGenerator.packageManagerOf. cbv zeta.
  destruct (Js.arrIncludes _ "package.json").
  - destruct (Js.arrIncludes _ "yarn.lock"); [|destruct (Js.arrIncludes _ "pnpm-lock.yaml")];
      vm_compute; reflexivity.
  - destruct (Js.arrIncludes _ "requirements.txt" || Js.arrIncludes _ "pyproject.toml");
      [|destruct (Js.arrIncludes _ "pom.xml")]; vm_compute; reflexivity.
Qed.

Lemma resolve_command (u v clone_url name : string) :
  Js.mem "$"%char clone_url = false ->
  Js.mem "$"%char name = false ->
  Js.includes clone_url "REPO_NAME" = false ->
  Js.includes
    (App.resolve (u ++ (" git clone REPO_URL" ++ Js.lf ++ "   cd REPO_NAME" ++ Js.lf) ++ v)
       clone_url name)
    ("git clone " ++ clone_url ++ Js.lf ++ "   cd " ++ name ++ Js.lf) = true.
Proof.
  intros Hu Hn Hc. unfold App.resolve.
  change (u ++ (" git clone REPO_URL" ++ Js.lf ++ "   cd REPO_NAME" ++ Js.lf) ++ v)%string
    with (u ++ String " "%char
               ("git clone" ++ String " "%char
                  ("REPO_URL" ++ String (ascii_of_nat 10)
                     ("   cd" ++ String " "%char
                        ("REPO_NAME" ++ String (ascii_of_nat 10) v)))))%string.
  rewrite !(replaceAll_split "REPO_URL" clone_url Hu) by reflexivity.
  rewrite (replaceAll_whole "REPO_URL" clone_url Hu) by reflexivity.
  rewrite (replaceAll_absent "REPO_URL" clone_url "git clone") by reflexivity.
  rewrite (replaceAll_absent "REPO_URL" clone_url "   cd") by reflexivity.
  rewrite (replaceAll_absent "REPO_URL" clone_url "REPO_NAME") by reflexivity.
  rewrite !(replaceAll_split "REPO_NAME" name Hn) by reflexivity.
  rewrite (replaceAll_whole "REPO_NAME" name Hn) by reflexivity.
  rewrite (replaceAll_absent "REPO_NAME" name clone_url) by exact Hc.
  rewrite (replaceAll_absent "REPO_NAME" name "git clone") by reflexivity.
  rewrite (replaceAll_absent "REPO_NAME" name "   cd") by reflexivity.
  apply includes_app_r.
  change (String " "%char
            ("git clone" ++ String " "%char
               (clone_url ++ String (ascii_of_nat 10)
                  ("   cd" ++ String " "%char
                     (name ++ String (ascii_of_nat 10)
                        (Js.replaceAll (Js.replaceAll v "REPO_URL" clone_url)
                           "REPO_NAME" name))))))%string
    with (" " ++ "git clone " ++ clone_url ++ String (ascii_of_nat 10)
                  ("   cd " ++ name ++ String (ascii_of_nat 10)
                        (Js.replaceAll (Js.replaceAll v "REPO_URL" clone_url)
                           "REPO_NAME" name)))%string.
  apply includes_app_r, includes_prefix.
  change ("git clone " ++ clone_url ++ Js.lf ++ "   cd " ++ name ++ Js.lf)%string
    with ("git clone " ++ clone_url ++ String (ascii_of_nat 10)
            ("   cd " ++ name ++ String (ascii_of_nat 10) EmptyString))%string.
  rewrite !prefix_append_cancel. rewrite prefix_cons, Ascii.eqb_refl.
  rewrite !prefix_append_cancel. rewrite prefix_cons, Ascii.eqb_refl.
  apply prefix_empty.
Qed.

(** X21.  The resolved document tells how to clone the repository at hand:
    when the clone URL and the name hold no dollar and the URL does not
    hold the token REPO_NAME, the document holds the command that clones the
    URL, followed by the change to the directory of that name. *)
Theorem resolved_document_gives_the_clone_command (toLowerCase : string -> string)
    (localeCompare : string -> string -> Z)
    (toLocaleDateString : string -> string) (percentOf : Z -> Z -> string)
    (repo : Repository.t) (detectedTech : TechnologyStack.t) (repoFiles : list RepoFile.t) :
  Js.mem "$"%char (Repository.clone_url repo) = false ->
  Js.mem "$"%char (Repository.name repo) = false ->
  Js.includes (Repository.clone_url repo) "REPO_NAME" = false ->
  Js.includes
    (App.finalReadme toLowerCase localeCompare toLocaleDateString percentOf repo detectedTech
        repoFiles)
    ("git clone " ++ Repository.clone_url repo ++ Js.lf
     ++ "   cd " ++ Repository.name repo ++ Js.lf) = true.
Proof.
  intros Hu Hn Hc. unfold App.finalReadme. cbv zeta.
  assert (K : Js.includes
                (fst (ReadmeGenerator.generateReadme toLowerCase localeCompare toLocaleDateString
                    percentOf repo detectedTech repoFiles))
                (" git clone REPO_URL" ++ Js.lf ++ "   cd REPO_NAME" ++ Js.lf) = true).
  { assert (S : In (ReadmeGenerator.generateInstallation toLowerCase detectedTech repoFiles)
                   (ReadmeGenerator.keptSections
                      (fst (ReadmeGenerator.allSections toLowerCase localeCompare toLocaleDateString
                              percentOf repo detectedTech repoFiles)))).
    { unfold ReadmeGenerator.keptSections. apply filter_In. split.
      - rewrite allSections_conditions. cbn [app]. simpl. tauto.
      - unfold ReadmeGenerator.generateInstallation. now apply trim_truthy_append. }
    unfold ReadmeGenerator.generateReadme.
    destruct (ReadmeGenerator.allSections toLowerCase localeCompare toLocaleDateString percentOf
                repo detectedTech repoFiles) as [sections files'].
    cbn [fst] in *. eapply join_includes; [exact S|].
    unfold ReadmeGenerator.generateInstallation. apply includes_app_r, installSteps_command. }
  apply includes_split in K as (u & v & ->).
  now apply resolve_command.
Qed.

Lemma resolved_document_gives_the_clone_command_witness :
  Js.includes
    (App.finalReadme Sample.lowerAscii Sample.collate Sample.isoDay Sample.percentOf
       Sample.thisRepository Sample.reactStack Sample.nodeListing)
    ("git clone " ++ "https://github.com/akhmadfaizal10/readme-generator.git" ++ Js.lf
     ++ "   cd " ++ "readme-generator" ++ Js.lf) = true.
Proof.
  exact (resolved_document_gives_the_clone_command Sample.lowerAscii Sample.collate Sample.isoDay
           Sample.percentOf Sample.thisRepository Sample.reactStack Sample.nodeListing
           eq_refl eq_refl eq_refl).
Defined.

(* ================================================================== *)
(** * The dependencies that are reported *)
(* ================================================================== *)

Lemma hoare_ext {A : Type} (P Q E : Store -> Prop) (m m' : M A) :
  (forall st, m st = m' st) -> Spec.hoare P m' Q E -> Spec.hoare P m Q E.
Proof. intros H Hm st Hst. rewrite H. now apply Hm. Qed.

(** A computation that throws nothing can be passed by. *)
Lemma hoare_skip {A : Type} (m : M A) :
  Spec.returns m -> Spec.hoare (fun _ => True) m (fun _ => True) (fun _ => False).
Proof. intros H st _. destruct (H st) as (st' & a & E). now rewrite E. Qed.

Lemma hoare_kept {A : Type} (I : Store -> Prop) (m : M A) :
  Spec.returns m -> Spec.invariant I m -> Spec.hoare I m I (fun _ => False).
Proof. intros Hr H. now apply hoare_returns with (E' := I). Qed.

Ltac returns_go :=
  repeat lazymatch goal with
         | |- Spec.returns (bind _ _) => apply returns_bind; [|intros ?]
         | |- Spec.returns (when _ _) => apply returns_when
         | |- Spec.returns (tryCatch _ _) => apply returns_tryCatch; intros ?
         | |- Spec.returns (ret _) => apply returns_ret
         | |- Spec.returns (warn _ _) => apply returns_warn
         | |- Spec.returns (pushFramework _) => apply returns_pushFramework
         | |- Spec.returns (pushTool _) => apply returns_pushTool
         | |- Spec.returns (pushDatabase _) => apply returns_pushDatabase
         | |- Spec.returns (pushDeployment _) => apply returns_pushDeployment
         end.

(** The label is in its array from the write on. *)
Ltac label_written := intros ? ? ? ? ? _; cbn; apply in_or_app; right; now left.

(** The search along the rules for the write of a label, under the
    conditions at hand: a rule is passed by, or holds the write, after
    which the label stays. *)
Ltac find_write :=
  lazymatch goal with
  | |- Spec.hoare _ (pushFramework _) _ _ => apply hoare_pushFramework; label_written
  | |- Spec.hoare _ (pushTool _) _ _ => apply hoare_pushTool; label_written
  | |- Spec.hoare _ (pushDatabase _) _ _ => apply hoare_pushDatabase; label_written
  | |- Spec.hoare _ (when _ _) _ _ =>
      apply hoare_when;
      [ intros _; find_write
      | let C := fresh in
        intros C; exfalso;
        repeat match goal with H : _ = true |- _ => rewrite H in C end;
        cbn in C; rewrite ?orb_true_r in C; discriminate C ]
  | |- Spec.hoare _ (bind ?m ?k) ?Q _ =>
      first
        [ solve [ apply hoare_bind with (R := Q);
                  [ find_write
                  | intros _; apply hoare_kept;
                    [returns_go|repeat invariant_step label_stays] ] ]
        | solve [ apply hoare_bind with (R := fun _ => True);
                  [ apply hoare_skip; returns_go | intros _; find_write ] ] ]
  end.

Section Reports.
Import GitHubApiService.

Variable fetch : string -> Exn + Response.
Variable atob : string -> Exn + string.
Variable JSON_parse : string -> Exn + Json.t.
Variable toLowerCase : string -> string.

Lemma pythonBlock_keeps_framework (x : string) (owner repo : string) (fileNames : list string) :
  Spec.invariant (fun st => In x (st_frameworks st)) (pythonBlock fetch atob owner repo fileNames).
Proof. unfold pythonBlock, pythonRules. repeat invariant_step label_stays. Qed.

Lemma pythonBlock_keeps_tool (x : string) (owner repo : string) (fileNames : list string) :
  Spec.invariant (fun st => In x (st_tools st)) (pythonBlock fetch atob owner repo fileNames).
Proof. unfold pythonBlock, pythonRules. repeat invariant_step label_stays. Qed.

Lemma pythonBlock_keeps_database (x : string) (owner repo : string) (fileNames : list string) :
  Spec.invariant (fun st => In x (st_databases st)) (pythonBlock fetch atob owner repo fileNames).
Proof. unfold pythonBlock, pythonRules. repeat invariant_step label_stays. Qed.

Lemma markerRules_keeps_framework (x : string) (files : list RepoFile.t)
    (fileNames : list string) :
  Spec.invariant (fun st => In x (st_frameworks st)) (markerRules files fileNames).
Proof. unfold markerRules. repeat invariant_step label_stays. Qed.

Lemma markerRules_keeps_database (x : string) (files : list RepoFile.t)
    (fileNames : list string) :
  Spec.invariant (fun st => In x (st_databases st)) (markerRules files fileNames).
Proof. unfold markerRules. repeat invariant_step label_stays. Qed.

(** The manifest as the contents API serves it and as it parses. *)
Variables (owner repo : string) (response : Response) (answer : list (string * Json.t)).
Variables (encoded text : string) (manifest : list (string * Json.t)).
Hypothesis served :
  fetch ("https://api.github.com/repos/" ++ owner ++ "/" ++ repo ++ "/contents/package.json")%string
  = inr response.
Hypothesis served_ok : ok response = true.
Hypothesis served_object : json response = inr (Json.JObject answer).
Hypothesis served_content : Json.lookupLast "content" answer = Some (Json.JString encoded).
Hypothesis encoded_truthy : Js.truthy encoded = true.
Hypothesis decoded : atob (Js.replaceAll encoded Js.lf EmptyString) = inr text.
Hypothesis text_truthy : Js.truthy text = true.
Hypothesis parsed : JSON_parse text = inr (Json.JObject manifest).

Lemma getFileContent_served (st : Store) :
  getFileContent fetch atob owner repo "package.json" st = (st, inr text).
Proof.
  unfold getFileContent, tryCatch, bind, fetchGitHub, lift, bind.
  change (GITHUB_API_BASE ++ contentsUrl owner repo "package.json")%string
    with ("https://api.github.com/repos/" ++ owner ++ "/" ++ repo ++ "/contents/package.json")%string.
  rewrite served, served_ok. cbn [negb]. rewrite served_object.
  cbn [getProp ret]. rewrite served_content. cbn [Json.truthy]. rewrite encoded_truthy.
  cbn [stripLineFeeds ret]. now rewrite decoded.
Qed.

(** With the manifest served and parsed, the block on package.json is the
    rules on its merged dependencies. *)
Lemma packageBlock_served (fileNames : list string) (st : Store) :
  Js.arrIncludes fileNames "package.json" = true ->
  packageBlock fetch atob JSON_parse owner repo fileNames st
  = packageRules (Json.ownProps (Json.lookupLast "dependencies" manifest)
                  ++ Json.ownProps (Json.lookupLast "devDependencies" manifest)) st.
Proof.
  intros H. unfold packageBlock. rewrite H. cbn [when].
  unfold tryCatch, packageBody. unfold bind at 1. rewrite getFileContent_served.
  rewrite text_truthy. cbn [when]. unfold bind at 1, lift. rewrite parsed.
  unfold bind at 1. cbn [getProp ret]. unfold bind at 1. cbn [getProp ret].
  destruct (packageRules_returns
              (Json.ownProps (Json.lookupLast "dependencies" manifest)
               ++ Json.ownProps (Json.lookupLast "devDependencies" manifest)) st)
    as (st' & [] & E).
  now rewrite E.
Qed.

Section Written.

Variable files : list RepoFile.t.
Hypothesis listed :
  Js.arrIncludes (map (fun f => toLowerCase (RepoFile.name f)) files) "package.json" = true.

Lemma collect_keeps_framework (x : string) (st : Store) :
  Spec.hoare (fun _ => True)
    (packageRules (Json.ownProps (Json.lookupLast "dependencies" manifest)
     ++ Json.ownProps (Json.lookupLast "devDependencies" manifest)))
    (fun st => In x (st_frameworks st)) (fun _ => False) ->
  In x (st_frameworks (fst (collect fetch atob JSON_parse toLowerCase owner repo files st))).
Proof.
  intros H.
  apply (hoare_fst (fun _ => True) (fun st => In x (st_frameworks st))); [|exact I].
  unfold collect.
  apply hoare_bind with (R := fun _ => True); [apply hoare_declareArrays; auto|intros _].
  apply hoare_bind with (R := fun st => In x (st_frameworks st)).
  { apply hoare_ext
      with (m' := packageRules (Json.ownProps (Json.lookupLast "dependencies" manifest)
     ++ Json.ownProps (Json.lookupLast "devDependencies" manifest))).
    - intros s. now apply packageBlock_served.
    - eapply hoare_conseq; [exact H| | |]; cbn; tauto. }
  intros _. apply invariant_bind; [apply pythonBlock_keeps_framework|intros _].
  apply invariant_bind; [apply markerRules_keeps_framework|intros _; apply invariant_getStore].
Qed.

Lemma collect_keeps_tool (x : string) (st : Store) :
  Spec.hoare (fun _ => True)
    (packageRules (Json.ownProps (Json.lookupLast "dependencies" manifest)
     ++ Json.ownProps (Json.lookupLast "devDependencies" manifest)))
    (fun st => In x (st_tools st)) (fun _ => False) ->
  In x (st_tools (fst (collect fetch atob JSON_parse toLowerCase owner repo files st))).
Proof.
  intros H.
  apply (hoare_fst (fun _ => True) (fun st => In x (st_tools st))); [|exact I].
  unfold collect.
  apply hoare_bind with (R := fun _ => True); [apply hoare_declareArrays; auto|intros _].
  apply hoare_bind with (R := fun st => In x (st_tools st)).
  { apply hoare_ext
      with (m' := packageRules (Json.ownProps (Json.lookupLast "dependencies" manifest)
     ++ Json.ownProps (Json.lookupLast "devDependencies" manifest))).
    - intros s. now apply packageBlock_served.
    - eapply hoare_conseq; [exact H| | |]; cbn; tauto. }
  intros _. apply invariant_bind; [apply pythonBlock_keeps_tool|intros _].
  apply invariant_bind; [apply markerRules_keeps_tool|intros _; apply invariant_getStore].
Qed.

Lemma collect_keeps_database (x : string) (st : Store) :
  Spec.hoare (fun _ => True)
    (packageRules (Json.ownProps (Json.lookupLast "dependencies" manifest)
     ++ Json.ownProps (Json.lookupLast "devDependencies" manifest)))
    (fun st => In x (st_databases st)) (fun _ => False) ->
  In x (st_databases (fst (collect fetch atob JSON_parse toLowerCase owner repo files st))).
Proof.
  intros H.
  apply (hoare_fst (fun _ => True) (fun st => In x (st_databases st))); [|exact I].
  unfold collect.
  apply hoare_bind with (R := fun _ => True); [apply hoare_declareArrays; auto|intros _].
  apply hoare_bind with (R := fun st => In x (st_databases st)).
  { apply hoare_ext
      with (m' := packageRules (Json.ownProps (Json.lookupLast "dependencies" manifest)
     ++ Json.ownProps (Json.lookupLast "devDependencies" manifest))).
    - intros s. now apply packageBlock_served.
    - eapply hoare_conseq; [exact H| | |]; cbn; tauto. }
  intros _. apply invariant_bind; [apply pythonBlock_keeps_database|intros _].
  apply invariant_bind; [apply markerRules_keeps_database|intros _; apply invariant_getStore].
Qed.

Lemma frameworks_written (st : Store) :
  let dep k :=
    Json.truthy
      (Json.lookupLast k
         (Json.ownProps (Json.lookupLast "dependencies" manifest)
     ++ Json.ownProps (Json.lookupLast "devDependencies" manifest))) in
  let fw := st_frameworks (fst (collect fetch atob JSON_parse toLowerCase owner repo files st)) in
  Forall (fun rule : string * string => dep (fst rule) = true -> In (snd rule) fw)
    [("react", "React"); ("vue", "Vue.js"); ("angular", "Angular");
     ("@angular/core", "Angular"); ("svelte", "Svelte"); ("express", "Express.js");
     ("fastify", "Fastify"); ("@nestjs/core", "NestJS"); ("koa", "Koa.js");
     ("hapi", "Hapi.js")].
Proof.
  cbv zeta.
  repeat (apply Forall_cons;
          [cbn [fst snd]; intros H; apply collect_keeps_framework;
           unfold packageRules; cbv zeta; find_write|]).
  apply Forall_nil.
Qed.

Lemma nested_frameworks_written (st : Store) :
  let dep k :=
    Json.truthy
      (Json.lookupLast k
         (Json.ownProps (Json.lookupLast "dependencies" manifest)
     ++ Json.ownProps (Json.lookupLast "devDependencies" manifest))) in
  let fw := st_frameworks (fst (collect fetch atob JSON_parse toLowerCase owner repo files st)) in
  Forall (fun rule : string * string =>
            dep "react" = true -> dep (fst rule) = true -> In (snd rule) fw)
    [("next", "Next.js"); ("nextjs", "Next.js"); ("gatsby", "Gatsby");
     ("react-native", "React Native")]
  /\ (dep "vue" = true -> dep "nuxt" = true -> In "Nuxt.js" fw).
Proof.
  cbv zeta. split.
  - repeat (apply Forall_cons;
            [cbn [fst snd]; intros H H'; apply collect_keeps_framework;
             unfold packageRules; cbv zeta; find_write|]).
    apply Forall_nil.
  - intros H H'. apply collect_keeps_framework. unfold packageRules. cbv zeta. find_write.
Qed.

Lemma tools_written (st : Store) :
  let dep k :=
    Json.truthy
      (Json.lookupLast k
         (Json.ownProps (Json.lookupLast "dependencies" manifest)
     ++ Json.ownProps (Json.lookupLast "devDependencies" manifest))) in
  let tl := st_tools (fst (collect fetch atob JSON_parse toLowerCase owner repo files st)) in
  Forall (fun rule : string * string => dep (fst rule) = true -> In (snd rule) tl)
    [("webpack", "Webpack"); ("vite", "Vite"); ("parcel", "Parcel"); ("rollup", "Rollup");
     ("esbuild", "ESBuild"); ("tailwindcss", "Tailwind CSS"); ("bootstrap", "Bootstrap");
     ("@mui/material", "Material-UI"); ("antd", "Ant Design");
     ("styled-components", "Styled Components"); ("jest", "Jest"); ("vitest", "Vitest");
     ("mocha", "Mocha"); ("cypress", "Cypress"); ("playwright", "Playwright");
     ("redux", "Redux"); ("zustand", "Zustand"); ("mobx", "MobX");
     ("typescript", "TypeScript")].
Proof.
  cbv zeta.
  repeat (apply Forall_cons;
          [cbn [fst snd]; intros H; apply collect_keeps_tool;
           unfold packageRules; cbv zeta; find_write|]).
  apply Forall_nil.
Qed.

Lemma databases_written (st : Store) :
  let dep k :=
    Json.truthy
      (Json.lookupLast k
         (Json.ownProps (Json.lookupLast "dependencies" manifest)
     ++ Json.ownProps (Json.lookupLast "devDependencies" manifest))) in
  let db := st_databases (fst (collect fetch atob JSON_parse toLowerCase owner repo files st)) in
  Forall (fun rule : string * string => dep (fst rule) = true -> In (snd rule) db)
    [("mongoose", "MongoDB"); ("prisma", "Prisma"); ("sequelize", "Sequelize");
     ("typeorm", "TypeORM"); ("mysql2", "MySQL"); ("mysql", "MySQL"); ("pg", "PostgreSQL");
     ("sqlite3", "SQLite"); ("redis", "Redis")].
Proof.
  cbv zeta.
  repeat (apply Forall_cons;
          [cbn [fst snd]; intros H; apply collect_keeps_database;
           unfold packageRules; cbv zeta; find_write|]).
  apply Forall_nil.
Qed.

End Written.

End Reports.

Lemma reported_after_dedup (l : list string) (x : string) :
  In x l -> Js.arrIncludes (Js.dedup l) x = true.
Proof. intros H. now apply arrIncludes_In, dedup_In. Qed.

(** X22.  The dependencies of a manifest that is served are reported: when
    the listing holds package.json, the contents API answers with its
    encoded content, the content decodes to a text that is not empty and the
    text parses to an object, then every dependency (of either kind) that a
    rule knows puts the label of the rule in the profile; the rules for
    Next.js, Gatsby and React Native ask for react as well, the rule for
    Nuxt.js for vue. *)
Theorem dependencies_of_the_manifest_are_reported
    (fetch : string -> Exn + GitHubApiService.Response)
    (atob : string -> Exn + string) (JSON_parse : string -> Exn + Json.t)
    (toLowerCase : string -> string)
    (owner repo : string) (files : list RepoFile.t) (languages : list (string * Z))
    (st : Store)
    (response : GitHubApiService.Response) (answer : list (string * Json.t))
    (encoded text : string) (manifest : list (string * Json.t)) :
  Js.arrIncludes (map (fun f => toLowerCase (RepoFile.name f)) files) "package.json" = true ->
  fetch ("https://api.github.com/repos/" ++ owner ++ "/" ++ repo ++ "/contents/package.json")%string
  = inr response ->
  GitHubApiService.ok response = true ->
  GitHubApiService.json response = inr (Json.JObject answer) ->
  Json.lookupLast "content" answer = Some (Json.JString encoded) ->
  Js.truthy encoded = true ->
  atob (Js.replaceAll encoded Js.lf EmptyString) = inr text ->
  Js.truthy text = true ->
  JSON_parse text = inr (Json.JObject manifest) ->
  let allDeps :=
    Json.ownProps (Json.lookupLast "dependencies" manifest)
    ++ Json.ownProps (Json.lookupLast "devDependencies" manifest) in
  let dep k :=
    Json.truthy
      (Json.lookupLast k
         (Json.ownProps (Json.lookupLast "dependencies" manifest)
     ++ Json.ownProps (Json.lookupLast "devDependencies" manifest))) in
  exists st' profile,
    GitHubApiService.detectTechnologies fetch atob JSON_parse toLowerCase owner repo files
        languages st
    = (st', inr profile)
    /\ Forall (fun rule : string * string =>
                 dep (fst rule) = true ->
                 Js.arrIncludes (TechnologyStack.frameworks profile) (snd rule) = true)
         [("react", "React"); ("vue", "Vue.js"); ("angular", "Angular");
          ("@angular/core", "Angular"); ("svelte", "Svelte"); ("express", "Express.js");
          ("fastify", "Fastify"); ("@nestjs/core", "NestJS"); ("koa", "Koa.js");
          ("hapi", "Hapi.js")]
    /\ Forall (fun rule : string * string =>
                 dep "react" = true -> dep (fst rule) = true ->
                 Js.arrIncludes (TechnologyStack.frameworks profile) (snd rule) = true)
         [("next", "Next.js"); ("nextjs", "Next.js"); ("gatsby", "Gatsby");
          ("react-native", "React Native")]
    /\ (dep "vue" = true -> dep "nuxt" = true ->
        Js.arrIncludes (TechnologyStack.frameworks profile) "Nuxt.js" = true)
    /\ Forall (fun rule : string * string =>
                 dep (fst rule) = true ->
                 Js.arrIncludes (TechnologyStack.tools profile) (snd rule) = true)
         [("webpack", "Webpack"); ("vite", "Vite"); ("parcel", "Parcel"); ("rollup", "Rollup");
          ("esbuild", "ESBuild"); ("tailwindcss", "Tailwind CSS"); ("bootstrap", "Bootstrap");
          ("@mui/material", "Material-UI"); ("antd", "Ant Design");
          ("styled-components", "Styled Components"); ("jest", "Jest"); ("vitest", "Vitest");
          ("mocha", "Mocha"); ("cypress", "Cypress"); ("playwright", "Playwright");
          ("redux", "Redux"); ("zustand", "Zustand"); ("mobx", "MobX");
          ("typescript", "TypeScript")]
    /\ Forall (fun rule : string * string =>
                 dep (fst rule) = true ->
                 Js.arrIncludes (TechnologyStack.databases profile) (snd rule) = true)
         [("mongoose", "MongoDB"); ("prisma", "Prisma"); ("sequelize", "Sequelize");
          ("typeorm", "TypeORM"); ("mysql2", "MySQL"); ("mysql", "MySQL");
          ("pg", "PostgreSQL"); ("sqlite3", "SQLite"); ("redis", "Redis")].
Proof.
  intros Hl H1 H2 H3 H4 H5 H6 H7 H8. cbv zeta.
  destruct (collect_store fetch atob JSON_parse toLowerCase owner repo files languages st)
    as (raw & Ec & Ed).
  eexists raw, _. split; [exact Ed|].
  cbn [TechnologyStack.frameworks TechnologyStack.tools TechnologyStack.databases].
  pose proof
      (frameworks_written fetch atob JSON_parse toLowerCase owner repo response answer encoded text
                manifest H1 H2 H3 H4 H5 H6 H7 H8 files Hl st) as F.
  pose proof (nested_frameworks_written fetch atob JSON_parse toLowerCase owner repo response answer
                encoded text manifest H1 H2 H3 H4 H5 H6 H7 H8 files Hl st) as [N V].
  pose proof
      (tools_written fetch atob JSON_parse toLowerCase owner repo response answer encoded text
                manifest H1 H2 H3 H4 H5 H6 H7 H8 files Hl st) as T.
  pose proof
      (databases_written fetch atob JSON_parse toLowerCase owner repo response answer encoded text
                manifest H1 H2 H3 H4 H5 H6 H7 H8 files Hl st) as D.
  cbv zeta in F, N, V, T, D. rewrite Ec in F, N, V, T, D. cbn [fst] in F, N, V, T, D.
  split; [|split; [|split; [|split]]].
  - eapply Forall_impl; [|exact F]. intros rule H Hd. apply reported_after_dedup. auto.
  - eapply Forall_impl; [|exact N]. intros rule H Hr Hd. apply reported_after_dedup. auto.
  - intros Hv Hn. apply reported_after_dedup. auto.
  - eapply Forall_impl; [|exact T]. intros rule H Hd. apply reported_after_dedup. auto.
  - eapply Forall_impl; [|exact D]. intros rule H Hd. apply reported_after_dedup. auto.
Qed.

Lemma dependencies_of_the_manifest_are_reported_witness :
  let allDeps :=
    Json.ownProps (Some (Json.JObject [("react", Json.JString "^18.3.1")]))
    ++ Json.ownProps (Some (Json.JObject [("vite", Json.JString "^5.4.2");
                                          ("tailwindcss", Json.JString "^3.4.1");
                                          ("typescript", Json.JString "^5.5.3")])) in
  let dep k := Json.truthy (Json.lookupLast k allDeps) in
  exists st' profile,
    GitHubApiService.detectTechnologies Sample.online (Sample.decodeTo "<package.json>")
      (Sample.parseOnly "<package.json>" Sample.packageObject) Sample.lowerAscii
      "akhmadfaizal10" "readme-generator" Sample.nodeListing [] GitHubApiService.emptyStore
    = (st', inr profile)
    /\ Forall (fun rule : string * string =>
                 dep (fst rule) = true ->
                 Js.arrIncludes (TechnologyStack.frameworks profile) (snd rule) = true)
         [("react", "React"); ("vue", "Vue.js"); ("angular", "Angular");
          ("@angular/core", "Angular"); ("svelte", "Svelte"); ("express", "Express.js");
          ("fastify", "Fastify"); ("@nestjs/core", "NestJS"); ("koa", "Koa.js");
          ("hapi", "Hapi.js")]
    /\ Forall (fun rule : string * string =>
                 dep "react" = true -> dep (fst rule) = true ->
                 Js.arrIncludes (TechnologyStack.frameworks profile) (snd rule) = true)
         [("next", "Next.js"); ("nextjs", "Next.js"); ("gatsby", "Gatsby");
          ("react-native", "React Native")]
    /\ (dep "vue" = true -> dep "nuxt" = true ->
        Js.arrIncludes (TechnologyStack.frameworks profile) "Nuxt.js" = true)
    /\ Forall (fun rule : string * string =>
                 dep (fst rule) = true ->
                 Js.arrIncludes (TechnologyStack.tools profile) (snd rule) = true)
         [("webpack", "Webpack"); ("vite", "Vite"); ("parcel", "Parcel"); ("rollup", "Rollup");
          ("esbuild", "ESBuild"); ("tailwindcss", "Tailwind CSS"); ("bootstrap", "Bootstrap");
          ("@mui/material", "Material-UI"); ("antd", "Ant Design");
          ("styled-components", "Styled Components"); ("jest", "Jest"); ("vitest", "Vitest");
          ("mocha", "Mocha"); ("cypress", "Cypress"); ("playwright", "Playwright");
          ("redux", "Redux"); ("zustand", "Zustand"); ("mobx", "MobX");
          ("typescript", "TypeScript")]
    /\ Forall (fun rule : string * string =>
                 dep (fst rule) = true ->
                 Js.arrIncludes (TechnologyStack.databases profile) (snd rule) = true)
         [("mongoose", "MongoDB"); ("prisma", "Prisma"); ("sequelize", "Sequelize");
          ("typeorm", "TypeORM"); ("mysql2", "MySQL"); ("mysql", "MySQL");
          ("pg", "PostgreSQL"); ("sqlite3", "SQLite"); ("redis", "Redis")].
Proof.
  exact (dependencies_of_the_manifest_are_reported Sample.online
           (Sample.decodeTo "<package.json>")
           (Sample.parseOnly "<package.json>" Sample.packageObject) Sample.lowerAscii
           "akhmadfaizal10" "readme-generator" Sample.nodeListing [] GitHubApiService.emptyStore
           (GitHubApiService.mkResponse true "OK"
              (inr (Json.JObject [("content", Json.JString "e30K")])))
           [("content", Json.JString "e30K")] "e30K" "<package.json>"
           [("name", Json.JString "readme-generator");
            ("dependencies", Json.JObject [("react", Json.JString "^18.3.1")]);
            ("devDependencies",
             Json.JObject [("vite", Json.JString "^5.4.2");
                           ("tailwindcss", Json.JString "^3.4.1");
                           ("typescript", Json.JString "^5.5.3")])]
           eq_refl eq_refl eq_refl eq_refl eq_refl eq_refl eq_refl eq_refl eq_refl).
Defined.

(* ================================================================== *)
(** * From the profile to the API section *)
(* ================================================================== *)

Lemma contents_lists_api (toLowerCase : string -> string) (techStack : TechnologyStack.t)
    (files : list RepoFile.t) :
  Js.includes (ReadmeGenerator.generateTableOfContents toLowerCase techStack files)
    "- [API Documentation](#-api-documentation)"
  = ReadmeGenerator.shouldIncludeApiDocs toLowerCase techStack files.
Proof.
  unfold ReadmeGenerator.generateTableOfContents.
  destruct (ReadmeGenerator.shouldIncludeApiDocs toLowerCase techStack files);
    destruct (ReadmeGenerator.hasPackageJson toLowerCase files); vm_compute; reflexivity.
Qed.

(** X23.  A profile that names Express.js, Fastify, NestJS, Django, Flask
    or FastAPI gets the API documentation: the section is in the document,
    with the base URL on port 8000 for a profile that names Django and on
    port 3000 for any other, and the table of contents lists it. *)
Theorem api_frameworks_get_the_api_section (toLowerCase : string -> string)
    (localeCompare : string -> string -> Z)
    (toLocaleDateString : string -> string) (percentOf : Z -> Z -> string)
    (repository : Repository.t) (techStack : TechnologyStack.t) (files : list RepoFile.t)
    (framework : string) :
  In framework (TechnologyStack.frameworks techStack) ->
  In framework ["Express.js"; "Fastify"; "NestJS"; "Django"; "Flask"; "FastAPI"] ->
  let port :=
    if Js.arrIncludes (TechnologyStack.frameworks techStack) "Django" then "8000" else "3000" in
  Js.includes
    (fst (ReadmeGenerator.generateReadme toLowerCase localeCompare toLocaleDateString percentOf
            repository techStack files))
    ("## 📡 API Documentation

### Base URL
```
http://localhost:" ++ port ++ "/api") = true
  /\ Js.includes (ReadmeGenerator.generateTableOfContents toLowerCase techStack files)
       "- [API Documentation](#-api-documentation)" = true.
Proof.
  intros Hin Hfw. cbv zeta.
  assert (A : ReadmeGenerator.shouldIncludeApiDocs toLowerCase techStack files = true).
  { unfold ReadmeGenerator.shouldIncludeApiDocs. apply orb_true_intro. left.
    apply existsb_exists. exists framework. split; [exact Hin|].
    destruct Hfw as [<-|[<-|[<-|[<-|[<-|[<-|[]]]]]]]; reflexivity. }
  split; [|now rewrite contents_lists_api].
  assert (K : ReadmeGenerator.keptSections
                (fst (ReadmeGenerator.allSections toLowerCase localeCompare toLocaleDateString
                    percentOf repository techStack files))
              = fst (ReadmeGenerator.allSections toLowerCase localeCompare toLocaleDateString
                  percentOf repository techStack files)).
  { unfold ReadmeGenerator.keptSections. apply forallb_filter_id, forallb_forall.
    apply Forall_forall, sections_truthy. }
  assert (S : In (ReadmeGenerator.generateApiDocs techStack)
                 (fst (ReadmeGenerator.allSections toLowerCase localeCompare toLocaleDateString
                     percentOf repository techStack files))).
  { rewrite allSections_conditions, A. cbn [app]. simpl. tauto. }
  unfold ReadmeGenerator.generateReadme.
  destruct (ReadmeGenerator.allSections toLowerCase localeCompare toLocaleDateString percentOf
              repository techStack files) as [sections files'].
  cbn [fst] in *. rewrite K. eapply join_includes; [exact S|].
  apply includes_prefix. unfold ReadmeGenerator.generateApiDocs. cbv zeta.
  rewrite !prefix_append_cancel. reflexivity.
Qed.

Lemma api_frameworks_get_the_api_section_witness :
  Js.includes
    (fst (ReadmeGenerator.generateReadme Sample.lowerAscii Sample.collate Sample.isoDay
        Sample.percentOf
            Sample.thisRepository (TechnologyStack.mk [] ["Django"] ["pip"] [] [])
            Sample.plainListing))
    ("## 📡 API Documentation

### Base URL
```
http://localhost:" ++ "8000" ++ "/api") = true
  /\ Js.includes (ReadmeGenerator.generateTableOfContents Sample.lowerAscii
                    (TechnologyStack.mk [] ["Django"] ["pip"] [] []) Sample.plainListing)
       "- [API Documentation](#-api-documentation)" = true.
Proof.
  apply (api_frameworks_get_the_api_section Sample.lowerAscii Sample.collate Sample.isoDay
      Sample.percentOf
           Sample.thisRepository (TechnologyStack.mk [] ["Django"] ["pip"] [] [])
           Sample.plainListing "Django").
  - left. reflexivity.
  - right. right. right. left. reflexivity.
Defined.

(* ================================================================== *)
(** * Labels that need their manifest *)
(* ================================================================== *)

Lemma hoare_bind_ret {A B : Type} (P Q E : Store -> Prop) (a : A) (k : A -> M B) :
  Spec.hoare P (k a) Q E -> Spec.hoare P (bind (ret a) k) Q E.
Proof. intros H. exact H. Qed.

Lemma forallb_snoc (f : string -> bool) (l : list string) (x : string) :
  forallb f l = true -> f x = true -> forallb f (l ++ [x]) = true.
Proof. intros Hl Hx. rewrite forallb_app, Hl. cbn. now rewrite Hx. Qed.

Lemma forallb_dedup (f : string -> bool) (l : list string) :
  forallb f l = true -> forallb f (Js.dedup l) = true.
Proof.
  intros H. apply forallb_forall. intros x Hx. apply (proj1 (dedup_In _ _)) in Hx.
  exact (proj1 (forallb_forall f l) H x Hx).
Qed.

(** A write of a label of the vocabulary keeps the array within it. *)
Ltac label_allowed := apply forallb_snoc; [assumption|reflexivity].

Section Needs.
Import GitHubApiService.

Variable fetch : string -> Exn + Response.
Variable atob : string -> Exn + string.
Variable JSON_parse : string -> Exn + Json.t.
Variable toLowerCase : string -> string.

(** Without package.json in the listing, the arrays hold only what the
    rules on the Python requirements and on the listing write. *)
Lemma collect_without_package (owner repo : string) (files : list RepoFile.t) (st : Store) :
  Js.arrIncludes (map (fun f => toLowerCase (RepoFile.name f)) files) "package.json" = false ->
  let st' := fst (collect fetch atob JSON_parse toLowerCase owner repo files st) in
  forallb (Js.arrIncludes
             ["Django"; "Flask"; "FastAPI"; "Streamlit"; "TensorFlow"; "PyTorch"; "Java";
              ".NET"; "Go"; "Rust"; "Next.js"; "Nuxt.js"; "Vue.js"; "Angular"])
    (st_frameworks st') = true
  /\ forallb (Js.arrIncludes
                ["pip"; "Pandas"; "NumPy"; "Maven"; "Gradle"; "Cargo"; "TypeScript";
                 "Tailwind CSS"])
       (st_tools st') = true
  /\ forallb (Js.arrIncludes ["SQL"; "Prisma"]) (st_databases st') = true.
Proof.
  intros H. cbv zeta.
  apply (hoare_fst (fun _ => True)
           (fun s =>
              forallb (Js.arrIncludes
                         ["Django"; "Flask"; "FastAPI"; "Streamlit"; "TensorFlow"; "PyTorch";
                          "Java"; ".NET"; "Go"; "Rust"; "Next.js"; "Nuxt.js"; "Vue.js";
                          "Angular"])
                (st_frameworks s) = true
              /\ forallb (Js.arrIncludes
                            ["pip"; "Pandas"; "NumPy"; "Maven"; "Gradle"; "Cargo"; "TypeScript";
                             "Tailwind CSS"])
                   (st_tools s) = true
              /\ forallb (Js.arrIncludes ["SQL"; "Prisma"]) (st_databases s) = true));
    [|exact I].
  unfold collect.
  apply hoare_bind
    with (R := (fun s =>
                forallb (Js.arrIncludes
                           ["Django"; "Flask"; "FastAPI"; "Streamlit"; "TensorFlow"; "PyTorch";
                            "Java"; ".NET"; "Go"; "Rust"; "Next.js"; "Nuxt.js"; "Vue.js";
                            "Angular"])
                  (st_frameworks s) = true
                /\ forallb (Js.arrIncludes
                              ["pip"; "Pandas"; "NumPy"; "Maven"; "Gradle"; "Cargo"; "TypeScript";
                               "Tailwind CSS"])
                     (st_tools s) = true
                /\ forallb (Js.arrIncludes ["SQL"; "Prisma"]) (st_databases s) = true));
    [apply hoare_declareArrays; intros; cbn; auto|intros _].
  apply invariant_bind.
  { unfold packageBlock. rewrite H. cbn [when]. apply invariant_ret. }
  intros _. apply invariant_bind.
  { unfold pythonBlock, pythonRules.
    repeat invariant_step
      ltac:(idtac; match goal with
                   | H : _ /\ _ /\ _ |- _ =>
                       destruct H as (? & ? & ?); repeat split; try assumption; label_allowed
                   end). }
  intros _. apply invariant_bind; [|intros _; apply invariant_getStore].
  unfold markerRules.
  repeat invariant_step
    ltac:(idtac; match goal with
                 | H : _ /\ _ /\ _ |- _ =>
                     destruct H as (? & ? & ?); repeat split; try assumption; label_allowed
                 end).
Qed.

(** Without requirements.txt in the listing, no label of a Python library
    is written: the other Python manifests are not read. *)
Lemma collect_without_requirements (owner repo : string) (files : list RepoFile.t)
    (st : Store) :
  Js.arrIncludes (map (fun f => toLowerCase (RepoFile.name f)) files) "requirements.txt"
  = false ->
  let st' := fst (collect fetch atob JSON_parse toLowerCase owner repo files st) in
  forallb (fun x => negb (Js.arrIncludes
                            ["Django"; "Flask"; "FastAPI"; "Streamlit"; "TensorFlow"; "PyTorch"]
                            x))
    (st_frameworks st') = true
  /\ forallb (fun x => negb (Js.arrIncludes ["Pandas"; "NumPy"] x)) (st_tools st') = true.
Proof.
  intros H. cbv zeta.
  apply (hoare_fst (fun _ => True)
           (fun s =>
              forallb (fun x => negb (Js.arrIncludes
                                        ["Django"; "Flask"; "FastAPI"; "Streamlit"; "TensorFlow";
                                         "PyTorch"] x))
                (st_frameworks s) = true
              /\ forallb (fun x => negb (Js.arrIncludes ["Pandas"; "NumPy"] x))
                   (st_tools s) = true));
    [|exact I].
  unfold collect.
  apply hoare_bind
    with (R := (fun s =>
                forallb (fun x => negb (Js.arrIncludes
                                          ["Django"; "Flask"; "FastAPI"; "Streamlit"; "TensorFlow";
                                           "PyTorch"] x))
                  (st_frameworks s) = true
                /\ forallb (fun x => negb (Js.arrIncludes ["Pandas"; "NumPy"] x))
                     (st_tools s) = true));
    [apply hoare_declareArrays; intros; cbn; auto|intros _].
  apply invariant_bind.
  { unfold packageBlock, packageBody, packageRules.
    repeat invariant_step
      ltac:(idtac; match goal with
                   | H : _ /\ _ |- _ =>
                       destruct H as (? & ?); split; try assumption; label_allowed
                   end). }
  intros _. apply invariant_bind.
  { unfold pythonBlock. rewrite H.
    apply invariant_when. intros _. apply invariant_bind.
    - invariant_step
        ltac:(idtac; match goal with
                     | H : _ /\ _ |- _ =>
                         destruct H as (? & ?); split; try assumption; label_allowed
                     end).
    - intros _. apply invariant_tryCatch.
      + apply hoare_bind_ret. unfold pythonRules.
        repeat (first [apply invariant_bind; [|intros _]
                      | apply invariant_when; intros C; discriminate C]).
      + intros e.
        invariant_step
          ltac:(idtac; match goal with
                       | H : _ /\ _ |- _ =>
                           destruct H as (? & ?); split; try assumption; label_allowed
                       end). }
  intros _. apply invariant_bind; [|intros _; apply invariant_getStore].
  unfold markerRules.
  repeat invariant_step
    ltac:(idtac; match goal with
                 | H : _ /\ _ |- _ =>
                     destruct H as (? & ?); split; try assumption; label_allowed
                 end).
Qed.

End Needs.

(** X24.  Without package.json in the listing (names compared as the
    runtime's [toLowerCase] gives them, whichever letters it maps) the
    profile holds no label of a dependency: its frameworks, tools
    and databases are among those that the Python requirements and the
    markers of the listing give, whatever the network answers. *)
Theorem no_package_json_no_dependency_labels
    (fetch : string -> Exn + GitHubApiService.Response)
    (atob : string -> Exn + string) (JSON_parse : string -> Exn + Json.t)
    (toLowerCase : string -> string)
    (owner repo : string) (files : list RepoFile.t) (languages : list (string * Z))
    (st : Store) :
  Js.arrIncludes (map (fun f => toLowerCase (RepoFile.name f)) files) "package.json" = false ->
  exists st' profile,
    GitHubApiService.detectTechnologies fetch atob JSON_parse toLowerCase owner repo files
        languages st
    = (st', inr profile)
    /\ forallb (Js.arrIncludes
                  ["Django"; "Flask"; "FastAPI"; "Streamlit"; "TensorFlow"; "PyTorch"; "Java";
                   ".NET"; "Go"; "Rust"; "Next.js"; "Nuxt.js"; "Vue.js"; "Angular"])
         (TechnologyStack.frameworks profile) = true
    /\ forallb (Js.arrIncludes
                  ["pip"; "Pandas"; "NumPy"; "Maven"; "Gradle"; "Cargo"; "TypeScript";
                   "Tailwind CSS"])
         (TechnologyStack.tools profile) = true
    /\ forallb (Js.arrIncludes ["SQL"; "Prisma"]) (TechnologyStack.databases profile) = true
    /\ Js.arrIncludes (TechnologyStack.frameworks profile) "React" = false.
Proof.
  intros H.
  destruct (collect_store fetch atob JSON_parse toLowerCase owner repo files languages st)
    as (raw & Ec & Ed).
  eexists raw, _. split; [exact Ed|].
  cbn [TechnologyStack.frameworks TechnologyStack.tools TechnologyStack.databases].
  pose proof (collect_without_package fetch atob JSON_parse toLowerCase owner repo files st H) as K.
  cbv zeta in K. rewrite Ec in K. cbn [fst] in K. destruct K as (Kf & Kt & Kd).
  apply forallb_dedup in Kf. apply forallb_dedup in Kt. apply forallb_dedup in Kd.
  repeat split; try assumption.
  destruct (Js.arrIncludes (Js.dedup (st_frameworks raw)) "React") eqn:R; [|reflexivity].
  apply arrIncludes_In in R.
  apply (proj1 (forallb_forall _ _) Kf) in R. discriminate R.
Qed.

Lemma no_package_json_no_dependency_labels_witness :
  exists st' profile,
    GitHubApiService.detectTechnologies Sample.online (Sample.decodeTo "react")
      (Sample.parseOnly "react" Sample.packageObject) Sample.lowerAscii "octocat" "notes"
      [Sample.plainFile "Dockerfile"; Sample.plainFile "pyproject.toml"] []
      GitHubApiService.emptyStore
    = (st', inr profile)
    /\ forallb (Js.arrIncludes
                  ["Django"; "Flask"; "FastAPI"; "Streamlit"; "TensorFlow"; "PyTorch"; "Java";
                   ".NET"; "Go"; "Rust"; "Next.js"; "Nuxt.js"; "Vue.js"; "Angular"])
         (TechnologyStack.frameworks profile) = true
    /\ forallb (Js.arrIncludes
                  ["pip"; "Pandas"; "NumPy"; "Maven"; "Gradle"; "Cargo"; "TypeScript";
                   "Tailwind CSS"])
         (TechnologyStack.tools profile) = true
    /\ forallb (Js.arrIncludes ["SQL"; "Prisma"]) (TechnologyStack.databases profile) = true
    /\ Js.arrIncludes (TechnologyStack.frameworks profile) "React" = false.
Proof.
  exact (no_package_json_no_dependency_labels Sample.online (Sample.decodeTo "react")
           (Sample.parseOnly "react" Sample.packageObject) Sample.lowerAscii "octocat" "notes"
           [Sample.plainFile "Dockerfile"; Sample.plainFile "pyproject.toml"] []
           GitHubApiService.emptyStore eq_refl).
Defined.

(** X25.  Only requirements.txt is read for Python libraries: without it in
    the listing the profile names none of Django, Flask, FastAPI, Streamlit,
    TensorFlow, PyTorch, Pandas and NumPy, also when the listing holds
    pyproject.toml or Pipfile. *)
Theorem no_requirements_no_python_library
    (fetch : string -> Exn + GitHubApiService.Response)
    (atob : string -> Exn + string) (JSON_parse : string -> Exn + Json.t)
    (toLowerCase : string -> string)
    (owner repo : string) (files : list RepoFile.t) (languages : list (string * Z))
    (st : Store) :
  Js.arrIncludes (map (fun f => toLowerCase (RepoFile.name f)) files) "requirements.txt"
  = false ->
  exists st' profile,
    GitHubApiService.detectTechnologies fetch atob JSON_parse toLowerCase owner repo files
        languages st
    = (st', inr profile)
    /\ forallb (fun label => negb (Js.arrIncludes (TechnologyStack.frameworks profile) label))
         ["Django"; "Flask"; "FastAPI"; "Streamlit"; "TensorFlow"; "PyTorch"] = true
    /\ forallb (fun label => negb (Js.arrIncludes (TechnologyStack.tools profile) label))
         ["Pandas"; "NumPy"] = true.
Proof.
  intros H.
  destruct (collect_store fetch atob JSON_parse toLowerCase owner repo files languages st)
    as (raw & Ec & Ed).
  eexists raw, _. split; [exact Ed|].
  cbn [TechnologyStack.frameworks TechnologyStack.tools].
  pose proof
      (collect_without_requirements fetch atob JSON_parse toLowerCase owner repo files st H) as K.
  cbv zeta in K. rewrite Ec in K. cbn [fst] in K. destruct K as (Kf & Kt).
  apply forallb_dedup in Kf. apply forallb_dedup in Kt.
  assert (Out : forall (l known : list string) (label : string),
             forallb (fun x => negb (Js.arrIncludes known x)) l = true ->
             In label known -> negb (Js.arrIncludes l label) = true).
  { intros l known label Hl Hk. apply negb_true_iff, arrIncludes_not_In. intros Hin.
    apply (proj1 (forallb_forall _ _) Hl) in Hin. apply negb_true_iff in Hin.
    apply arrIncludes_not_In in Hin. contradiction. }
  split; apply forallb_forall; intros label Hl; eapply Out; eauto.
Qed.

Lemma no_requirements_no_python_library_witness :
  exists st' profile,
    GitHubApiService.detectTechnologies Sample.online (Sample.decodeTo "django")
      (Sample.parseOnly "{}" (Json.JObject [])) Sample.lowerAscii "octocat" "notes"
      [Sample.plainFile "pyproject.toml"] [] GitHubApiService.emptyStore
    = (st', inr profile)
    /\ forallb (fun label => negb (Js.arrIncludes (TechnologyStack.frameworks profile) label))
         ["Django"; "Flask"; "FastAPI"; "Streamlit"; "TensorFlow"; "PyTorch"] = true
    /\ forallb (fun label => negb (Js.arrIncludes (TechnologyStack.tools profile) label))
         ["Pandas"; "NumPy"] = true.
Proof.
  exact (no_requirements_no_python_library Sample.online (Sample.decodeTo "django")
           (Sample.parseOnly "{}" (Json.JObject [])) Sample.lowerAscii "octocat" "notes"
           [Sample.plainFile "pyproject.toml"] [] GitHubApiService.emptyStore eq_refl).
Defined.

(* ================================================================== *)
(** * A dollar in the replacement *)
(* ================================================================== *)

(** [$&] stands for the matched text: replacing every match by it changes
    nothing. *)
Lemma replaceFrom_matched (pat : string) :
  Js.truthy pat = true ->
  forall s skip before, Js.replaceFrom pat "$&" skip before s = Js.dropChars skip s.
Proof.
  intros Hp. induction s as [|c s IH]; intros skip before.
  - now destruct skip.
  - cbn [Js.replaceFrom]. destruct skip as [|k]; [|apply IH].
    cbn [Js.dropChars]. destruct (String.prefix pat (String c s)) eqn:P.
    + rewrite IH. destruct pat as [|p q]; [discriminate Hp|].
      pose proof (prefix_split _ _ P) as E. cbn [String.length Js.dropChars] in E.
      replace (Js.getSubstitution (String p q) before
                 (Js.dropChars (String.length (String p q)) (String c s)) "$&")
        with (String p q ++ EmptyString)%string by reflexivity.
      rewrite append_empty_r. cbn [String.length Nat.sub]. rewrite Nat.sub_0_r.
      symmetry. exact E.
    + now rewrite IH.
Qed.

Lemma replaceAll_matched (s pat : string) :
  Js.truthy pat = true -> Js.replaceAll s pat "$&" = s.
Proof. intros Hp. unfold Js.replaceAll. now rewrite replaceFrom_matched. Qed.

Lemma resolve_url_only (u v clone_url : string) :
  Js.mem "$"%char clone_url = false ->
  Js.includes
    (Js.replaceAll (u ++ (" git clone REPO_URL" ++ Js.lf ++ "   cd REPO_NAME" ++ Js.lf) ++ v)
       "REPO_URL" clone_url)
    ("git clone " ++ clone_url ++ Js.lf ++ "   cd REPO_NAME" ++ Js.lf) = true.
Proof.
  intros Hu.
  change (u ++ (" git clone REPO_URL" ++ Js.lf ++ "   cd REPO_NAME" ++ Js.lf) ++ v)%string
    with (u ++ String " "%char
               ("git clone" ++ String " "%char
                  ("REPO_URL" ++ String (ascii_of_nat 10)
                     ("   cd REPO_NAME" ++ String (ascii_of_nat 10) v))))%string.
  rewrite !(replaceAll_split "REPO_URL" clone_url Hu) by reflexivity.
  rewrite (replaceAll_whole "REPO_URL" clone_url Hu) by reflexivity.
  rewrite (replaceAll_absent "REPO_URL" clone_url "git clone") by reflexivity.
  rewrite (replaceAll_absent "REPO_URL" clone_url "   cd REPO_NAME") by reflexivity.
  apply includes_app_r.
  change (String " "%char
            ("git clone" ++ String " "%char
               (clone_url ++ String (ascii_of_nat 10)
                  ("   cd REPO_NAME" ++ String (ascii_of_nat 10)
                     (Js.replaceAll v "REPO_URL" clone_url)))))%string
    with (" " ++ "git clone " ++ clone_url ++ String (ascii_of_nat 10)
                  ("   cd REPO_NAME" ++ String (ascii_of_nat 10)
                     (Js.replaceAll v "REPO_URL" clone_url)))%string.
  apply includes_app_r, includes_prefix.
  change ("git clone " ++ clone_url ++ Js.lf ++ "   cd REPO_NAME" ++ Js.lf)%string
    with ("git clone " ++ clone_url ++ String (ascii_of_nat 10)
            ("   cd REPO_NAME" ++ String (ascii_of_nat 10) EmptyString))%string.
  rewrite !prefix_append_cancel. rewrite prefix_cons, Ascii.eqb_refl.
  rewrite !prefix_append_cancel. rewrite prefix_cons, Ascii.eqb_refl.
  apply prefix_empty.
Qed.

(** X26.  A dollar in the repository name is read as a pattern of the
    replacement: for the name [$&], which stands for the matched text, the
    second replacement changes nothing, and the resolved document still
    tells to change to the directory REPO_NAME. *)
Theorem dollar_name_puts_the_placeholder_back (toLowerCase : string -> string)
    (localeCompare : string -> string -> Z)
    (toLocaleDateString : string -> string) (percentOf : Z -> Z -> string)
    (repo : Repository.t) (detectedTech : TechnologyStack.t) (repoFiles : list RepoFile.t) :
  Repository.name repo = "$&" ->
  Js.mem "$"%char (Repository.clone_url repo) = false ->
  App.finalReadme toLowerCase localeCompare toLocaleDateString percentOf repo detectedTech repoFiles
  = Js.replaceAll
      (fst (ReadmeGenerator.generateReadme toLowerCase localeCompare toLocaleDateString percentOf
              repo detectedTech repoFiles))
      "REPO_URL" (Repository.clone_url repo)
  /\ Js.includes
       (App.finalReadme toLowerCase localeCompare toLocaleDateString percentOf repo detectedTech
           repoFiles)
       ("git clone " ++ Repository.clone_url repo ++ Js.lf ++ "   cd REPO_NAME" ++ Js.lf)
     = true.
Proof.
  intros Hn Hu.
  assert (E : App.finalReadme toLowerCase localeCompare toLocaleDateString percentOf repo
      detectedTech
                repoFiles
              = Js.replaceAll
                  (fst (ReadmeGenerator.generateReadme toLowerCase localeCompare toLocaleDateString
                          percentOf repo detectedTech repoFiles))
                  "REPO_URL" (Repository.clone_url repo)).
  { unfold App.finalReadme, App.resolve. cbv zeta. rewrite Hn.
    now apply replaceAll_matched. }
  split; [exact E|]. rewrite E.
  assert (K : Js.includes
                (fst (ReadmeGenerator.generateReadme toLowerCase localeCompare toLocaleDateString
                    percentOf repo detectedTech repoFiles))
                (" git clone REPO_URL" ++ Js.lf ++ "   cd REPO_NAME" ++ Js.lf) = true).
  { assert (S : In (ReadmeGenerator.generateInstallation toLowerCase detectedTech repoFiles)
                   (ReadmeGenerator.keptSections
                      (fst (ReadmeGenerator.allSections toLowerCase localeCompare toLocaleDateString
                              percentOf repo detectedTech repoFiles)))).
    { unfold ReadmeGenerator.keptSections. apply filter_In. split.
      - rewrite allSections_conditions. cbn [app]. simpl. tauto.
      - unfold ReadmeGenerator.generateInstallation. now apply trim_truthy_append. }
    unfold ReadmeGenerator.generateReadme.
    destruct (ReadmeGenerator.allSections toLowerCase localeCompare toLocaleDateString percentOf
                repo detectedTech repoFiles) as [sections files'].
    cbn [fst] in *. eapply join_includes; [exact S|].
    unfold ReadmeGenerator.generateInstallation. apply includes_app_r, installSteps_command. }
  apply includes_split in K as (u & v & ->).
  now apply resolve_url_only.
Qed.

Lemma dollar_name_puts_the_placeholder_back_witness :
  App.finalReadme Sample.lowerAscii Sample.collate Sample.isoDay Sample.percentOf
    Sample.dollarNamed Sample.noTechnology Sample.plainListing
  = Js.replaceAll
      (fst (ReadmeGenerator.generateReadme Sample.lowerAscii Sample.collate Sample.isoDay
          Sample.percentOf
              Sample.dollarNamed Sample.noTechnology Sample.plainListing))
      "REPO_URL" "https://github.com/octocat/notes.git"
  /\ Js.includes
       (App.finalReadme Sample.lowerAscii Sample.collate Sample.isoDay Sample.percentOf
          Sample.dollarNamed Sample.noTechnology Sample.plainListing)
       ("git clone " ++ "https://github.com/octocat/notes.git" ++ Js.lf
        ++ "   cd REPO_NAME" ++ Js.lf)
     = true.
Proof.
  apply (dollar_name_puts_the_placeholder_back Sample.lowerAscii Sample.collate Sample.isoDay
      Sample.percentOf
           Sample.dollarNamed Sample.noTechnology Sample.plainListing).
  - reflexivity.
  - reflexivity.
Defined.


(* ================================================================== *)
(** * The placeholders in the resolved document *)
(* ================================================================== *)

(** ** Texts that hold no placeholder *)

(** A character of a text that occurs in another is a character of that
    other. *)
Lemma includes_mem (c : ascii) (s q : string) :
  Js.includes s q = true -> Js.mem c q = true -> Js.mem c s = true.
Proof.
  intros H Hq. apply includes_split in H as (u & v & ->).
  rewrite !mem_append, Hq. now rewrite orb_true_r.
Qed.

(** Both placeholders hold an underscore: a text without one holds
    neither. *)
Lemma no_underscore_tokenFree (s : string) :
  Js.mem "_"%char s = false -> Spec.tokenFree s = true.
Proof.
  intros H. unfold Spec.tokenFree.
  destruct (Js.includes s "REPO_URL") eqn:E1.
  { apply (includes_mem "_"%char) in E1; [congruence|reflexivity]. }
  destruct (Js.includes s "REPO_NAME") eqn:E2.
  { apply (includes_mem "_"%char) in E2; [congruence|reflexivity]. }
  reflexivity.
Qed.

(** No occurrence of a text runs across a character that the text does
    not hold. *)
Lemma includes_char_split (x : ascii) (a b q : string) :
  Js.mem x q = false -> Js.truthy q = true ->
  Js.includes (a ++ String x b) q = Js.includes a q || Js.includes b q.
Proof.
  intros Hx Hq.
  assert (P0 : String.prefix q EmptyString = false) by (destruct q; [discriminate Hq|reflexivity]).
  induction a as [|c a IH].
  - cbn [append]. rewrite includes_cons.
    change (String x b) with (EmptyString ++ String x b)%string.
    rewrite (prefix_before_other q x EmptyString b Hx Hq), P0.
    cbn [Js.includes]. now rewrite P0.
  - cbn [append]. rewrite !includes_cons.
    change (String c (a ++ String x b)) with (String c a ++ String x b)%string.
    rewrite (prefix_before_other q x (String c a) b Hx Hq), IH.
    now rewrite orb_assoc.
Qed.

Lemma plainChar_inv (x : ascii) :
  Spec.plainChar x = true ->
  Js.mem x "REPO_URL" = false /\ Js.mem x "REPO_NAME" = false.
Proof.
  unfold Spec.plainChar. intros H. apply andb_prop in H as [H1 H2].
  now rewrite negb_true_iff in H1, H2.
Qed.

Lemma tokenFree_split (x : ascii) (a b : string) :
  Spec.plainChar x = true ->
  Spec.tokenFree (a ++ String x b) = Spec.tokenFree a && Spec.tokenFree b.
Proof.
  intros H. apply plainChar_inv in H as [H1 H2]. unfold Spec.tokenFree.
  rewrite !includes_char_split by (assumption || reflexivity).
  destruct (Js.includes a "REPO_URL"), (Js.includes a "REPO_NAME"),
    (Js.includes b "REPO_URL"), (Js.includes b "REPO_NAME"); reflexivity.
Qed.

Lemma tokenFree_inv (s : string) :
  Spec.tokenFree s = true ->
  Js.includes s "REPO_URL" = false /\ Js.includes s "REPO_NAME" = false.
Proof.
  unfold Spec.tokenFree. intros H. apply andb_prop in H as [H1 H2].
  now rewrite negb_true_iff in H1, H2.
Qed.

Lemma endsPlain_inv (a : string) :
  Spec.endsPlain a = true ->
  exists init x, a = (init ++ String x EmptyString)%string /\ Spec.plainChar x = true.
Proof.
  induction a as [|c a IH]; [discriminate|].
  destruct a as [|d a].
  - intros H. now exists EmptyString, c.
  - intros H. change (Spec.endsPlain (String d a) = true) in H.
    destruct (IH H) as (init & x & E & Hx). exists (String c init), x.
    cbn [append]. now rewrite <- E.
Qed.

Lemma beginsPlain_append (a b : string) :
  Spec.beginsPlain a = true -> Spec.beginsPlain (a ++ b) = true.
Proof. destruct a; [discriminate|trivial]. Qed.

(** The decimal digits of a number hold no underscore. *)
Lemma string_of_uint_digits (d : Decimal.uint) :
  Js.mem "_"%char (NilEmpty.string_of_uint d) = false.
Proof. induction d; cbn [NilEmpty.string_of_uint Js.mem]; [reflexivity|now rewrite IHd..]. Qed.

Lemma showNat_digits (z : Z) : Js.mem "_"%char (ReadmeGenerator.showNat z) = false.
Proof.
  unfold ReadmeGenerator.showNat, NilZero.string_of_uint.
  destruct (N.to_uint (Z.to_N z)) eqn:E; [reflexivity|rewrite <- E; apply string_of_uint_digits..].
Qed.

Lemma formatBytes_tokenFree (bytes : Z) :
  Spec.tokenFree (ReadmeGenerator.formatBytes bytes) = true.
Proof.
  apply no_underscore_tokenFree. unfold ReadmeGenerator.formatBytes.
  destruct (bytes =? 0); [reflexivity|]. destruct (bytes <? 0); [reflexivity|].
  cbv zeta. unfold ReadmeGenerator.showHundredths. cbv zeta.
  rewrite !mem_append, showNat_digits.
  assert (U : forall n, Js.mem "_"%char (nth n ReadmeGenerator.sizes "undefined") = false).
  { intros n. do 4 (destruct n as [|n]; [reflexivity|]). destruct n; reflexivity. }
  rewrite U.
  destruct (_ =? 0); [reflexivity|].
  destruct (_ =? 0); rewrite ?mem_append, ?showNat_digits; reflexivity.
Qed.

(** The title holds no underscore. *)
Lemma title_tokenFree (name : string) :
  Spec.tokenFree
    (Js.capitalizeWords (Js.replaceAll (Js.replaceAll name "-" " ") "_" " ")) = true.
Proof.
  apply no_underscore_tokenFree.
  rewrite !replaceAll_char_by_char by reflexivity. rewrite mapChars_mapChars.
  unfold Js.capitalizeWords. rewrite capitalizeFrom_mem by now right.
  apply mapChars_mem_out. intros c.
  destruct (Ascii.eqb "-"%char c) eqn:E1; [reflexivity|].
  destruct (Ascii.eqb "_"%char c) eqn:E2; [reflexivity|exact E2].
Qed.

Lemma getLanguageColor_tokenFree (language : string) :
  Spec.tokenFree (ReadmeGenerator.getLanguageColor language) = true.
Proof.
  unfold ReadmeGenerator.getLanguageColor. cbn [find fst].
  repeat match goal with
         | |- context [String.eqb ?a ?b] => destruct (String.eqb a b); [reflexivity|]
         end.
  reflexivity.
Qed.

Lemma getFrameworkBadge_tokenFree (framework badge : string) :
  ReadmeGenerator.getFrameworkBadge framework = Some badge ->
  Spec.tokenFree badge = true.
Proof.
  unfold ReadmeGenerator.getFrameworkBadge. cbn [find fst].
  repeat match goal with
         | |- context [String.eqb ?a ?b] =>
             destruct (String.eqb a b); [intros [= <-]; vm_compute; reflexivity|]
         end.
  discriminate.
Qed.

Lemma detectProjectType_tokenFree (toLowerCase : string -> string)
    (techStack : TechnologyStack.t) (files : list RepoFile.t) (projectType : string) :
  ReadmeGenerator.detectProjectType toLowerCase techStack files = Some projectType ->
  Spec.tokenFree projectType = true.
Proof.
  unfold ReadmeGenerator.detectProjectType. cbv zeta.
  repeat match goal with
         | |- context [if ?c then _ else _] => destruct c
         end;
    (discriminate || (intros [= <-]; reflexivity)).
Qed.

Lemma Forall_app_intro {A : Type} (P : A -> Prop) (l1 l2 : list A) :
  Forall P l1 -> Forall P l2 -> Forall P (l1 ++ l2).
Proof. intros H1 H2. apply Forall_app. now split. Qed.

(** ** Texts that resolve to one without a placeholder *)

Section Clean.

Variables clone_url name : string.
Hypothesis clone_url_plain : Js.mem "$"%char clone_url = false.
Hypothesis name_plain : Js.mem "$"%char name = false.

(** The two replacements work on the text before a character of neither
    placeholder and on the text after it, each for itself. *)
Lemma resolve_split (x : ascii) (a b : string) :
  Spec.plainChar x = true ->
  App.resolve (a ++ String x b) clone_url name
  = (App.resolve a clone_url name ++ String x (App.resolve b clone_url name))%string.
Proof.
  intros H. apply plainChar_inv in H as [H1 H2]. unfold App.resolve.
  rewrite (replaceAll_split "REPO_URL" clone_url clone_url_plain) by (assumption || reflexivity).
  now rewrite (replaceAll_split "REPO_NAME" name name_plain) by (assumption || reflexivity).
Qed.

Lemma clean_split (x : ascii) (a b : string) :
  Spec.plainChar x = true ->
  Spec.resolvesClean clone_url name (a ++ String x b)
  = Spec.resolvesClean clone_url name a && Spec.resolvesClean clone_url name b.
Proof.
  intros H. unfold Spec.resolvesClean. rewrite resolve_split by exact H.
  now apply tokenFree_split.
Qed.

Lemma clean_empty : Spec.resolvesClean clone_url name EmptyString = true.
Proof. reflexivity. Qed.

(** A text without a placeholder stays as it is. *)
Lemma clean_free (t : string) :
  Spec.tokenFree t = true -> Spec.resolvesClean clone_url name t = true.
Proof.
  intros H. unfold Spec.resolvesClean, App.resolve.
  destruct (tokenFree_inv t H) as [H1 H2].
  rewrite (replaceAll_absent "REPO_URL" clone_url t H1).
  now rewrite (replaceAll_absent "REPO_NAME" name t H2).
Qed.

(** Two texts of which the first ends, or the second begins, with a
    character of neither placeholder. *)
Lemma clean_app_l (a b : string) :
  Spec.endsPlain a = true ->
  Spec.resolvesClean clone_url name a = true ->
  Spec.resolvesClean clone_url name b = true ->
  Spec.resolvesClean clone_url name (a ++ b) = true.
Proof.
  intros H Ha Hb. apply endsPlain_inv in H as (init & x & -> & Hx).
  rewrite clean_split in Ha by exact Hx. apply andb_prop in Ha as [Ha _].
  rewrite append_assoc. cbn [append]. rewrite clean_split by exact Hx.
  now rewrite Ha, Hb.
Qed.

Lemma clean_app_r (a b : string) :
  Spec.beginsPlain b = true ->
  Spec.resolvesClean clone_url name a = true ->
  Spec.resolvesClean clone_url name b = true ->
  Spec.resolvesClean clone_url name (a ++ b) = true.
Proof.
  intros H Ha Hb. destruct b as [|x b]; [discriminate H|]. cbn [Spec.beginsPlain] in H.
  change (String x b) with (EmptyString ++ String x b)%string in Hb.
  rewrite clean_split in Hb by exact H. apply andb_prop in Hb as [_ Hb].
  rewrite clean_split by exact H. now rewrite Ha, Hb.
Qed.

Lemma clean_app_l_inv (a b : string) :
  Spec.endsPlain a = true ->
  Spec.resolvesClean clone_url name (a ++ b) = true ->
  Spec.resolvesClean clone_url name a = true /\ Spec.resolvesClean clone_url name b = true.
Proof.
  intros H Hab. apply endsPlain_inv in H as (init & x & -> & Hx).
  rewrite append_assoc in Hab. cbn [append] in Hab. rewrite clean_split in Hab by exact Hx.
  apply andb_prop in Hab as [Hi Hb]. split; [|exact Hb].
  rewrite clean_split by exact Hx. rewrite Hi. reflexivity.
Qed.

Lemma clean_app_r_inv (a b : string) :
  Spec.beginsPlain b = true ->
  Spec.resolvesClean clone_url name (a ++ b) = true ->
  Spec.resolvesClean clone_url name a = true /\ Spec.resolvesClean clone_url name b = true.
Proof.
  intros H Hab. destruct b as [|x b]; [discriminate H|]. cbn [Spec.beginsPlain] in H.
  rewrite clean_split in Hab by exact H. apply andb_prop in Hab as [Ha Hb].
  split; [exact Ha|].
  change (String x b) with (EmptyString ++ String x b)%string.
  rewrite clean_split by exact H. rewrite Hb. reflexivity.
Qed.

(** Texts joined by a separator that begins and ends with such a
    character. *)
Lemma clean_join (sep : string) (l : list string) :
  Spec.beginsPlain sep = true -> Spec.endsPlain sep = true ->
  Spec.tokenFree sep = true ->
  Forall (fun t => Spec.resolvesClean clone_url name t = true) l ->
  Spec.resolvesClean clone_url name (Js.join sep l) = true.
Proof.
  intros Hb He Hs H. induction H as [|x l Hx Hl IH]; [reflexivity|].
  destruct l as [|y l]; [exact Hx|].
  change (Js.join sep (x :: y :: l)) with (x ++ sep ++ Js.join sep (y :: l))%string.
  apply clean_app_r; [apply beginsPlain_append; exact Hb|exact Hx|].
  apply clean_app_l; [exact He|apply clean_free; exact Hs|exact IH].
Qed.

Lemma clean_join_inv (sep : string) (l : list string) :
  Spec.beginsPlain sep = true -> Spec.endsPlain sep = true ->
  Spec.resolvesClean clone_url name (Js.join sep l) = true ->
  Forall (fun t => Spec.resolvesClean clone_url name t = true) l.
Proof.
  intros Hb He. induction l as [|x l IH]; intros H; [constructor|].
  destruct l as [|y l]; [repeat constructor; exact H|].
  change (Js.join sep (x :: y :: l)) with (x ++ sep ++ Js.join sep (y :: l))%string in H.
  apply clean_app_r_inv in H; [|apply beginsPlain_append; exact Hb].
  destruct H as [Hx H]. apply clean_app_l_inv in H; [|exact He].
  destruct H as [_ H]. constructor; [exact Hx|]. apply IH. exact H.
Qed.

(** The text before the first slash of a text. *)
Lemma clean_beforeFirst (t : string) :
  Spec.resolvesClean clone_url name t = true ->
  Spec.resolvesClean clone_url name (Js.beforeFirst "/"%char t) = true.
Proof.
  assert (E : t = Js.beforeFirst "/"%char t
              \/ exists rest, t = (Js.beforeFirst "/"%char t ++ String "/"%char rest)%string).
  { induction t as [|c t IH]; [now left|].
    cbn [Js.beforeFirst]. destruct (Ascii.eqb c "/"%char) eqn:Ec.
    - right. exists t. apply Ascii.eqb_eq in Ec. now subst c.
    - destruct IH as [IH|(rest & IH)].
      + left. now rewrite <- IH.
      + right. exists rest. cbn [append]. now rewrite <- IH. }
  destruct E as [<-|(rest & E)]; [trivial|].
  intros H. rewrite E in H. rewrite clean_split in H by reflexivity.
  now apply andb_prop in H as [H _].
Qed.

End Clean.

(** A text in pieces: the pieces one by one, where one of two neighbours
    ends or begins with a character of neither placeholder. *)
Ltac clean_pieces :=
  repeat lazymatch goal with
         | |- Spec.resolvesClean _ _ (_ ++ _) = true =>
             first [ apply clean_app_l; [assumption|assumption|reflexivity| |]
                   | apply clean_app_r; [assumption|assumption|reflexivity| |] ]
         end.

(** A piece that the program writes itself, and a piece that is given. *)
Ltac clean_piece :=
  first [ assumption
        | apply clean_free; vm_compute; reflexivity ].

(** The pieces of a text that resolves to one without a placeholder. *)
Ltac clean_parts :=
  repeat match goal with
         | H : Spec.resolvesClean _ _ (_ ++ _) = true |- _ =>
             first [ apply clean_app_l_inv in H; [|solve [assumption|reflexivity]..]
                   | apply clean_app_r_inv in H; [|solve [assumption|reflexivity]..] ];
             let H' := fresh H in destruct H as [H' H]
         end.

Section Sections.

Variables clone_url name : string.
Hypothesis clone_url_plain : Js.mem "$"%char clone_url = false.
Hypothesis name_plain : Js.mem "$"%char name = false.

(** The placeholders as the Installation section writes them: the first
    becomes the clone URL, in which the second replacement then looks for
    REPO_NAME; the second becomes the name. *)
Hypothesis url_clean : Spec.tokenFree (Js.replaceAll clone_url "REPO_NAME" name) = true.
Hypothesis name_clean : Spec.tokenFree name = true.

Lemma clean_REPO_URL : Spec.resolvesClean clone_url name "REPO_URL" = true.
Proof.
  unfold Spec.resolvesClean, App.resolve.
  now rewrite (replaceAll_whole "REPO_URL" clone_url clone_url_plain) by reflexivity.
Qed.

Lemma clean_REPO_NAME : Spec.resolvesClean clone_url name "REPO_NAME" = true.
Proof.
  unfold Spec.resolvesClean, App.resolve.
  rewrite (replaceAll_absent "REPO_URL" clone_url "REPO_NAME") by reflexivity.
  now rewrite (replaceAll_whole "REPO_NAME" name name_plain) by reflexivity.
Qed.

Variable toLowerCase : string -> string.
Variable localeCompare : string -> string -> Z.
Variable toLocaleDateString : string -> string.
Variable percentOf : Z -> Z -> string.
Variable repository : Repository.t.
Variable techStack : TechnologyStack.t.
Variable files : list RepoFile.t.

Hypothesis shown_clean :
  forall t,
    In t (Spec.shownTexts toLowerCase toLocaleDateString percentOf repository techStack files) ->
    Spec.resolvesClean clone_url name t = true.

Lemma clean_optOr (o : option string) (d : string) :
  (forall s, o = Some s -> Spec.resolvesClean clone_url name s = true) ->
  Spec.tokenFree d = true ->
  Spec.resolvesClean clone_url name (ReadmeGenerator.optOr o d) = true.
Proof.
  intros Ho Hd. unfold ReadmeGenerator.optOr, Js.orElse.
  destruct o as [s|]; [|now apply clean_free].
  destruct (Js.truthy s); [now apply Ho|now apply clean_free].
Qed.

Lemma clean_orElse (s d : string) :
  Spec.resolvesClean clone_url name s = true ->
  Spec.tokenFree d = true ->
  Spec.resolvesClean clone_url name (Js.orElse s d) = true.
Proof. intros Hs Hd. unfold Js.orElse. destruct (Js.truthy s); [trivial|now apply clean_free]. Qed.

Ltac shown := apply shown_clean; unfold Spec.shownTexts; cbv zeta;
  repeat (rewrite in_app_iff); cbn [In]; tauto.

Lemma shown_full_name : Spec.resolvesClean clone_url name (Repository.full_name repository) = true.
Proof. shown. Qed.

Lemma shown_html_url : Spec.resolvesClean clone_url name (Repository.html_url repository) = true.
Proof. shown. Qed.

Lemma shown_dates :
  Spec.resolvesClean clone_url name (toLocaleDateString (Repository.created_at repository)) = true
  /\ Spec.resolvesClean clone_url name
       (toLocaleDateString (Repository.updated_at repository)) = true.
Proof. split; shown. Qed.

Lemma shown_description (s : string) :
  Repository.description repository = Some s -> Spec.resolvesClean clone_url name s = true.
Proof. intros E. apply shown_clean. unfold Spec.shownTexts. rewrite E. cbn. tauto. Qed.

Lemma shown_language (language : string) :
  Repository.language repository = Some language ->
  Js.truthy language = true ->
  Spec.resolvesClean clone_url name language = true
  /\ Spec.resolvesClean clone_url name (toLowerCase language) = true.
Proof.
  intros E Ht. split; apply shown_clean; unfold Spec.shownTexts; rewrite E, Ht; cbv zeta;
    repeat (rewrite in_app_iff); cbn [In]; tauto.
Qed.

Lemma shown_license (l : License) :
  Repository.license repository = Some l ->
  Spec.resolvesClean clone_url name (license_name l) = true
  /\ Spec.resolvesClean clone_url name (spdx_id l) = true.
Proof.
  intros E. split; apply shown_clean; unfold Spec.shownTexts; rewrite E; cbv zeta;
    repeat (rewrite in_app_iff); cbn [In]; tauto.
Qed.

Lemma shown_labels :
  Forall (fun t => Spec.resolvesClean clone_url name t = true)
    (TechnologyStack.frameworks techStack)
  /\ Forall (fun t => Spec.resolvesClean clone_url name t = true)
       (TechnologyStack.tools techStack)
  /\ Forall (fun t => Spec.resolvesClean clone_url name t = true)
       (TechnologyStack.databases techStack)
  /\ Forall (fun t => Spec.resolvesClean clone_url name t = true)
       (TechnologyStack.deployment techStack).
Proof.
  repeat split; apply Forall_forall; intros t Ht; apply shown_clean;
    unfold Spec.shownTexts; cbv zeta; repeat (rewrite in_app_iff); tauto.
Qed.

Lemma shown_languages (entry : string * Z) :
  In entry (TechnologyStack.languages techStack) ->
  Spec.resolvesClean clone_url name (fst entry) = true
  /\ Spec.resolvesClean clone_url name
       (percentOf (snd entry)
          (fold_left (fun a b => a + b) (map snd (TechnologyStack.languages techStack)) 0))
     = true.
Proof.
  intros H. split; apply shown_clean; unfold Spec.shownTexts; cbv zeta;
    repeat (rewrite in_app_iff); right; right; right; right; left;
    apply in_flat_map; exists entry; cbn [In]; tauto.
Qed.

Lemma shown_names (f : RepoFile.t) :
  In f files -> Spec.resolvesClean clone_url name (RepoFile.name f) = true.
Proof.
  intros H. apply shown_clean. unfold Spec.shownTexts. cbv zeta.
  repeat (rewrite in_app_iff). do 9 right. now apply in_map.
Qed.

(** *** The sections *)

Lemma clean_generateHeader :
  Spec.resolvesClean clone_url name (ReadmeGenerator.generateHeader repository) = true.
Proof.
  unfold ReadmeGenerator.generateHeader. cbv zeta.
  pose proof (clean_free clone_url name _
                (title_tokenFree (Repository.name repository))) as Ht.
  pose proof (clean_optOr (Repository.description repository)
                "A modern application built with the latest technologies."
                shown_description eq_refl) as Hd.
  clean_pieces; clean_piece.
Qed.

Lemma clean_badgeList :
  Forall (fun t => Spec.resolvesClean clone_url name t = true)
    (ReadmeGenerator.badgeList toLowerCase repository techStack).
Proof.
  pose proof shown_full_name as Hf. pose proof shown_html_url as Hh.
  unfold ReadmeGenerator.badgeList. repeat apply Forall_app_intro.
  - unfold ReadmeGenerator.starsBadge, ReadmeGenerator.forksBadge, ReadmeGenerator.issuesBadge.
    repeat constructor; clean_pieces; clean_piece.
  - destruct (Repository.language repository) as [language|] eqn:E; [|constructor].
    destruct (Js.truthy language) eqn:Et; [|constructor].
    destruct (shown_language language E Et) as [Hl Hlow]. cbv zeta.
    pose proof (clean_free clone_url name _
                  (getLanguageColor_tokenFree language)) as Hc.
    repeat constructor. clean_pieces; clean_piece.
  - destruct shown_labels as [Hfw _]. clear Hfw.
    induction (TechnologyStack.frameworks techStack) as [|framework l IH]; [constructor|].
    cbn [flat_map]. apply Forall_app_intro; [|exact IH].
    destruct (ReadmeGenerator.getFrameworkBadge framework) as [badge|] eqn:E; [|constructor].
    destruct (Js.truthy badge); [|constructor].
    repeat constructor. apply clean_free.
    now apply (getFrameworkBadge_tokenFree framework).
  - destruct (Repository.license repository) as [l|] eqn:E; [|constructor].
    destruct (shown_license l E) as [_ Hs].
    repeat constructor. clean_pieces; clean_piece.
Qed.

Lemma clean_generateBadges :
  Spec.resolvesClean clone_url name
    (ReadmeGenerator.generateBadges toLowerCase repository techStack) = true.
Proof.
  unfold ReadmeGenerator.generateBadges.
  apply clean_join; try assumption; try reflexivity. apply clean_badgeList.
Qed.

Lemma clean_generateDescription :
  Spec.resolvesClean clone_url name
    (ReadmeGenerator.generateDescription toLowerCase toLocaleDateString repository techStack
       files) = true.
Proof.
  unfold ReadmeGenerator.generateDescription. cbv zeta.
  destruct shown_dates as [Hc Hu].
  pose proof (clean_optOr (Repository.description repository)
                "This project showcases modern development practices and technologies."
                shown_description eq_refl) as Hd.
  pose proof (clean_free clone_url name _
                (formatBytes_tokenFree (Repository.size repository * 1024))) as Hs.
  destruct (ReadmeGenerator.detectProjectType toLowerCase techStack files) as [p|] eqn:E.
  - pose proof (clean_free clone_url name _
                  (detectProjectType_tokenFree _ _ _ _ E)) as Hp.
    destruct (Js.truthy p); clean_pieces; clean_piece.
  - clean_pieces; clean_piece.
Qed.

Lemma clean_generateTableOfContents :
  Spec.resolvesClean clone_url name
    (ReadmeGenerator.generateTableOfContents toLowerCase techStack files) = true.
Proof.
  unfold ReadmeGenerator.generateTableOfContents. cbv zeta.
  destruct (ReadmeGenerator.shouldIncludeApiDocs toLowerCase techStack files),
    (ReadmeGenerator.hasPackageJson toLowerCase files); clean_piece.
Qed.

Lemma clean_detectedFeatures :
  Forall (fun t => Spec.resolvesClean clone_url name t = true)
    (ReadmeGenerator.detectedFeatures toLowerCase repository techStack files).
Proof.
  destruct shown_labels as (_ & _ & Hdb & _).
  unfold ReadmeGenerator.detectedFeatures. cbv zeta.
  repeat apply Forall_app_intro;
    repeat match goal with
           | |- Forall _ (if ?c then _ else _) => destruct c
           | |- Forall _ (_ :: _) => constructor
           | |- Forall _ [] => constructor
           end;
    try clean_piece.
  apply clean_app_l; [assumption|assumption|reflexivity|clean_piece|].
  apply clean_join; try assumption; try reflexivity.
Qed.

Lemma clean_generateFeatures :
  Spec.resolvesClean clone_url name
    (ReadmeGenerator.generateFeatures toLowerCase repository techStack files) = true.
Proof.
  unfold ReadmeGenerator.generateFeatures, ReadmeGenerator.featureList. cbv zeta.
  rewrite map_id.
  apply clean_app_l; [assumption|assumption|reflexivity|clean_piece|].
  apply clean_join; try assumption; try reflexivity.
  pose proof clean_detectedFeatures as H.
  destruct (_ =? 0); [|exact H].
  apply Forall_app_intro; [exact H|]. repeat constructor; clean_piece.
Qed.

Lemma clean_bulletList (labels : list string) :
  Forall (fun t => Spec.resolvesClean clone_url name t = true) labels ->
  Spec.resolvesClean clone_url name (ReadmeGenerator.bulletList labels) = true.
Proof.
  intros H. unfold ReadmeGenerator.bulletList.
  apply clean_join; try assumption; try reflexivity.
  induction H as [|x l Hx Hl IH]; [constructor|].
  cbn [map]. constructor; [|exact IH]. clean_pieces; clean_piece.
Qed.

Lemma clean_generateTechStack :
  Spec.resolvesClean clone_url name (ReadmeGenerator.generateTechStack percentOf techStack)
  = true.
Proof.
  destruct shown_labels as (Hfw & Htl & Hdb & Hdp).
  unfold ReadmeGenerator.generateTechStack. cbv zeta.
  apply clean_app_l; [assumption|assumption|reflexivity|clean_piece|].
  apply clean_join; try assumption; try reflexivity.
  repeat apply Forall_app_intro;
    match goal with
    | |- Forall _ (if ?c then _ else _) => destruct c; [|constructor]
    end;
    repeat constructor.
  - apply clean_app_l; [assumption|assumption|reflexivity|clean_piece|].
    apply clean_app_l; [assumption|assumption|reflexivity|clean_piece|].
    apply clean_join; try assumption; try reflexivity.
    assert (S : Forall (fun entry => In entry (TechnologyStack.languages techStack))
                  (JsArray.sortBy (fun x y => snd y - snd x)
                     (TechnologyStack.languages techStack))).
    { apply (Permutation_Forall (Permutation_sym (sortBy_perm _ _))).
      apply Forall_forall. trivial. }
    induction S as [|entry l He Hl IH]; [constructor|].
    cbn [map]. constructor; [|exact IH].
    destruct (shown_languages entry He) as [Hn Hp]. cbv zeta.
    clean_pieces; clean_piece.
  - apply clean_app_l; [assumption|assumption|reflexivity|clean_piece|].
    apply clean_app_l; [assumption|assumption|reflexivity|clean_piece|].
    now apply clean_bulletList.
  - apply clean_app_l; [assumption|assumption|reflexivity|clean_piece|].
    apply clean_app_l; [assumption|assumption|reflexivity|clean_piece|].
    now apply clean_bulletList.
  - apply clean_app_l; [assumption|assumption|reflexivity|clean_piece|].
    apply clean_app_l; [assumption|assumption|reflexivity|clean_piece|].
    now apply clean_bulletList.
  - apply clean_app_l; [assumption|assumption|reflexivity|clean_piece|].
    apply clean_app_l; [assumption|assumption|reflexivity|clean_piece|].
    now apply clean_bulletList.
Qed.

(** The Installation section is the one that writes the placeholders. *)
Lemma clean_generateInstallation :
  Spec.resolvesClean clone_url name
    (ReadmeGenerator.generateInstallation toLowerCase techStack files) = true.
Proof.
  pose proof clean_REPO_URL as Hu. pose proof clean_REPO_NAME as Hn.
  unfold ReadmeGenerator.generateInstallation, ReadmeGenerator.installStepsOf,
    ReadmeGenerator.packageManagerOf. cbv zeta.
  destruct (Js.arrIncludes _ "package.json").
  - unfold ReadmeGenerator.nodeInstallSteps, ReadmeGenerator.getCloneUrl,
      ReadmeGenerator.getRepoName.
    destruct (Js.arrIncludes _ "yarn.lock"); [|destruct (Js.arrIncludes _ "pnpm-lock.yaml")];
      clean_pieces; clean_piece.
  - destruct (Js.arrIncludes _ "requirements.txt" || Js.arrIncludes _ "pyproject.toml");
      [|destruct (Js.arrIncludes _ "pom.xml")];
      unfold ReadmeGenerator.pythonInstallSteps, ReadmeGenerator.javaInstallSteps,
        ReadmeGenerator.genericInstallSteps, ReadmeGenerator.getCloneUrl,
        ReadmeGenerator.getRepoName;
      clean_pieces; clean_piece.
Qed.

Lemma clean_generateUsage :
  Spec.resolvesClean clone_url name
    (ReadmeGenerator.generateUsage toLowerCase repository techStack files) = true.
Proof.
  unfold ReadmeGenerator.generateUsage, ReadmeGenerator.packageManagerOf. cbv zeta.
  destruct (Js.arrIncludes _ "package.json").
  - destruct (Js.arrIncludes _ "yarn.lock"); [|destruct (Js.arrIncludes _ "pnpm-lock.yaml")];
      clean_piece.
  - destruct (Js.arrIncludes _ "requirements.txt"); clean_piece.
Qed.

Lemma clean_treeLines (l : list RepoFile.t) :
  Forall (fun f => In f files) l ->
  Forall (fun t => Spec.resolvesClean clone_url name t = true) (Spec.treeLines l).
Proof.
  induction 1 as [|f l Hf Hl IH]; [constructor|].
  pose proof (shown_names f Hf) as Hn.
  assert (Hi : Spec.resolvesClean clone_url name (Spec.icon f) = true)
    by (unfold Spec.icon; destruct (RepoFile.type f); clean_piece).
  assert (Bi : Spec.beginsPlain (Spec.icon f ++ RepoFile.name f) = true)
    by (unfold Spec.icon; destruct (RepoFile.type f); reflexivity).
  assert (Ei : Spec.endsPlain (Spec.icon f) = true)
    by (unfold Spec.icon; destruct (RepoFile.type f); reflexivity).
  destruct l as [|g l].
  - repeat constructor. unfold Spec.lastLine.
    apply clean_app_l; [assumption|assumption|reflexivity|clean_piece|].
    now apply clean_app_l.
  - change (Spec.treeLines (f :: g :: l)) with (Spec.branchLine f :: Spec.treeLines (g :: l)).
    constructor; [|exact IH]. unfold Spec.branchLine.
    apply clean_app_l; [assumption|assumption|reflexivity|clean_piece|].
    now apply clean_app_l.
Qed.

Lemma clean_generateProjectStructure :
  Spec.resolvesClean clone_url name
    (fst (ReadmeGenerator.generateProjectStructure localeCompare files)) = true.
Proof.
  unfold ReadmeGenerator.generateProjectStructure. rewrite buildFileTree_lines. cbn [fst].
  apply clean_app_l; [assumption|assumption|reflexivity|clean_piece|].
  apply clean_app_r; [assumption|assumption|reflexivity| |clean_piece].
  apply clean_join; try assumption; try reflexivity.
  apply clean_treeLines.
  apply (Permutation_Forall (Permutation_sym (sortBy_perm _ _))).
  apply Forall_forall. trivial.
Qed.

Lemma clean_generateApiDocs :
  Spec.resolvesClean clone_url name (ReadmeGenerator.generateApiDocs techStack) = true.
Proof.
  unfold ReadmeGenerator.generateApiDocs. cbv zeta.
  destruct (Js.arrIncludes _ "Django"); clean_piece.
Qed.

Lemma clean_generateLicense :
  Spec.resolvesClean clone_url name (ReadmeGenerator.generateLicense repository) = true.
Proof.
  unfold ReadmeGenerator.generateLicense. cbv zeta.
  destruct (Repository.license repository) as [l|] eqn:E; [|clean_piece].
  destruct (shown_license l E) as [Hl Hs].
  pose proof (clean_orElse (license_name l) "MIT License" Hl eq_refl) as Hl'.
  pose proof (clean_orElse (spdx_id l) "MIT" Hs eq_refl) as Hs'.
  clean_pieces; clean_piece.
Qed.

Lemma clean_generateContact :
  Spec.resolvesClean clone_url name (ReadmeGenerator.generateContact repository) = true.
Proof.
  unfold ReadmeGenerator.generateContact. cbv zeta.
  pose proof shown_html_url as Hh.
  pose proof (clean_beforeFirst clone_url name clone_url_plain name_plain _ shown_full_name)
    as Ho.
  clean_pieces; clean_piece.
Qed.

(** Every section of the document resolves to a text without a
    placeholder, and so does the document. *)
Lemma clean_generateReadme :
  Spec.resolvesClean clone_url name
    (fst (ReadmeGenerator.generateReadme toLowerCase localeCompare toLocaleDateString
            percentOf repository techStack files)) = true.
Proof.
  assert (S : Forall (fun t => Spec.resolvesClean clone_url name t = true)
                (fst (ReadmeGenerator.allSections toLowerCase localeCompare
                        toLocaleDateString percentOf repository techStack files))).
  { rewrite allSections_conditions.
    repeat apply Forall_app_intro;
      repeat match goal with
             | |- Forall _ (if ?c then _ else _) => destruct c
             | |- Forall _ (_ :: _) => constructor
             | |- Forall _ [] => constructor
             end.
    - apply clean_generateHeader.
    - apply clean_generateBadges.
    - apply clean_generateDescription.
    - apply clean_generateTableOfContents.
    - apply clean_generateFeatures.
    - apply clean_generateTechStack.
    - apply clean_generateInstallation.
    - apply clean_generateUsage.
    - apply clean_generateProjectStructure.
    - apply clean_generateApiDocs.
    - clean_piece.
    - clean_piece.
    - apply clean_generateLicense.
    - apply clean_generateContact. }
  unfold ReadmeGenerator.generateReadme.
  destruct (ReadmeGenerator.allSections toLowerCase localeCompare toLocaleDateString percentOf
              repository techStack files) as [sections files'].
  cbn [fst] in *. apply clean_join; try assumption; try reflexivity.
  unfold ReadmeGenerator.keptSections. apply Forall_forall. intros t Ht.
  apply filter_In in Ht as [Ht _]. revert t Ht. now apply Forall_forall.
Qed.

End Sections.

(** ** What a document without a placeholder says of its texts *)

Lemma Forall_cons_inv {A : Type} (P : A -> Prop) (x : A) (l : list A) :
  Forall P (x :: l) -> P x /\ Forall P l.
Proof. intros H. split; [exact (Forall_inv H)|exact (Forall_inv_tail H)]. Qed.

Section Shown.

Variables clone_url name : string.
Hypothesis clone_url_plain : Js.mem "$"%char clone_url = false.
Hypothesis name_plain : Js.mem "$"%char name = false.

Lemma resolved_REPO_URL :
  Spec.resolvesClean clone_url name "REPO_URL"
  = Spec.tokenFree (Js.replaceAll clone_url "REPO_NAME" name).
Proof.
  unfold Spec.resolvesClean, App.resolve.
  now rewrite (replaceAll_whole "REPO_URL" clone_url clone_url_plain) by reflexivity.
Qed.

Lemma resolved_REPO_NAME :
  Spec.resolvesClean clone_url name "REPO_NAME" = Spec.tokenFree name.
Proof.
  unfold Spec.resolvesClean, App.resolve.
  rewrite (replaceAll_absent "REPO_URL" clone_url "REPO_NAME") by reflexivity.
  now rewrite (replaceAll_whole "REPO_NAME" name name_plain) by reflexivity.
Qed.

Variable toLowerCase : string -> string.
Variable localeCompare : string -> string -> Z.
Variable toLocaleDateString : string -> string.
Variable percentOf : Z -> Z -> string.
Variable repository : Repository.t.
Variable techStack : TechnologyStack.t.
Variable files : list RepoFile.t.

Lemma generateHeader_shows (description : string) :
  Repository.description repository = Some description ->
  Spec.resolvesClean clone_url name (ReadmeGenerator.generateHeader repository) = true ->
  Spec.resolvesClean clone_url name description = true.
Proof.
  intros E H. unfold ReadmeGenerator.generateHeader in H. cbv zeta in H. rewrite E in H.
  apply clean_app_l_inv in H; [|assumption|assumption|reflexivity]. destruct H as [_ H].
  apply clean_app_r_inv in H; [|assumption|assumption|reflexivity]. destruct H as [_ H].
  apply clean_app_l_inv in H; [|assumption|assumption|reflexivity]. destruct H as [_ H].
  unfold ReadmeGenerator.optOr, Js.orElse in H.
  destruct description as [|c d]; [reflexivity|exact H].
Qed.

Lemma generateBadges_shows :
  Spec.resolvesClean clone_url name
    (ReadmeGenerator.generateBadges toLowerCase repository techStack) = true ->
  Spec.resolvesClean clone_url name (Repository.full_name repository) = true
  /\ Spec.resolvesClean clone_url name (Repository.html_url repository) = true
  /\ (forall language,
         Repository.language repository = Some language -> Js.truthy language = true ->
         Spec.resolvesClean clone_url name language = true
         /\ Spec.resolvesClean clone_url name (toLowerCase language) = true)
  /\ (forall l,
         Repository.license repository = Some l ->
         Spec.resolvesClean clone_url name (spdx_id l) = true).
Proof.
  intros H. unfold ReadmeGenerator.generateBadges in H.
  apply clean_join_inv in H; [|assumption|assumption|reflexivity|reflexivity].
  unfold ReadmeGenerator.badgeList in H.
  apply (proj1 (Forall_app _ _ _)) in H as [Hthree H].
  apply (proj1 (Forall_app _ _ _)) in H as [Hlang H].
  apply (proj1 (Forall_app _ _ _)) in H as [_ Hlic].
  apply Forall_cons_inv in Hthree as [Hstars _].
  unfold ReadmeGenerator.starsBadge in Hstars. clean_parts.
  split; [assumption|]. split; [assumption|]. split.
  - intros language E Et. rewrite E, Et in Hlang. cbv zeta in Hlang.
    apply Forall_cons_inv in Hlang as [Hb _]. clean_parts. split; assumption.
  - intros l E. rewrite E in Hlic. apply Forall_cons_inv in Hlic as [Hb _].
    clean_parts. assumption.
Qed.

Lemma generateDescription_shows :
  Spec.resolvesClean clone_url name
    (ReadmeGenerator.generateDescription toLowerCase toLocaleDateString repository techStack
       files) = true ->
  Spec.resolvesClean clone_url name (toLocaleDateString (Repository.created_at repository))
  = true
  /\ Spec.resolvesClean clone_url name (toLocaleDateString (Repository.updated_at repository))
     = true.
Proof.
  unfold ReadmeGenerator.generateDescription. cbv zeta.
  destruct (ReadmeGenerator.detectProjectType toLowerCase techStack files) as [p|];
    [destruct (Js.truthy p)|]; intros H; clean_parts; split; assumption.
Qed.

Lemma bulletList_shows (labels : list string) :
  Spec.resolvesClean clone_url name (ReadmeGenerator.bulletList labels) = true ->
  Forall (fun t => Spec.resolvesClean clone_url name t = true) labels.
Proof.
  intros H. unfold ReadmeGenerator.bulletList in H.
  apply clean_join_inv in H; [|assumption|assumption|reflexivity|reflexivity].
  induction labels as [|x l IH]; [constructor|].
  cbn [map] in H. apply Forall_cons_inv in H as [Hx Hl].
  constructor; [|now apply IH]. clean_parts. assumption.
Qed.

Lemma stack_item_shows (heading : string) (labels : list string) :
  Spec.endsPlain heading = true ->
  Forall (fun t => Spec.resolvesClean clone_url name t = true)
    (if 0 <? Z.of_nat (length labels)
     then [(heading ++ Js.lf ++ ReadmeGenerator.bulletList labels)%string] else []) ->
  Forall (fun t => Spec.resolvesClean clone_url name t = true) labels.
Proof.
  intros He H. destruct labels as [|x l]; [constructor|].
  replace (0 <? Z.of_nat (length (x :: l))) with true in H
    by (symmetry; apply Z.ltb_lt; cbn [length]; lia).
  apply Forall_cons_inv in H as [Hx _].
  apply clean_app_l_inv in Hx; [|assumption|assumption|exact He]. destruct Hx as [_ Hx].
  apply clean_app_l_inv in Hx; [|assumption|assumption|reflexivity]. destruct Hx as [_ Hx].
  now apply bulletList_shows.
Qed.

Lemma generateTechStack_shows :
  Spec.resolvesClean clone_url name (ReadmeGenerator.generateTechStack percentOf techStack)
  = true ->
  (forall entry,
      In entry (TechnologyStack.languages techStack) ->
      Spec.resolvesClean clone_url name (fst entry) = true
      /\ Spec.resolvesClean clone_url name
           (percentOf (snd entry)
              (fold_left (fun a b => a + b) (map snd (TechnologyStack.languages techStack)) 0))
         = true)
  /\ Forall (fun t => Spec.resolvesClean clone_url name t = true)
       (TechnologyStack.frameworks techStack)
  /\ Forall (fun t => Spec.resolvesClean clone_url name t = true)
       (TechnologyStack.tools techStack)
  /\ Forall (fun t => Spec.resolvesClean clone_url name t = true)
       (TechnologyStack.databases techStack)
  /\ Forall (fun t => Spec.resolvesClean clone_url name t = true)
       (TechnologyStack.deployment techStack).
Proof.
  intros H. unfold ReadmeGenerator.generateTechStack in H. cbv zeta in H.
  apply clean_app_l_inv in H; [|assumption|assumption|reflexivity]. destruct H as [_ H].
  apply clean_join_inv in H; [|assumption|assumption|reflexivity|reflexivity].
  apply (proj1 (Forall_app _ _ _)) in H as [Hlang H].
  apply (proj1 (Forall_app _ _ _)) in H as [Hfw H].
  apply (proj1 (Forall_app _ _ _)) in H as [Htl H].
  apply (proj1 (Forall_app _ _ _)) in H as [Hdb Hdp].
  split; [|repeat split; eapply stack_item_shows; try eassumption; reflexivity].
  intros entry He.
  destruct (TechnologyStack.languages techStack) as [|e0 rest] eqn:El; [destruct He|].
  rewrite <- El in *.
  replace (0 <? Z.of_nat (length (TechnologyStack.languages techStack))) with true in Hlang
    by (symmetry; apply Z.ltb_lt; rewrite El; cbn [length]; lia).
  apply Forall_cons_inv in Hlang as [Hx _].
  apply clean_app_l_inv in Hx; [|assumption|assumption|reflexivity]. destruct Hx as [_ Hx].
  apply clean_app_l_inv in Hx; [|assumption|assumption|reflexivity]. destruct Hx as [_ Hx].
  apply clean_join_inv in Hx; [|assumption|assumption|reflexivity|reflexivity].
  rewrite Forall_map in Hx.
  apply (Permutation_Forall (sortBy_perm _ _)) in Hx.
  rewrite Forall_forall in Hx. specialize (Hx entry He). cbv zeta in Hx.
  clean_parts. split; assumption.
Qed.

Lemma generateInstallation_shows :
  Spec.resolvesClean clone_url name
    (ReadmeGenerator.generateInstallation toLowerCase techStack files) = true ->
  Spec.resolvesClean clone_url name "REPO_URL" = true
  /\ Spec.resolvesClean clone_url name "REPO_NAME" = true.
Proof.
  unfold ReadmeGenerator.generateInstallation, ReadmeGenerator.installStepsOf,
    ReadmeGenerator.packageManagerOf. cbv zeta.
  destruct (Js.arrIncludes _ "package.json").
  - unfold ReadmeGenerator.nodeInstallSteps, ReadmeGenerator.getCloneUrl,
      ReadmeGenerator.getRepoName.
    destruct (Js.arrIncludes _ "yarn.lock"); [|destruct (Js.arrIncludes _ "pnpm-lock.yaml")];
      intros H; clean_parts; split; assumption.
  - destruct (Js.arrIncludes _ "requirements.txt" || Js.arrIncludes _ "pyproject.toml");
      [|destruct (Js.arrIncludes _ "pom.xml")];
      unfold ReadmeGenerator.pythonInstallSteps, ReadmeGenerator.javaInstallSteps,
        ReadmeGenerator.genericInstallSteps, ReadmeGenerator.getCloneUrl,
        ReadmeGenerator.getRepoName;
      intros H; clean_parts; split; assumption.
Qed.

Lemma treeLines_show (l : list RepoFile.t) :
  Forall (fun t => Spec.resolvesClean clone_url name t = true) (Spec.treeLines l) ->
  Forall (fun f => Spec.resolvesClean clone_url name (RepoFile.name f) = true) l.
Proof.
  induction l as [|f l IH]; intros H; [constructor|].
  assert (Ei : Spec.endsPlain (Spec.icon f) = true)
    by (unfold Spec.icon; destruct (RepoFile.type f); reflexivity).
  destruct l as [|g l].
  - apply Forall_cons_inv in H as [Hx _]. unfold Spec.lastLine in Hx.
    apply clean_app_l_inv in Hx; [|assumption|assumption|reflexivity]. destruct Hx as [_ Hx].
    apply clean_app_l_inv in Hx; [|assumption|assumption|exact Ei]. destruct Hx as [_ Hx].
    repeat constructor. exact Hx.
  - change (Spec.treeLines (f :: g :: l)) with (Spec.branchLine f :: Spec.treeLines (g :: l))
      in H.
    apply Forall_cons_inv in H as [Hx Hl]. unfold Spec.branchLine in Hx.
    apply clean_app_l_inv in Hx; [|assumption|assumption|reflexivity]. destruct Hx as [_ Hx].
    apply clean_app_l_inv in Hx; [|assumption|assumption|exact Ei]. destruct Hx as [_ Hx].
    constructor; [exact Hx|]. apply IH. exact Hl.
Qed.

Lemma generateProjectStructure_shows (f : RepoFile.t) :
  In f files ->
  Spec.resolvesClean clone_url name
    (fst (ReadmeGenerator.generateProjectStructure localeCompare files)) = true ->
  Spec.resolvesClean clone_url name (RepoFile.name f) = true.
Proof.
  intros Hf H. unfold ReadmeGenerator.generateProjectStructure in H.
  rewrite buildFileTree_lines in H. cbn [fst] in H.
  apply clean_app_l_inv in H; [|assumption|assumption|reflexivity]. destruct H as [_ H].
  apply clean_app_r_inv in H; [|assumption|assumption|reflexivity]. destruct H as [H _].
  apply clean_join_inv in H; [|assumption|assumption|reflexivity|reflexivity].
  apply treeLines_show in H.
  apply (Permutation_Forall (sortBy_perm _ _)) in H.
  rewrite Forall_forall in H. now apply H.
Qed.

Lemma generateLicense_shows (l : License) :
  Repository.license repository = Some l ->
  Spec.resolvesClean clone_url name (ReadmeGenerator.generateLicense repository) = true ->
  Spec.resolvesClean clone_url name (license_name l) = true.
Proof.
  intros E H. unfold ReadmeGenerator.generateLicense in H. cbv zeta in H. rewrite E in H.
  apply clean_app_l_inv in H; [|assumption|assumption|reflexivity]. destruct H as [_ H].
  apply clean_app_r_inv in H; [|assumption|assumption|reflexivity]. destruct H as [H _].
  unfold Js.orElse in H. destruct (license_name l) as [|c s]; [reflexivity|exact H].
Qed.

(** A document that resolves to one without a placeholder: so does each
    of its sections, none of which the filter drops, and so does each text
    that a section shows. *)
Lemma generateReadme_shows :
  Spec.resolvesClean clone_url name
    (fst (ReadmeGenerator.generateReadme toLowerCase localeCompare toLocaleDateString
            percentOf repository techStack files)) = true ->
  Spec.tokenFree name = true
  /\ Spec.tokenFree (Js.replaceAll clone_url "REPO_NAME" name) = true
  /\ forall t,
       In t (Spec.shownTexts toLowerCase toLocaleDateString percentOf repository techStack
               files) ->
       Spec.resolvesClean clone_url name t = true.
Proof.
  intros H.
  assert (S : Forall (fun t => Spec.resolvesClean clone_url name t = true)
                (fst (ReadmeGenerator.allSections toLowerCase localeCompare
                        toLocaleDateString percentOf repository techStack files))).
  { pose proof (sections_truthy toLowerCase localeCompare toLocaleDateString percentOf
                  repository techStack files) as K.
    unfold ReadmeGenerator.generateReadme in H.
    destruct (ReadmeGenerator.allSections toLowerCase localeCompare toLocaleDateString
                percentOf repository techStack files) as [sections files'].
    cbn [fst] in *.
    apply clean_join_inv in H; [|assumption|assumption|reflexivity|reflexivity].
    rewrite Forall_forall in H, K. apply Forall_forall. intros t Ht. apply H.
    unfold ReadmeGenerator.keptSections. apply filter_In. split; [exact Ht|now apply K]. }
  rewrite allSections_conditions in S.
  apply (proj1 (Forall_app _ _ _)) in S as [S1 S2].
  apply (proj1 (Forall_app _ _ _)) in S2 as [_ S2].
  apply (proj1 (Forall_app _ _ _)) in S2 as [_ S2].
  apply Forall_cons_inv in S1 as [Hheader S1]. apply Forall_cons_inv in S1 as [Hbadges S1].
  apply Forall_cons_inv in S1 as [Hdesc S1]. apply Forall_cons_inv in S1 as [_ S1].
  apply Forall_cons_inv in S1 as [_ S1]. apply Forall_cons_inv in S1 as [Hstack S1].
  apply Forall_cons_inv in S1 as [Hinst S1]. apply Forall_cons_inv in S1 as [_ S1].
  apply Forall_cons_inv in S1 as [Hstruct _].
  apply Forall_cons_inv in S2 as [_ S2]. apply Forall_cons_inv in S2 as [Hlic _].
  destruct (generateInstallation_shows Hinst) as [Hu Hn].
  rewrite resolved_REPO_URL in Hu. rewrite resolved_REPO_NAME in Hn.
  split; [exact Hn|]. split; [exact Hu|].
  destruct (generateBadges_shows Hbadges) as (Hfull & Hurl & Hlang & Hspdx).
  destruct (generateDescription_shows Hdesc) as [Hcreated Hupdated].
  destruct (generateTechStack_shows Hstack) as (Hl & Hfw & Htl & Hdb & Hdp).
  rewrite Forall_forall in Hfw, Htl, Hdb, Hdp.
  intros t Ht. unfold Spec.shownTexts in Ht. cbv zeta in Ht.
  repeat (rewrite in_app_iff in Ht).
  destruct Ht as [Ht|[Ht|[Ht|[Ht|[Ht|[Ht|[Ht|[Ht|[Ht|Ht]]]]]]]]].
  - destruct Ht as [<-|[<-|[<-|[<-|[]]]]]; assumption.
  - destruct (Repository.description repository) as [d|] eqn:E; [|destruct Ht].
    destruct Ht as [<-|[]]. now apply generateHeader_shows.
  - destruct (Repository.language repository) as [language|] eqn:E; [|destruct Ht].
    destruct (Js.truthy language) eqn:Et; [|destruct Ht].
    destruct (Hlang language eq_refl Et) as [H1 H2].
    destruct Ht as [<-|[<-|[]]]; assumption.
  - destruct (Repository.license repository) as [l|] eqn:E; [|destruct Ht].
    destruct Ht as [<-|[<-|[]]]; [now apply generateLicense_shows|now apply Hspdx].
  - apply in_flat_map in Ht as (entry & He & Ht).
    destruct (Hl entry He) as [H1 H2]. destruct Ht as [<-|[<-|[]]]; assumption.
  - now apply Hfw.
  - now apply Htl.
  - now apply Hdb.
  - now apply Hdp.
  - apply in_map_iff in Ht as (f & <- & Hf).
    now apply (generateProjectStructure_shows f Hf).
Qed.

End Shown.

(** ** The document *)

(** What the condition on the texts covers: a text that holds no
    placeholder meets it whatever the values are, and every text meets it
    when the values are safe for the placeholders. *)
Lemma plain_text_resolves_clean (clone_url name t : string) :
  Spec.tokenFree t = true -> Spec.resolvesClean clone_url name t = true.
Proof. apply clean_free. Qed.

Lemma safe_values_resolve_clean (clone_url name t : string) :
  Spec.safeFor "REPO_URL" clone_url = true ->
  Spec.safeFor "REPO_URL" name = true ->
  Spec.safeFor "REPO_NAME" name = true ->
  Spec.resolvesClean clone_url name t = true.
Proof.
  intros Hu Hnu Hn. unfold Spec.resolvesClean, Spec.tokenFree.
  destruct (resolve_no_placeholder t clone_url name Hu Hnu Hn) as [-> ->]. reflexivity.
Qed.

(** Values that are safe for the placeholders meet the conditions on the
    values as well. *)
Lemma safe_values_are_plain (clone_url name : string) :
  Spec.safeFor "REPO_URL" clone_url = true ->
  Spec.safeFor "REPO_URL" name = true ->
  Spec.safeFor "REPO_NAME" name = true ->
  Js.mem "$"%char clone_url = false
  /\ Js.mem "$"%char name = false
  /\ Spec.tokenFree name = true
  /\ Spec.tokenFree (Js.replaceAll clone_url "REPO_NAME" name) = true.
Proof.
  intros Hu Hnu Hn.
  destruct (safeFor_inv _ _ Hu) as (_ & Hdu & _ & _).
  destruct (safeFor_inv _ _ Hn) as (_ & Hdn & _ & _).
  split; [exact Hdu|]. split; [exact Hdn|]. split.
  - rewrite <- (resolved_REPO_NAME clone_url name Hdn).
    now apply safe_values_resolve_clean.
  - rewrite <- (resolved_REPO_URL clone_url name Hdu).
    now apply safe_values_resolve_clean.
Qed.

(** C1, as amended: for every repository metadata, technology profile,
    file listing and runtime, the document of [generateReadme] holds both
    placeholders; and when the clone URL and the name hold no dollar (which
    [replace] reads as a pattern), the document holds neither REPO_URL nor
    REPO_NAME after the two replacements of [handleAnalyze] if and only if
    - the name holds neither placeholder, and neither does the clone URL
      once REPO_NAME is replaced in it, as the second replacement does;
    - each text that the document shows (the description, the full name,
      the URL, the language, the license, the dates, the labels and
      percentages of the profile, the names of the files), resolved alone,
      holds neither placeholder: as every text does that holds none to
      begin with. *)
Theorem resolved_document_has_no_placeholder
    (toLowerCase : string -> string) (localeCompare : string -> string -> Z)
    (toLocaleDateString : string -> string) (percentOf : Z -> Z -> string)
    (repo : Repository.t) (detectedTech : TechnologyStack.t) (repoFiles : list RepoFile.t) :
  Js.mem "$"%char (Repository.clone_url repo) = false ->
  Js.mem "$"%char (Repository.name repo) = false ->
  let readme :=
    fst (ReadmeGenerator.generateReadme toLowerCase localeCompare toLocaleDateString
           percentOf repo detectedTech repoFiles) in
  let finalReadme :=
    App.finalReadme toLowerCase localeCompare toLocaleDateString percentOf
      repo detectedTech repoFiles in
  (Js.includes readme "REPO_URL" = true /\ Js.includes readme "REPO_NAME" = true)
  /\ ((Js.includes finalReadme "REPO_URL" = false
       /\ Js.includes finalReadme "REPO_NAME" = false)
      <-> (Spec.tokenFree (Repository.name repo) = true
           /\ Spec.tokenFree
                (Js.replaceAll (Repository.clone_url repo) "REPO_NAME" (Repository.name repo))
              = true
           /\ forallb (Spec.resolvesClean (Repository.clone_url repo) (Repository.name repo))
                (Spec.shownTexts toLowerCase toLocaleDateString percentOf repo detectedTech
                   repoFiles)
              = true)).
Proof.
  intros Hdu Hdn. cbv zeta. split; [apply generateReadme_placeholders|].
  unfold App.finalReadme. split.
  - intros [H1 H2].
    assert (H : Spec.resolvesClean (Repository.clone_url repo) (Repository.name repo)
                  (fst (ReadmeGenerator.generateReadme toLowerCase localeCompare
                          toLocaleDateString percentOf repo detectedTech repoFiles)) = true)
      by (unfold Spec.resolvesClean, Spec.tokenFree; now rewrite H1, H2).
    apply (generateReadme_shows _ _ Hdu Hdn) in H as (Hn & Hu & Hall).
    split; [exact Hn|]. split; [exact Hu|]. apply forallb_forall. exact Hall.
  - intros (Hn & Hu & Hall). apply tokenFree_inv.
    apply (clean_generateReadme _ _ Hdu Hdn Hu Hn toLowerCase localeCompare toLocaleDateString
             percentOf repo detectedTech repoFiles).
    intros t Ht. revert t Ht. apply forallb_forall. exact Hall.
Qed.

(** C1, a witness: a repository named Express, a name that begins as
    REPO_NAME ends, with a description that names REPO_URL; the resolved
    document holds neither placeholder. *)
Lemma resolved_document_has_no_placeholder_witness :
  Js.includes
    (App.finalReadme Sample.lowerAscii Sample.collate Sample.isoDay Sample.percentOf
       Sample.express Sample.reactStack Sample.nodeListing) "REPO_URL" = false
  /\ Js.includes
       (App.finalReadme Sample.lowerAscii Sample.collate Sample.isoDay Sample.percentOf
          Sample.express Sample.reactStack Sample.nodeListing) "REPO_NAME" = false.
Proof.
  apply (proj2 (proj2 (resolved_document_has_no_placeholder Sample.lowerAscii Sample.collate
                         Sample.isoDay Sample.percentOf Sample.express Sample.reactStack
                         Sample.nodeListing eq_refl eq_refl))).
  repeat split; vm_compute; reflexivity.
Defined.

(** The name Express is not safe for REPO_NAME, and the description of
    the witness holds a placeholder; resolved alone, the description holds
    none. *)
Example express_resolves_clean :
  Spec.safeFor "REPO_NAME" "Express" = false
  /\ Spec.tokenFree "Fast web framework. Clone it from REPO_URL." = false
  /\ App.resolve "Fast web framework. Clone it from REPO_URL."
       "https://github.com/expressjs/Express.git" "Express"
     = "Fast web framework. Clone it from https://github.com/expressjs/Express.git.".
Proof. repeat split; vm_compute; reflexivity. Qed.

(** With a description that ends in REPO_NAME after REPO_NAM, the name
    Express leaves REPO_NAME in the resolved document: the description,
    resolved alone, holds it. *)
Example overlap_in_the_description_keeps_a_token :
  Spec.resolvesClean "https://github.com/expressjs/Express.git" "Express" "REPO_NAMREPO_NAME"
  = false
  /\ App.resolve "REPO_NAMREPO_NAME" "https://github.com/expressjs/Express.git" "Express"
     = "REPO_NAMExpress"
  /\ Js.includes
       (App.finalReadme Sample.lowerAscii Sample.collate Sample.isoDay Sample.percentOf
          Sample.overlapping Sample.reactStack Sample.nodeListing) "REPO_NAME" = true.
Proof. repeat split; vm_compute; reflexivity. Qed.
